(** * linkedin_scraper: saved-jobs extraction, click pagination, login polling

    A shallow embedding of
      - [src/linkedin_scraper/scrapers/saved_jobs.py]  (class SavedJobsScraper),
      - [src/scrape_saved_jobs.py]                     (the click-pagination script),
      - [src/create_session.py]                        (the login poll loop),
    together with the properties the specification states about them.  The
    scroll pager, whose code (scrapers/base.py) is not among the sources, is
    modelled from the specification.

    The browser is not part of the repository: every Playwright call is an
    oracle whose answer (a value or a raised exception) is supplied by an
    environment record; the programs thread a trace of the observable actions
    they perform (callbacks, log records, prints, sleeps, clicks). *)

From stdpp Require Import base list gmap strings pretty.
From Stdlib Require Import Ascii String ZArith Lia QArith.

#[local] Set Warnings "-clear-no-such-hyp".

Open Scope string_scope.
Open Scope list_scope.
Open Scope Z_scope.

(** ** Python values *)

Module Py.

(** The exception classes the three programs can see.  [PyException] stands
    for any [Exception] raised by the browser driver; [str(e)] is its message.
    Strings are strings of bytes; the tests the programs make on them (a
    one-character separator, ASCII prefixes and substrings) read the same on
    the UTF-8 encoding of a Python string. *)
Inductive exn : Type :=
  | PyException (msg : string)
  | AuthenticationError (msg : string)
  | ScrapingError (msg : string).

Definition exn_str (e : exn) : string :=
  match e with
  | PyException m | AuthenticationError m | ScrapingError m => m
  end.

(** The answer of one awaited call: a value, or a raised exception. *)
Inductive result (A : Type) : Type :=
  | Ok (a : A)
  | Raise (e : exn).
Arguments Ok {A} a.
Arguments Raise {A} e.

(** [s.startswith(p)] *)
Fixpoint startswith (p s : string) : bool :=
  match p with
  | EmptyString => true
  | String a p' =>
      match s with
      | EmptyString => false
      | String b s' => Ascii.eqb a b && startswith p' s'
      end
  end.

(** [needle in hay] *)
Fixpoint str_in (needle hay : string) : bool :=
  startswith needle hay ||
  match hay with
  | EmptyString => false
  | String _ hay' => str_in needle hay'
  end.

(** [s.split(sep)[0]] for a one-character separator: the part of [s] before
    the first [sep], all of [s] when there is none. *)
Fixpoint split0 (sep : ascii) (s : string) : string :=
  match s with
  | EmptyString => EmptyString
  | String c s' => if Ascii.eqb c sep then EmptyString else String c (split0 sep s')
  end.

(** Truthiness of an [Optional[str]]: [None] and the empty string are falsy. *)
Definition truthy (o : option string) : bool :=
  match o with
  | None => false
  | Some EmptyString => false
  | Some _ => true
  end.

(** The one-character string holding a double quote. *)
Definition dquote : string := String (Ascii.ascii_of_nat 34) EmptyString.

(** The one-character string holding a line feed. *)
Definition nl : string := String (Ascii.ascii_of_nat 10) EmptyString.

(** [len(l)] *)
Definition len {A} (l : list A) : Z := Z.of_nat (List.length l).

(** [range(n)] *)
Definition py_range (n : Z) : list Z := map Z.of_nat (seq 0 (Z.to_nat n)).

(** [str(n)] for an integer. *)
Definition str_of_Z (n : Z) : string := pretty n.

End Py.
Export Py.

(** ** Computations: a trace of events and a result

    [M E A] is a computation that emits events of type [E] and ends with a
    value or a raised exception.  [try_except] is Python's
    [try: ... except Exception as e: ...]; the events emitted before the
    exception stay in the trace. *)

Module Eff.

Definition M (E A : Type) : Type := (result A * list E)%type.

Definition ret {E A} (a : A) : M E A := (Ok a, []).

Definition raise {E A} (e : exn) : M E A := (Raise e, []).

Definition emit {E} (ev : E) : M E unit := (Ok tt, [ev]).

(** Await an oracle's answer. *)
Definition await {E A} (r : result A) : M E A := (r, []).

Definition bind {E A B} (m : M E A) (k : A -> M E B) : M E B :=
  match m with
  | (Ok a, t1) => let '(r, t2) := k a in (r, t1 ++ t2)
  | (Raise e, t1) => (Raise e, t1)
  end.

Definition try_except {E A} (body : M E A) (handler : exn -> M E A) : M E A :=
  match body with
  | (Ok a, t1) => (Ok a, t1)
  | (Raise e, t1) => let '(r, t2) := handler e in (r, t1 ++ t2)
  end.

Definition value {E A} (m : M E A) : result A := fst m.
Definition trace {E A} (m : M E A) : list E := snd m.

End Eff.
Export Eff.

Notation "'do' x <- m ; k" := (bind m (fun x => k))
  (at level 10, x name, m at level 100, k at level 200, only parsing).
Notation "'run' m ; k" := (bind m (fun _ => k))
  (at level 10, m at level 100, k at level 200, only parsing).

(** ** Anchor elements and URL normalisation

    Both programs read anchors the same way (saved_jobs.py lines 105-111,
    scrape_saved_jobs.py lines 71-75). *)

Module Anchor.

(** A located anchor element: what [await link.get_attribute("href")]
    answers.  [Raise] is a stale or detached handle, [Ok None] an anchor
    without the attribute. *)
Record link : Type := { get_attribute_href : result (option string) }.

Definition anchor (href : string) : link := {| get_attribute_href := Ok (Some href) |}.
Definition stale (e : exn) : link := {| get_attribute_href := Raise e |}.

Definition base_origin : string := "https://www.linkedin.com".

(** [href and "/jobs/view/" in href] *)
Definition matches (href : option string) : bool :=
  truthy href &&
  match href with
  | Some h => str_in "/jobs/view/" h
  | None => false
  end.

(** [href.split("?")[0] if "?" in href else href] *)
Definition strip_query (href : string) : string :=
  if str_in "?" href then split0 "?"%char href else href.

(** Lines 109-111: strip the query string, then qualify a relative path. *)
Definition clean_url (href : string) : string :=
  let clean := strip_query href in
  if negb (startswith "http" clean) then base_origin +:+ clean else clean.

End Anchor.
Export Anchor.

(** ** SavedJobsScraper (saved_jobs.py) *)

Module SavedJobs.

Inductive level : Type := INFO | DEBUG | WARNING.

(** The calls made on the page and on the base class. *)
Inductive page_op : Type :=
  | NavigateAndWait (url : string)
  | EnsureLoggedIn
  | WaitForSelector (selector : string) (timeout : Z)
  | WaitAndFocus (seconds : Z)
  | CloseModals
  | ScrollPageToBottom (pause_time : Q) (max_scrolls : Z)
  | LocatorAll (selector : string)
  | GetAttribute (name : string).

Inductive event : Type :=
  | Log (lvl : level) (msg : string)
  | OnStart (scraper_type url : string)
  | OnProgress (message : string) (percent : Z)
  | OnComplete (scraper_type : string) (job_urls : list string)
  | OnError (e : exn)
  | Page (op : page_op).

(** What the page and the methods inherited from BaseScraper (base.py, not
    in the repository's sources) answer when awaited. *)
Record page : Type := {
  navigate_and_wait : string -> result unit;
  ensure_logged_in : result unit;
  wait_for_selector : string -> Z -> result unit;
  wait_and_focus : Z -> result unit;
  close_modals : result unit;
  scroll_page_to_bottom : Q -> Z -> result unit;
  locator_all : string -> result (list link);
}.

(** What the methods of the progress callback answer when awaited.  The
    callback is supplied by the caller of the scraper (line 30 falls back on
    [SilentCallback]); its code is the caller's, so each method may return or
    raise. *)
Record callback : Type := {
  on_start : string -> string -> result unit;
  on_progress : string -> Z -> result unit;
  on_complete : string -> list string -> result unit;
  on_error : exn -> result unit;
}.

(** The default callback of line 30 (callbacks.py, not in the repository's
    sources): every method returns. *)
Definition SilentCallback : callback :=
  {| on_start _ _ := Ok tt;
     on_progress _ _ := Ok tt;
     on_complete _ _ := Ok tt;
     on_error _ := Ok tt |}.

Definition call {A} (op : page_op) (answer : result A) : M event A :=
  run emit (Page op); await answer.

(** An awaited method of the callback: the call is an event of the trace,
    and its answer decides how the run goes on. *)
Definition notify (ev : event) (answer : result unit) : M event unit :=
  run emit ev; await answer.

Definition saved_jobs_url : string := "https://www.linkedin.com/my-items/saved-jobs/".
(** The selector [a[href*="/jobs/view/"]]. *)
Definition job_link_selector : string :=
  "a[href*=" +:+ dquote +:+ "/jobs/view/" +:+ dquote +:+ "]".

(** [not href or "/jobs/view/" not in href] (line 106); the second operand is
    evaluated only for a truthy [href]. *)
Definition skipped (href : option string) : bool :=
  negb (truthy href) ||
  negb (match href with Some h => str_in "/jobs/view/" h | None => false end).

(** The two accumulators of lines 94-95. *)
Definition accum : Type := (list string * gset string)%type.

(** Lines 105-115, the body of the inner [try]. *)
Definition read_link (lk : link) (acc : accum) : M event accum :=
  do href <- call (GetAttribute "href") (get_attribute_href lk);
  if skipped href then ret acc
  else
    let clean := clean_url (default EmptyString href) in
    if decide (clean ∈ acc.2) then ret acc
    else ret (acc.1 ++ [clean], {[clean]} ∪ acc.2).

(** Lines 100-118: the [for] loop with its [break] and the inner
    [try ... except Exception]. *)
Fixpoint extract_loop (limit : Z) (job_links : list link) (acc : accum) : M event accum :=
  match job_links with
  | [] => ret acc
  | lk :: rest =>
      if limit <=? len acc.1 then ret acc
      else
        do acc' <- try_except (read_link lk acc)
                     (fun e =>
                        run emit (Log DEBUG ("Error extracting saved job URL: " +:+ exn_str e));
                        ret acc);
        extract_loop limit rest acc'
  end.

(** Lines 94-123.  The outer handler returns [job_urls] as it is when the
    exception reaches it.  The loop never raises (lemma [extract_loop_ok]),
    so the handler can only run for a failure of [locator(...).all()], when
    [job_urls] is still the empty list of line 94. *)
Definition _extract_job_urls (pg : page) (limit : Z) : M event (list string) :=
  let job_urls : list string := [] in
  let seen_urls : gset string := ∅ in
  try_except
    (do job_links <- call (LocatorAll job_link_selector) (locator_all pg job_link_selector);
     do acc <- extract_loop limit job_links (job_urls, seen_urls);
     ret acc.1)
    (fun e =>
       run emit (Log WARNING ("Error extracting saved job URLs: " +:+ exn_str e));
       ret job_urls).

(** Lines 53-82.  [pause_time] (a float in the source) is only handed on to
    [scroll_page_to_bottom].  [on_start] is awaited before the guard and
    outside the [try]; [on_progress] and [on_complete] are awaited inside it;
    [on_error] is awaited in the handler, before the [raise]. *)
Definition scrape (cb : callback) (pg : page) (limit max_scrolls : Z) (pause_time : Q)
  : M event (list string) :=
  run emit (Log INFO "Starting saved jobs scraping");
  run notify (OnStart "SavedJobs" saved_jobs_url) (on_start cb "SavedJobs" saved_jobs_url);
  if limit <=? 0 then ret []
  else
    try_except
      (run call (NavigateAndWait saved_jobs_url) (navigate_and_wait pg saved_jobs_url);
       run notify (OnProgress "Navigated to saved jobs" 10)
             (on_progress cb "Navigated to saved jobs" 10);
       run call EnsureLoggedIn (ensure_logged_in pg);
       run call (WaitForSelector "main" 10000) (wait_for_selector pg "main" 10000);
       run call (WaitAndFocus 1) (wait_and_focus pg 1);
       run call CloseModals (close_modals pg);
       run call (ScrollPageToBottom pause_time max_scrolls)
             (scroll_page_to_bottom pg pause_time max_scrolls);
       do job_urls <- _extract_job_urls pg limit;
       run notify (OnProgress ("Found " +:+ str_of_Z (len job_urls) +:+ " saved jobs") 90)
             (on_progress cb ("Found " +:+ str_of_Z (len job_urls) +:+ " saved jobs") 90);
       run notify (OnComplete "SavedJobs" job_urls) (on_complete cb "SavedJobs" job_urls);
       run emit (Log INFO ("Saved jobs scraping complete: " +:+ str_of_Z (len job_urls)
                           +:+ " jobs"));
       ret job_urls)
      (fun e =>
         run notify (OnError e) (on_error cb e);
         raise (ScrapingError ("Failed to scrape saved jobs: " +:+ exn_str e))).

(** The anchors the page shows (none when locating them fails). *)
Definition anchors (pg : page) : list link :=
  match locator_all pg job_link_selector with
  | Ok job_links => job_links
  | Raise _ => []
  end.

(** The answers to the calls made directly in the [try] block of [scrape]
    (lines 61-71), in the order in which they are made. *)
Definition page_steps (pg : page) (max_scrolls : Z) (pause_time : Q) : list (result unit) :=
  [navigate_and_wait pg saved_jobs_url; ensure_logged_in pg;
   wait_for_selector pg "main" 10000; wait_and_focus pg 1; close_modals pg;
   scroll_page_to_bottom pg pause_time max_scrolls].

(** The exception of the first call that raises, if any. *)
Fixpoint first_failure (answers : list (result unit)) : option exn :=
  match answers with
  | [] => None
  | Ok _ :: rest => first_failure rest
  | Raise e :: _ => Some e
  end.

(** The list [_extract_job_urls] returns on a page (it never raises). *)
Definition extracted (pg : page) (limit : Z) : list string :=
  match value (_extract_job_urls pg limit) with
  | Ok job_urls => job_urls
  | Raise _ => []
  end.

(** The answers to everything awaited directly in the [try] block of
    [scrape] (lines 61-75), in the order in which it is awaited: the six
    calls of [page_steps], [on_progress] after the navigation, and, once the
    URLs are extracted, [on_progress] and [on_complete]. *)
Definition awaited (cb : callback) (pg : page) (limit max_scrolls : Z) (pause_time : Q)
  : list (result unit) :=
  [navigate_and_wait pg saved_jobs_url;
   on_progress cb "Navigated to saved jobs" 10;
   ensure_logged_in pg;
   wait_for_selector pg "main" 10000;
   wait_and_focus pg 1;
   close_modals pg;
   scroll_page_to_bottom pg pause_time max_scrolls;
   on_progress cb ("Found " +:+ str_of_Z (len (extracted pg limit)) +:+ " saved jobs") 90;
   on_complete cb "SavedJobs" (extracted pg limit)].

(** A page on which every call succeeds, and locating the job anchors
    answers [located]. *)
Definition page_showing (located : result (list link)) : page :=
  {| navigate_and_wait _ := Ok tt;
     ensure_logged_in := Ok tt;
     wait_for_selector _ _ := Ok tt;
     wait_and_focus _ := Ok tt;
     close_modals := Ok tt;
     scroll_page_to_bottom _ _ := Ok tt;
     locator_all _ := located |}.

(** The calls of [on_error] in a trace. *)
Definition is_on_error (ev : event) : bool :=
  match ev with OnError _ => true | _ => false end.

End SavedJobs.

(** ** The click-pagination script (scrape_saved_jobs.py, lines 50-121) *)

Module ScrapeSavedJobs.

Inductive event : Type :=
  | Print (msg : string)
  | Sleep (seconds : Z)
  | Evaluate (js : string)
  | LocatorAll (selector : string)
  | GetAttribute (name : string)
  | NextCount (answer : Z)
  | NextIsDisabled (answer : bool)
  | NextClick.

(** What the browser answers during one iteration of the [while True] loop:
    the scroll, the anchors located, and the state of the next-page control. *)
Record page_view : Type := {
  evaluate : result unit;
  locator_all : result (list link);
  next_count : result Z;
  next_is_disabled : result bool;
  next_click : result unit;
}.

(** The browser: the view shown at each iteration, counted from 0. *)
Definition browser : Type := nat -> page_view.

Definition scroll_js : string := "window.scrollTo(0, document.body.scrollHeight)".
Definition job_link_selector : string := SavedJobs.job_link_selector.

(** Lines 71-77, the body of the inner [try]. *)
Definition read_link (lk : link) (all_job_urls : list string) : M event (list string) :=
  do href <- (run emit (GetAttribute "href"); await (get_attribute_href lk));
  if matches href then
    let clean := clean_url (default EmptyString href) in
    if decide (clean ∈ all_job_urls) then ret all_job_urls
    else ret (all_job_urls ++ [clean])
  else ret all_job_urls.

(** Lines 69-79: the [for] loop with its bare [except: continue]. *)
Fixpoint links_loop (job_links : list link) (all_job_urls : list string) : M event (list string) :=
  match job_links with
  | [] => ret all_job_urls
  | lk :: rest =>
      do urls <- try_except (read_link lk all_job_urls) (fun _ => ret all_job_urls);
      links_loop rest urls
  end.

(** Lines 58-99: one iteration.  The boolean says whether the loop goes on
    (a click was made) or was left by [break]. *)
Definition page_step (v : page_view) (all_job_urls : list string) (page_num : Z)
  : M event (bool * list string * Z) :=
  run emit (Print (nl +:+ "=== Scraping page " +:+ str_of_Z page_num +:+ " ==="));
  run (run emit (Evaluate scroll_js); await (evaluate v));
  run emit (Sleep 2);
  do job_links <- (run emit (LocatorAll job_link_selector); await (locator_all v));
  run emit (Print ("Found " +:+ str_of_Z (len job_links) +:+ " job links on page "
                   +:+ str_of_Z page_num));
  do urls <- links_loop job_links all_job_urls;
  do next_button_count <- await (next_count v);
  run emit (NextCount next_button_count);
  if 0 <? next_button_count then
    do is_disabled <- await (next_is_disabled v);
    run emit (NextIsDisabled is_disabled);
    if negb is_disabled then
      run emit (Print ("Clicking 'Next' button to go to page " +:+ str_of_Z (page_num + 1)
                       +:+ "..."));
      run (run emit NextClick; await (next_click v));
      run emit (Sleep 3);
      ret (true, urls, page_num + 1)
    else
      run emit (Print "'Next' button is disabled - reached last page");
      ret (false, urls, page_num)
  else
    run emit (Print "No 'Next' button found - only one page");
    ret (false, urls, page_num).

(** Lines 57-99: [while True].  [fuel] bounds the number of iterations the
    model follows; [None] means the loop was still running when it ran out. *)
Fixpoint pages_loop (fuel : nat) (br : browser) (i : nat)
    (all_job_urls : list string) (page_num : Z)
  : option (result (list string * Z)) * list event :=
  match fuel with
  | O => (None, [])
  | S fuel' =>
      match page_step (br i) all_job_urls page_num with
      | (Raise e, t) => (Some (Raise e), t)
      | (Ok (false, urls, page_num'), t) => (Some (Ok (urls, page_num')), t)
      | (Ok (true, urls, page_num'), t) =>
          let '(r, t') := pages_loop fuel' br (S i) urls page_num' in (r, t ++ t')
      end
  end.

(** How the [try] block of lines 50-121 ends, as far as line 102. *)
Inductive outcome : Type :=
  | Collected (job_urls : list string) (page_num : Z)
  | Failed (e : exn)
  | Running.

(** [main] from line 50 to line 102, with the handler of lines 120-121.
    What precedes line 50 loads the session and waits for a manual login;
    what follows line 102 prints and saves [job_urls].  Neither touches the
    accumulated list. *)
Definition main (fuel : nat) (br : browser) : outcome * list event :=
  match pages_loop fuel br 0 [] 1 with
  | (None, t) => (Running, Sleep 3 :: t)
  | (Some (Raise e), t) =>
      (Failed e, Sleep 3 :: t ++ [Print (nl +:+ "Error: " +:+ exn_str e)])
  | (Some (Ok (job_urls, page_num)), t) =>
      (Collected job_urls page_num,
       Sleep 3 :: t ++
       [Print (nl +:+ "=== Total: Extracted " +:+ str_of_Z (len job_urls)
               +:+ " unique job URLs from " +:+ str_of_Z page_num +:+ " page(s) ===")])
  end.

(** The number of clicks issued in a trace. *)
Definition is_click (ev : event) : bool :=
  match ev with NextClick => true | _ => false end.

Definition clicks (t : list event) : nat := List.length (List.filter is_click t).

(** The next-page control was observed disabled. *)
Definition is_disabled_obs (ev : event) : bool :=
  match ev with NextIsDisabled true => true | _ => false end.

(** A trace without a click, and a trace without a disabled observation. *)
Definition quiet (t : list event) : bool := forallb (fun ev => negb (is_click ev)) t.
Definition enabled (t : list event) : bool := forallb (fun ev => negb (is_disabled_obs ev)) t.

(** No click follows an observation of a disabled control. *)
Fixpoint no_click_after_disabled (t : list event) : bool :=
  match t with
  | [] => true
  | ev :: t' => if is_disabled_obs ev then quiet t' else no_click_after_disabled t'
  end.

(** The anchors a view shows (none when locating them fails). *)
Definition anchors (v : page_view) : list link :=
  match locator_all v with Ok job_links => job_links | Raise _ => [] end.

(** The iteration on view [v] goes on to a next page: no call raises, the
    control is present and enabled, and the click succeeds. *)
Definition advances (v : page_view) : bool :=
  match evaluate v, locator_all v, next_count v, next_is_disabled v, next_click v with
  | Ok _, Ok _, Ok c, Ok false, Ok _ => 0 <? c
  | _, _, _, _, _ => false
  end.

(** The iteration on view [v] finds the next-page control absent. *)
Definition control_absent (v : page_view) : bool :=
  match evaluate v, locator_all v, next_count v with
  | Ok _, Ok _, Ok c => negb (0 <? c)
  | _, _, _ => false
  end.

(** The iteration on view [v] finds the next-page control present but disabled. *)
Definition control_disabled (v : page_view) : bool :=
  match evaluate v, locator_all v, next_count v, next_is_disabled v with
  | Ok _, Ok _, Ok c, Ok true => 0 <? c
  | _, _, _, _ => false
  end.

(** The browser lets the first [k] iterations advance, and at iteration [k]
    shows a next-page control that is absent or disabled. *)
Definition stops_at (br : browser) (k : nat) : bool :=
  forallb (fun j => advances (br j)) (seq 0 k)
  && (control_absent (br k) || control_disabled (br k)).

End ScrapeSavedJobs.

(** ** The login poll loop (create_session.py, lines 24-41) *)

Module CreateSession.

Inductive event : Type :=
  | Sleep (seconds : Z)
  | IsLoggedIn (answer : bool)
  | Print (msg : string).

(** The f-string of line 37. *)
Definition detected_msg (time_elapsed : Z) : string :=
  nl +:+ "[" +:+ str_of_Z time_elapsed +:+ "s] LOGIN DETECTED!".

(** The f-string of line 40. *)
Definition waiting_msg (time_elapsed time_remaining : Z) : string :=
  "[" +:+ str_of_Z time_elapsed +:+ "s] Not logged in yet... ("
  +:+ str_of_Z time_remaining +:+ "s remaining)".

(** Lines 27-40.  [is_logged_in] (imported from the linkedin_scraper package,
    whose module is not in the repository's sources) is the oracle: its
    answer at each attempt. *)
Fixpoint poll_loop (is_logged_in : Z -> bool) (max_attempts : Z)
    (attempts : list Z) (logged_in : bool) : M event bool :=
  match attempts with
  | [] => ret logged_in
  | attempt :: rest =>
      run emit (Sleep 10);
      let logged_in := is_logged_in attempt in
      run emit (IsLoggedIn logged_in);
      let time_elapsed := (attempt + 1) * 10 in
      let time_remaining := max_attempts * 10 - time_elapsed in
      if logged_in then
        run emit (Print (detected_msg time_elapsed));
        ret logged_in
      else
        run emit (Print (waiting_msg time_elapsed time_remaining));
        poll_loop is_logged_in max_attempts rest logged_in
  end.

(** Lines 24-40 for a given [max_attempts]. *)
Definition poll_with (max_attempts : Z) (is_logged_in : Z -> bool) : M event bool :=
  poll_loop is_logged_in max_attempts (py_range max_attempts) false.

(** Line 24. *)
Definition max_attempts : Z := 30.

(** [create_session], lines 24-40: the poll loop with the constants the
    script fixes. *)
Definition create_session (is_logged_in : Z -> bool) : M event bool :=
  poll_with max_attempts is_logged_in.

(** The interval between samples and the total budget, in seconds. *)
Definition interval : Z := 10.
Definition timeout (max_attempts : Z) : Z := max_attempts * 10.

(** Seconds slept in a trace, and the number of samples taken. *)
Fixpoint slept (t : list event) : Z :=
  match t with
  | [] => 0
  | Sleep s :: t' => s + slept t'
  | _ :: t' => slept t'
  end.

Fixpoint samples (t : list event) : nat :=
  match t with
  | [] => O
  | IsLoggedIn _ :: t' => S (samples t')
  | _ :: t' => samples t'
  end.

(** What a sample that is not logged in leaves in the trace. *)
Definition waiting_block (max_attempts attempt : Z) : list event :=
  [Sleep 10; IsLoggedIn false;
   Print (waiting_msg ((attempt + 1) * 10) (max_attempts * 10 - (attempt + 1) * 10))].

(** What the sample that detects the login leaves in the trace. *)
Definition detected_block (attempt : Z) : list event :=
  [Sleep 10; IsLoggedIn true; Print (detected_msg ((attempt + 1) * 10))].

(** The attempts made before the login is detected. *)
Fixpoint waited (is_logged_in : Z -> bool) (attempts : list Z) : list Z :=
  match attempts with
  | [] => []
  | a :: rest => if is_logged_in a then [] else a :: waited is_logged_in rest
  end.

(** [msg] reports the time [seconds], as in [10s]. *)
Definition reports (seconds : Z) (msg : string) : bool :=
  str_in (str_of_Z seconds +:+ "s") msg.

(** The first attempt among [attempts] at which the oracle answers [True]. *)
Fixpoint first_login (is_logged_in : Z -> bool) (attempts : list Z) : option Z :=
  match attempts with
  | [] => None
  | a :: rest => if is_logged_in a then Some a else first_login is_logged_in rest
  end.

End CreateSession.

(** ** The scroll pager *)

Module ScrollPager.

Inductive phase : Type := READY | SCROLLING | STABLE | DONE.

Inductive action : Type :=
  | ScrollToBottom
  | Wait
  | Sample (count : Z).

(** Modelled from the spec: [BaseScraper.scroll_page_to_bottom], called at
    saved_jobs.py lines 69-71, is defined in scrapers/base.py, which is not
    among the repository's sources.  Section 4.4 of the specification: one
    iteration issues a scroll-to-bottom action, waits, and samples the item
    count; an increased count repeats (up to [max_scrolls] iterations in
    total), an unchanged count stops in STABLE, and running out of iterations
    stops in DONE.  The specification's scenario (counts [10, 10] on the first
    two samples, one scroll issued) fixes that the first sample is taken
    before the first scroll.  The specification is silent about a count that
    decreases; [stop_on_decrease] chooses between stopping and repeating.
    [counts k] is the item count the page reports at the k-th sample. *)
Fixpoint scrolling (stop_on_decrease : bool) (counts : nat -> Z)
    (remaining : nat) (k : nat) (previous : Z) : phase * list action :=
  match remaining with
  | O => (DONE, [])
  | S remaining' =>
      let current := counts k in
      let acts := [ScrollToBottom; Wait; Sample current] in
      if previous <? current then
        let '(p, t) := scrolling stop_on_decrease counts remaining' (S k) current in
        (p, acts ++ t)
      else if (current =? previous) || stop_on_decrease then (STABLE, acts)
      else
        let '(p, t) := scrolling stop_on_decrease counts remaining' (S k) current in
        (p, acts ++ t)
  end.

(** Modelled from the spec: the pager started in READY. *)
Definition scroll_page_to_bottom (stop_on_decrease : bool) (max_scrolls : nat) (counts : nat -> Z)
  : phase * list action :=
  let first := counts O in
  let '(p, t) := scrolling stop_on_decrease counts max_scrolls 1%nat first in
  (p, Sample first :: t).




End ScrollPager.

(** ** What the extraction is specified to return *)

Module Spec.

(** The normalized URL of every anchor that can be read and matches, in
    document order. *)
Definition normalized (job_links : list link) : list string :=
  omap (fun lk =>
          match get_attribute_href lk with
          | Ok href => if matches href then Some (clean_url (default EmptyString href)) else None
          | Raise _ => None
          end) job_links.

(** The normalized URLs the browser shows on its first [k] views, in order. *)
Definition shown (br : ScrapeSavedJobs.browser) (k : nat) : list string :=
  flat_map (fun i => normalized (ScrapeSavedJobs.anchors (br i))) (seq 0 k).

(** Each element once, at the place of its first occurrence. *)
Fixpoint first_seen (l : list string) : list string :=
  match l with
  | [] => []
  | x :: l' => x :: filter (fun y => y ≠ x) (first_seen l')
  end.

(** [u] occurs in [l] before an occurrence of [v]. *)
Definition before (u v : string) (l : list string) : Prop :=
  ∃ l1 l2 l3, l = l1 ++ u :: l2 ++ v :: l3.

(** The first occurrence of [u] in [l] comes before the first occurrence of [v]. *)
Definition first_before (u v : string) (l : list string) : Prop :=
  ∃ l1 l2 l3,
    l = l1 ++ u :: l2 ++ v :: l3 ∧ (u ∉ l1) ∧ (v ∉ l1) ∧ (v ∉ l2) ∧ u ≠ v.

(** [out] lists elements of [input] in the order in which [input] first
    shows them. *)
Definition first_seen_order (input out : list string) : Prop :=
  ∀ u v, before u v out → first_before u v input.

(** One step of accumulation: append unless already present. *)
Definition absorb (urls : list string) (x : string) : list string :=
  if decide (x ∈ urls) then urls else urls ++ [x].

(** A returned URL is well formed: no query mark, and an absolute scheme. *)
Definition well_formed (u : string) : Prop :=
  str_in "?" u = false ∧ startswith "http" u = true.

(** The number of distinct elements of a list. *)
Definition distinct (l : list string) : nat := size (list_to_set l : gset string).

End Spec.

(** ** Concrete browsers *)

Module Examples.

(** The three anchors of the specification's extraction scenario. *)
Definition three_anchors : list link :=
  [anchor "/jobs/view/111?pos=1"; anchor "/jobs/view/111?pos=2"; anchor "/jobs/view/222"].

Definition page_three : SavedJobs.page := SavedJobs.page_showing (Ok three_anchors).



(** A view on which every call succeeds. *)
Definition view (job_links : list link) (count : Z) (disabled : bool) : ScrapeSavedJobs.page_view :=
  {| ScrapeSavedJobs.evaluate := Ok tt;
     ScrapeSavedJobs.locator_all := Ok job_links;
     ScrapeSavedJobs.next_count := Ok count;
     ScrapeSavedJobs.next_is_disabled := Ok disabled;
     ScrapeSavedJobs.next_click := Ok tt |}.

(** Two pages of saved jobs; the second repeats a job of the first, holds a
    stale anchor, and shows the next-page control disabled. *)
Definition two_pages : ScrapeSavedJobs.browser :=
  fun i =>
    match i with
    | O => view [anchor "/jobs/view/1?x=1"; anchor "/jobs/view/2"] 1 false
    | _ => view [anchor "/jobs/view/2?y=2"; stale (PyException "stale element");
                 anchor "/jobs/view/3"] 1 true
    end.

(** A user who logs in between the second and the third sample. *)
Definition logs_in_at_third (attempt : Z) : bool := 2 <=? attempt.

End Examples.

(** ** The rest of the click-pagination script (scrape_saved_jobs.py) *)

Module SavedJobsMain.

Inductive event : Type :=
  | Paging (ev : ScrapeSavedJobs.event)
  | Print (msg : string)
  | Sleep (seconds : Z)
  | LoadSession (path : string)
  | Goto (url : string) (timeout : Z)
  | PageUrl (url : string)
  | SaveSession (path : string)
  | Open (path : string)
  | Write (content : string).

(** What the browser and the file system answer during a run of [main].
    [page_url_start] is the URL read at line 22, [page_url_at i] the URL read
    at attempt [i] of the waiting loop (line 36); [goto_start] and
    [goto_back] are the navigations of lines 19 and 42. *)
Record world : Type := {
  load_session : result unit;
  goto_start : result unit;
  page_url_start : string;
  page_url_at : Z -> string;
  save_session : result unit;
  goto_back : result unit;
  views : ScrapeSavedJobs.browser;
  open_file : result unit;
  write_file : string -> result unit;
}.

Definition saved_jobs_url : string := "https://www.linkedin.com/my-items/saved-jobs/".
Definition rule : string :=
  "============================================================".

(** Lines 34-45: the waiting loop. *)
Fixpoint wait_loop (w : world) (attempts : list Z) : M event unit :=
  match attempts with
  | [] => ret tt
  | i :: rest =>
      run emit (Sleep 5);
      let current_url := page_url_at w i in
      run emit (PageUrl current_url);
      if str_in "my-items/saved-jobs" current_url || str_in "feed" current_url then
        run emit (Print (nl +:+ "[" +:+ str_of_Z ((i + 1) * 5)
                         +:+ "s] Login detected! Saving session..."));
        run (run emit (SaveSession "session.json"); await (save_session w));
        run (run emit (Goto saved_jobs_url 30000); await (goto_back w));
        emit (Sleep 3)
      else
        run emit (Print ("[" +:+ str_of_Z ((i + 1) * 5) +:+ "s] Waiting for login..."));
        wait_loop w rest
  end.

(** Lines 10-48: what happens before the [try] block. *)
Definition prelude (w : world) : M event unit :=
  run emit (Print "Loading session...");
  run (run emit (LoadSession "session.json"); await (load_session w));
  run emit (Print (nl +:+ rule));
  run emit (Print "Navigating to your saved jobs page...");
  run emit (Print "If you see a login page, please log in manually");
  run emit (Print rule);
  run (run emit (Goto saved_jobs_url 30000); await (goto_start w));
  run emit (Sleep 5);
  let current_url := page_url_start w in
  run emit (PageUrl current_url);
  run emit (Print (nl +:+ "Current URL: " +:+ current_url));
  run (if str_in "login" current_url || str_in "authwall" current_url then
         run emit (Print (nl +:+ rule));
         run emit (Print "You need to log in manually in the browser window");
         run emit (Print "After logging in, the script will continue...");
         run emit (Print "Waiting 2 minutes...");
         run emit (Print rule);
         wait_loop w (py_range 24)
       else ret tt);
  run emit (Print (nl +:+ "Attempting to scrape saved jobs..."));
  emit (Print "(This might fail if not properly logged in)").

(** [for i, url in enumerate(job_urls, 1): print(f"{i}. {url}")] *)
Fixpoint print_numbered (i : Z) (job_urls : list string) : M event unit :=
  match job_urls with
  | [] => ret tt
  | url :: rest =>
      run emit (Print (str_of_Z i +:+ ". " +:+ url));
      print_numbered (i + 1) rest
  end.

(** Lines 104-118: the listing and the file. *)
Definition report (w : world) (job_urls : list string) : M event unit :=
  match job_urls with
  | _ :: _ =>
      run emit (Print (nl +:+ "Your saved jobs:"));
      run print_numbered 1 job_urls;
      run (run emit (Open "saved_job_urls.txt"); await (open_file w));
      run (run emit (Write (String.concat nl job_urls));
           await (write_file w (String.concat nl job_urls)));
      emit (Print (nl +:+ "Saved URLs to: saved_job_urls.txt"))
  | [] =>
      run emit (Print (nl +:+ "No job URLs found. Make sure you:"));
      run emit (Print "1. Are logged in");
      run emit (Print "2. Have saved jobs on LinkedIn");
      emit (Print "3. Are on the saved jobs page")
  end.

(** How the [try] block of lines 50-121 ends. *)
Inductive verdict : Type :=
  | Saved (job_urls : list string)
  | NoneFound
  | Errored (e : exn).

(** Lines 50-121: the pagination of [ScrapeSavedJobs.main], then the report,
    under the handler of lines 120-121.  [None] means that the pagination was
    still running when the fuel ran out. *)
Definition try_block (fuel : nat) (w : world) : option verdict * list event :=
  match ScrapeSavedJobs.main fuel (views w) with
  | (ScrapeSavedJobs.Running, t) => (None, map Paging t)
  | (ScrapeSavedJobs.Failed e, t) => (Some (Errored e), map Paging t)
  | (ScrapeSavedJobs.Collected job_urls _, t) =>
      match report w job_urls with
      | (Ok _, t') =>
          (Some (match job_urls with [] => NoneFound | _ :: _ => Saved job_urls end),
           map Paging t ++ t')
      | (Raise e, t') =>
          (Some (Errored e),
           map Paging t ++ t' ++ [Print (nl +:+ "Error: " +:+ exn_str e)])
      end
  end.

(** The body of [main], lines 10-124.  [Some (Raise e)] is an exception that
    leaves [main]. *)
Definition main (fuel : nat) (w : world) : option (result verdict) * list event :=
  match prelude w with
  | (Raise e, t) => (Some (Raise e), t)
  | (Ok _, t) =>
      match try_block fuel w with
      | (None, t') => (None, t ++ t')
      | (Some v, t') =>
          (Some (Ok v),
           t ++ t'
           ++ [Print (nl +:+ "Keeping browser open for 30 seconds so you can verify...");
               Sleep 30])
      end
  end.

(** The contents written to the file in a run, in order. *)
Definition written (t : list event) : list string :=
  omap (fun ev => match ev with Write c => Some c | _ => None end) t.

(** The number of times the file is opened for writing in a run. *)
Definition opened (t : list event) : nat :=
  List.length (List.filter (fun ev => match ev with Open _ => true | _ => false end) t).

(** The number of times the session is saved in a run. *)
Definition saves (t : list event) : nat :=
  List.length
    (List.filter (fun ev => match ev with SaveSession _ => true | _ => false end) t).

(** The URLs read from the page in a run, in order. *)
Definition urls_read (t : list event) : list string :=
  omap (fun ev => match ev with PageUrl u => Some u | _ => None end) t.

(** The seconds slept outside the pagination in a run. *)
Fixpoint slept (t : list event) : Z :=
  match t with
  | [] => 0
  | Sleep s :: t' => s + slept t'
  | _ :: t' => slept t'
  end.

(** [url] shows that the user is logged in (line 37). *)
Definition logged_in_url (url : string) : bool :=
  str_in "my-items/saved-jobs" url || str_in "feed" url.

(** [url] is a login page (line 26). *)
Definition login_url (url : string) : bool :=
  str_in "login" url || str_in "authwall" url.

End SavedJobsMain.

(** ** create_session.py, the whole script

    Lines 8-65: the navigation to the login page, the poll of
    [CreateSession.create_session], and the two branches that save the
    session. *)

Module CreateSessionMain.

Inductive event : Type :=
  | Polling (ev : CreateSession.event)
  | Print (msg : string)
  | Sleep (seconds : Z)
  | Goto (url : string)
  | SaveSession (path : string).

(** What the browser answers during a run: the navigation of line 13, the
    login check at each attempt, and [save_session] (line 48 or 64). *)
Record world : Type := {
  goto_login : result unit;
  is_logged_in : Z -> bool;
  save_session : result unit;
}.

Definition rule : string :=
  "============================================================".

(** Lines 24-40 within the script. *)
Definition poll (w : world) : M event bool :=
  let '(r, t) := CreateSession.create_session (is_logged_in w) in (r, map Polling t).

Definition create_session (w : world) : M event unit :=
  run emit (Print (nl +:+ rule));
  run emit (Print "Step 1: Opening LinkedIn...");
  run emit (Print rule);
  run (run emit (Goto "https://www.linkedin.com/login"); await (goto_login w));
  run emit (Sleep 3);
  run emit (Print (nl +:+ rule));
  run emit (Print "Step 2: Please LOG IN to LinkedIn in the browser window");
  run emit (Print "IMPORTANT: After logging in, navigate to your FEED page");
  run emit (Print "          (https://www.linkedin.com/feed/)");
  run emit (Print (nl +:+ "Waiting for 5 MINUTES for you to complete login..."));
  run emit (Print rule);
  do logged_in <- poll w;
  if logged_in then
    run emit (Print (nl +:+ rule));
    run emit (Print "SUCCESS: You are logged in!");
    run emit (Print "Saving session...");
    run emit (Print rule);
    run (run emit (SaveSession "session.json"); await (save_session w));
    run emit (Print (nl +:+ "Session saved successfully to session.json"));
    run emit (Print "You can now use this session to scrape LinkedIn");
    run emit (Print (nl +:+ "Keeping browser open for 10 more seconds..."));
    emit (Sleep 10)
  else
    run emit (Print (nl +:+ rule));
    run emit (Print "WARNING: Login not detected after 5 minutes");
    run emit (Print "Please make sure you:");
    run emit (Print "  1. Completed the login process");
    run emit (Print "  2. Navigated to https://www.linkedin.com/feed/");
    run emit (Print "  3. Can see your LinkedIn feed");
    run emit (Print (nl +:+ "Saving session anyway (may not work)..."));
    run emit (Print rule);
    run (run emit (SaveSession "session.json"); await (save_session w));
    emit (Sleep 10).

(** The paths to which the session is saved in a run, in order. *)
Definition saved (t : list event) : list string :=
  omap (fun ev => match ev with SaveSession path => Some path | _ => None end) t.

(** The login checks made in a run. *)
Definition checks (t : list event) : nat :=
  List.length
    (List.filter
       (fun ev => match ev with Polling (CreateSession.IsLoggedIn _) => true | _ => false end)
       t).

(** The seconds slept in a run, the poll included. *)
Fixpoint slept (t : list event) : Z :=
  match t with
  | [] => 0
  | Sleep s :: t' => s + slept t'
  | Polling (CreateSession.Sleep s) :: t' => s + slept t'
  | _ :: t' => slept t'
  end.

(** The script's own messages in a run (those of the poll apart), in order. *)
Definition printed (t : list event) : list string :=
  omap (fun ev => match ev with Print msg => Some msg | _ => None end) t.

End CreateSessionMain.

(** ** scrape_job_details.py

    [JobScraper] and the [Job] objects it returns come from the
    linkedin_scraper package; the script only reads nine attributes of a
    [Job], formats five of them, and stores all nine.  [V] is the type of an
    attribute value, [str] what an f-string makes of one, and [strip] is
    [str.strip]. *)

Module JobDetails.
Section Script.
Context {V : Type}.
Variable str : V -> string.
Variable strip : string -> string.

Record job : Type := {
  job_title : V;
  company : V;
  company_linkedin_url : V;
  location : V;
  posted_date : V;
  applicant_count : V;
  job_description : V;
  benefits : V;
  linkedin_url : V;
}.

(** A dict with string keys, in insertion order. *)
Definition dict : Type := list (string * V).

Inductive event : Type :=
  | Open (path : string)
  | Print (msg : string)
  | LoadSession (path : string)
  | Scrape (url : string)
  | Sleep (seconds : Z)
  | Dump (path : string) (jobs_data : list dict).

(** What the file system and the browser answer: the lines of
    saved_job_urls.txt, [load_session], [job_scraper.scrape] at the i-th
    URL, and writing the JSON file. *)
Record world : Type := {
  read_lines : result (list string);
  load_session : result unit;
  scrape : Z -> string -> result job;
  dump : list dict -> result unit;
}.

Definition rule : string :=
  "============================================================".

(** Truthiness of a [str]. *)
Definition nonempty (s : string) : bool :=
  match s with EmptyString => false | String _ _ => true end.

(** Line 11: [[line.strip() for line in f if line.strip()]]. *)
Definition job_urls_of (lines : list string) : list string :=
  omap (fun line => if nonempty (strip line) then Some (strip line) else None) lines.

(** [enumerate(l, start)] *)
Fixpoint enumerate {A} (start : Z) (l : list A) : list (Z * A) :=
  match l with
  | [] => []
  | x :: l' => (start, x) :: enumerate (start + 1) l'
  end.

(** Lines 36-46: the dict appended to [jobs_data]. *)
Definition to_dict (j : job) : dict :=
  [("job_title", job_title j);
   ("company", company j);
   ("company_url", company_linkedin_url j);
   ("location", location j);
   ("posted_date", posted_date j);
   ("applicant_count", applicant_count j);
   ("job_description", job_description j);
   ("benefits", benefits j);
   ("url", linkedin_url j)].

(** Lines 22-55: the loop over [enumerate(job_urls, 1)]; [total] is
    [len(job_urls)]. *)
Fixpoint scrape_loop (w : world) (total : Z) (items : list (Z * string))
    (jobs_data : list dict) : M event (list dict) :=
  match items with
  | [] => ret jobs_data
  | (i, url) :: rest =>
      do jobs_data <-
        try_except
          (run emit (Print (nl +:+ "[" +:+ str_of_Z i +:+ "/" +:+ str_of_Z total
                            +:+ "] Scraping: " +:+ url));
           do j <- (run emit (Scrape url); await (scrape w i url));
           run emit (Print ("  Title: " +:+ str (job_title j)));
           run emit (Print ("  Company: " +:+ str (company j)));
           run emit (Print ("  Location: " +:+ str (location j)));
           run emit (Print ("  Posted: " +:+ str (posted_date j)));
           run emit (Print ("  Applicants: " +:+ str (applicant_count j)));
           let jobs_data := jobs_data ++ [to_dict j] in
           run (if i <? total then
                  run emit (Print "  Waiting 3 seconds...");
                  emit (Sleep 3)
                else ret tt);
           ret jobs_data)
          (fun e =>
             run emit (Print ("  ERROR: " +:+ exn_str e));
             ret jobs_data);
      scrape_loop w total rest jobs_data
  end.

(** [main], lines 9-65. *)
Definition main (w : world) : M event (list dict) :=
  do lines <- (run emit (Open "saved_job_urls.txt"); await (read_lines w));
  let job_urls := job_urls_of lines in
  run emit (Print ("Found " +:+ str_of_Z (len job_urls) +:+ " saved jobs to scrape" +:+ nl));
  run emit (Print "Loading session...");
  run (run emit (LoadSession "session.json"); await (load_session w));
  do jobs_data <- scrape_loop w (len job_urls) (enumerate 1 job_urls) [];
  let output_file := "saved_jobs_details.json" in
  run (run emit (Dump output_file jobs_data); await (dump w jobs_data));
  run emit (Print (nl +:+ rule));
  run emit (Print ("SUCCESS! Scraped " +:+ str_of_Z (len jobs_data) +:+ "/"
                   +:+ str_of_Z (len job_urls) +:+ " jobs"));
  run emit (Print ("Results saved to: " +:+ output_file));
  run emit (Print rule);
  ret jobs_data.

(** The dict of the job scraped at item [(i, url)], when the scrape
    succeeds, and the message of the exception when it fails. *)
Definition success (w : world) (item : Z * string) : option dict :=
  match scrape w item.1 item.2 with
  | Ok j => Some (to_dict j)
  | Raise _ => None
  end.

Definition failure (w : world) (item : Z * string) : option string :=
  match scrape w item.1 item.2 with
  | Ok _ => None
  | Raise e => Some (exn_str e)
  end.

(** The URLs handed to the scraper in a run, in order. *)
Definition scraped (t : list event) : list string :=
  omap (fun ev => match ev with Scrape url => Some url | _ => None end) t.

(** The lists written as JSON in a run, in order. *)
Definition dumped (t : list event) : list (list dict) :=
  omap (fun ev => match ev with Dump _ jobs_data => Some jobs_data | _ => None end) t.

(** The messages printed in a run, in order. *)
Definition printed (t : list event) : list string :=
  omap (fun ev => match ev with Print msg => Some msg | _ => None end) t.

(** The seconds slept in a run. *)
Fixpoint slept (t : list event) : Z :=
  match t with
  | [] => 0
  | Sleep s :: t' => s + slept t'
  | _ :: t' => slept t'
  end.

(** The items after which the script pauses: a scrape that succeeded, and
    not the last URL. *)
Definition pauses (w : world) (total : Z) (items : list (Z * string)) : nat :=
  List.length
    (List.filter
       (fun item => match scrape w item.1 item.2 with
                    | Ok _ => item.1 <? total
                    | Raise _ => false
                    end)
       items).

End Script.
End JobDetails.

(** ** Reading traces *)

Module Observed.

(** The calls made on the page in a run of the scraper, in order. *)
Definition page_calls (t : list SavedJobs.event) : list SavedJobs.page_op :=
  omap (fun ev => match ev with SavedJobs.Page op => Some op | _ => None end) t.

(** The number of attribute reads in a run of the scraper. *)
Definition reads (t : list SavedJobs.event) : nat :=
  List.length
    (List.filter
       (fun ev => match ev with SavedJobs.Page (SavedJobs.GetAttribute _) => true | _ => false end)
       t).

(** The messages logged at DEBUG level, in order. *)
Definition debug_logs (t : list SavedJobs.event) : list string :=
  omap (fun ev => match ev with SavedJobs.Log SavedJobs.DEBUG m => Some m | _ => None end) t.

(** The lists handed to [on_complete], in order. *)
Definition completions (t : list SavedJobs.event) : list (list string) :=
  omap (fun ev => match ev with SavedJobs.OnComplete _ urls => Some urls | _ => None end) t.

(** The messages and percentages handed to [on_progress], in order. *)
Definition progress (t : list SavedJobs.event) : list (string * Z) :=
  omap (fun ev => match ev with SavedJobs.OnProgress m p => Some (m, p) | _ => None end) t.

(** An event that is no call of the callback. *)
Definition internal (ev : SavedJobs.event) : bool :=
  match ev with SavedJobs.Page _ | SavedJobs.Log _ _ => true | _ => false end.

(** The exceptions with which reading the anchors of a list fails, in order. *)
Definition failures (job_links : list link) : list exn :=
  omap (fun lk => match get_attribute_href lk with Raise e => Some e | Ok _ => None end)
    job_links.

(** The six calls [scrape] makes before extracting (lines 61-71). *)
Definition steps (max_scrolls : Z) (pause_time : Q) : list SavedJobs.page_op :=
  [SavedJobs.NavigateAndWait SavedJobs.saved_jobs_url; SavedJobs.EnsureLoggedIn;
   SavedJobs.WaitForSelector "main" 10000; SavedJobs.WaitAndFocus 1; SavedJobs.CloseModals;
   SavedJobs.ScrollPageToBottom pause_time max_scrolls].

(** The position of the first answer that is an exception. *)
Fixpoint failure_index (answers : list (result unit)) : option nat :=
  match answers with
  | [] => None
  | Ok _ :: rest => S <$> failure_index rest
  | Raise _ :: _ => Some O
  end.

(** The exception with which an iteration of the script's [while] loop on
    view [v] ends, if it ends with one (lines 61-91). *)
Definition fails (v : ScrapeSavedJobs.page_view) : option exn :=
  match ScrapeSavedJobs.evaluate v with
  | Raise e => Some e
  | Ok _ =>
      match ScrapeSavedJobs.locator_all v with
      | Raise e => Some e
      | Ok _ =>
          match ScrapeSavedJobs.next_count v with
          | Raise e => Some e
          | Ok c =>
              if 0 <? c then
                match ScrapeSavedJobs.next_is_disabled v with
                | Raise e => Some e
                | Ok true => None
                | Ok false =>
                    match ScrapeSavedJobs.next_click v with
                    | Raise e => Some e
                    | Ok _ => None
                    end
                end
              else None
          end
      end
  end.

(** The number of pages scrolled in a run of the script. *)
Definition pages_scanned (t : list ScrapeSavedJobs.event) : nat :=
  List.length
    (List.filter
       (fun ev => match ev with ScrapeSavedJobs.Evaluate _ => true | _ => false end) t).

End Observed.

(** ** More concrete browsers *)

Module Cases.

(** A page on which the login check fails. *)
Definition logged_out : exn := AuthenticationError "Not logged in".
Definition page_logged_out : SavedJobs.page :=
  {| SavedJobs.navigate_and_wait _ := Ok tt;
     SavedJobs.ensure_logged_in := Raise logged_out;
     SavedJobs.wait_for_selector _ _ := Ok tt;
     SavedJobs.wait_and_focus _ := Ok tt;
     SavedJobs.close_modals := Ok tt;
     SavedJobs.scroll_page_to_bottom _ _ := Ok tt;
     SavedJobs.locator_all _ := Ok Examples.three_anchors |}.

(** Callbacks of a caller whose code raises: in [on_start], and in
    [on_error]. *)
Definition callback_bug : exn := PyException "callback failed".
Definition raising_on_start : SavedJobs.callback :=
  {| SavedJobs.on_start _ _ := Raise callback_bug;
     SavedJobs.on_progress _ _ := Ok tt;
     SavedJobs.on_complete _ _ := Ok tt;
     SavedJobs.on_error _ := Ok tt |}.
Definition raising_on_error : SavedJobs.callback :=
  {| SavedJobs.on_start _ _ := Ok tt;
     SavedJobs.on_progress _ _ := Ok tt;
     SavedJobs.on_complete _ _ := Ok tt;
     SavedJobs.on_error _ := Raise callback_bug |}.

(** A browser whose next-page control is always present and enabled. *)
Definition endless : ScrapeSavedJobs.browser :=
  fun _ => Examples.view [anchor "/jobs/view/1"] 1 false.

(** A browser whose second page cannot be scrolled. *)
Definition crashed : exn := PyException "Execution context was destroyed".
Definition breaks_on_second : ScrapeSavedJobs.browser :=
  fun i =>
    match i with
    | O => Examples.view [anchor "/jobs/view/1"; anchor "/jobs/view/2"] 1 false
    | _ => {| ScrapeSavedJobs.evaluate := Raise crashed;
              ScrapeSavedJobs.locator_all := Ok [];
              ScrapeSavedJobs.next_count := Ok 0;
              ScrapeSavedJobs.next_is_disabled := Ok true;
              ScrapeSavedJobs.next_click := Ok tt |}
    end.

(** A browser with a single page and no next-page control. *)
Definition single_page : ScrapeSavedJobs.browser :=
  fun _ => Examples.view Examples.three_anchors 0 false.

(** A run of the script in which the session loads, the page is the
    saved-jobs page at once, and the file can be written. *)
Definition world_of (br : ScrapeSavedJobs.browser) : SavedJobsMain.world :=
  {| SavedJobsMain.load_session := Ok tt;
     SavedJobsMain.goto_start := Ok tt;
     SavedJobsMain.page_url_start := "https://www.linkedin.com/my-items/saved-jobs/";
     SavedJobsMain.page_url_at _ := "https://www.linkedin.com/my-items/saved-jobs/";
     SavedJobsMain.save_session := Ok tt;
     SavedJobsMain.goto_back := Ok tt;
     SavedJobsMain.views := br;
     SavedJobsMain.open_file := Ok tt;
     SavedJobsMain.write_file _ := Ok tt |}.

(** A run that starts on the login page, where the user logs in between the
    second and the third look at the URL. *)
Definition world_login : SavedJobsMain.world :=
  {| SavedJobsMain.load_session := Ok tt;
     SavedJobsMain.goto_start := Ok tt;
     SavedJobsMain.page_url_start := "https://www.linkedin.com/login";
     SavedJobsMain.page_url_at i :=
       if i <? 2 then "https://www.linkedin.com/login"
       else "https://www.linkedin.com/feed/";
     SavedJobsMain.save_session := Ok tt;
     SavedJobsMain.goto_back := Ok tt;
     SavedJobsMain.views := single_page;
     SavedJobsMain.open_file := Ok tt;
     SavedJobsMain.write_file _ := Ok tt |}.

(** A run of create_session.py in which the user is logged in at the third
    check. *)
Definition session_at_third : CreateSessionMain.world :=
  {| CreateSessionMain.goto_login := Ok tt;
     CreateSessionMain.is_logged_in := fun attempt => 2 <=? attempt;
     CreateSessionMain.save_session := Ok tt |}.

(** A run of create_session.py in which the user never logs in. *)
Definition session_never : CreateSessionMain.world :=
  {| CreateSessionMain.goto_login := Ok tt;
     CreateSessionMain.is_logged_in := fun _ => false;
     CreateSessionMain.save_session := Ok tt |}.

(** A run of create_session.py whose browser cannot reach the login page. *)
Definition session_offline : CreateSessionMain.world :=
  {| CreateSessionMain.goto_login := Raise (PyException "net::ERR_INTERNET_DISCONNECTED");
     CreateSessionMain.is_logged_in := fun _ => false;
     CreateSessionMain.save_session := Ok tt |}.

(** [str.strip] on ASCII text: tabs, line feeds, vertical tabs, form feeds,
    carriage returns, the separators 28-31 and spaces are dropped at both
    ends. *)
Definition is_space (a : ascii) : bool :=
  let n := Z.of_nat (Ascii.nat_of_ascii a) in
  ((9 <=? n) && (n <=? 13)) || ((28 <=? n) && (n <=? 32)).

Fixpoint lstrip (s : string) : string :=
  match s with
  | EmptyString => EmptyString
  | String a s' => if is_space a then lstrip s' else s
  end.

Fixpoint rstrip (s : string) : string :=
  match s with
  | EmptyString => EmptyString
  | String a s' =>
      match rstrip s' with
      | EmptyString => if is_space a then EmptyString else String a EmptyString
      | r => String a r
      end
  end.

Definition strip (s : string) : string := lstrip (rstrip s).

(** A job whose attributes are strings. *)
Definition job_at (url title : string) : @JobDetails.job string :=
  {| JobDetails.job_title := title;
     JobDetails.company := "ACME";
     JobDetails.company_linkedin_url := "https://www.linkedin.com/company/acme/";
     JobDetails.location := "Remote";
     JobDetails.posted_date := "1 week ago";
     JobDetails.applicant_count := "12 applicants";
     JobDetails.job_description := "Write proofs.";
     JobDetails.benefits := "None";
     JobDetails.linkedin_url := url |}.

(** A file of three URLs and a blank line, of which the second URL cannot be
    scraped. *)
Definition three_lines : list string :=
  ["https://www.linkedin.com/jobs/view/1" +:+ nl;
   "https://www.linkedin.com/jobs/view/2" +:+ nl;
   nl;
   "https://www.linkedin.com/jobs/view/3"].

Definition timed_out : exn := PyException "Timeout 30000ms exceeded".

Definition details_world : @JobDetails.world string :=
  {| JobDetails.read_lines := Ok three_lines;
     JobDetails.load_session := Ok tt;
     JobDetails.scrape i url := if i =? 2 then Raise timed_out else Ok (job_at url "Engineer");
     JobDetails.dump _ := Ok tt |}.

(** The same run when the JSON file cannot be written. *)
Definition read_only : exn := PyException "[Errno 30] Read-only file system".
Definition details_world_read_only : @JobDetails.world string :=
  {| JobDetails.read_lines := Ok three_lines;
     JobDetails.load_session := Ok tt;
     JobDetails.scrape i url := if i =? 2 then Raise timed_out else Ok (job_at url "Engineer");
     JobDetails.dump _ := Raise read_only |}.

End Cases.

(** * Properties *)

(** ** Computations *)

Section Computations.
Context {E A B : Type}.
Implicit Types (m : M E A) (k : A -> M E B) (h : exn -> M E A).

Lemma value_bind_ok m k a : value m = Ok a -> value (bind m k) = value (k a).
Proof. destruct m as [[x|e] t]; simpl; intros [= ->]. by destruct (k a). Qed.

Lemma value_bind_raise m k e : value m = Raise e -> value (bind m k) = Raise e.
Proof. destruct m as [[x|e'] t]; simpl; by intros [= ->]. Qed.

Lemma trace_bind_ok m k a : value m = Ok a -> trace (bind m k) = trace m ++ trace (k a).
Proof. destruct m as [[x|e] t]; simpl; intros [= ->]. by destruct (k a). Qed.

Lemma trace_bind_raise m k e : value m = Raise e -> trace (bind m k) = trace m.
Proof. destruct m as [[x|e'] t]; simpl; by intros [= ->]. Qed.

Lemma value_try_ok m h a : value m = Ok a -> value (try_except m h) = Ok a.
Proof. destruct m as [[x|e] t]; simpl; by intros [= ->]. Qed.

Lemma value_try_raise m h e : value m = Raise e -> value (try_except m h) = value (h e).
Proof. destruct m as [[x|e'] t]; simpl; intros [= ->]. by destruct (h e). Qed.

Lemma trace_try_ok m h a : value m = Ok a -> trace (try_except m h) = trace m.
Proof. destruct m as [[x|e] t]; simpl; by intros [= ->]. Qed.

Lemma trace_try_raise m h e :
  value m = Raise e -> trace (try_except m h) = trace m ++ trace (h e).
Proof. destruct m as [[x|e'] t]; simpl; intros [= ->]. by destruct (h e). Qed.
End Computations.

(** ** Strings *)

Lemma append_cons a s1 s2 : String a s1 +:+ s2 = String a (s1 +:+ s2).
Proof. done. Qed.

Lemma startswith_split p s : startswith p s = true -> ∃ r, s = p +:+ r.
Proof.
  revert s. induction p as [|a p IH]; intros s.
  - by exists s.
  - destruct s as [|b s]; simpl; [done|].
    destruct (Ascii.eqb_spec a b) as [->|]; [|done].
    intros [r ->]%IH. by exists r.
Qed.

Lemma str_in_char_cons c a s :
  str_in (String c EmptyString) (String a s)
  = Ascii.eqb c a || str_in (String c EmptyString) s.
Proof. simpl. by rewrite andb_true_r. Qed.

Lemma str_in_char_app c s1 s2 :
  str_in (String c EmptyString) (s1 +:+ s2)
  = str_in (String c EmptyString) s1 || str_in (String c EmptyString) s2.
Proof.
  induction s1 as [|a s1 IH].
  - done.
  - rewrite append_cons, !str_in_char_cons, IH. by rewrite orb_assoc.
Qed.

Lemma split0_no_sep c s : str_in (String c EmptyString) (split0 c s) = false.
Proof.
  induction s as [|a s IH]; [done|].
  simpl split0. destruct (Ascii.eqb a c) eqn:Ha; [done|].
  rewrite str_in_char_cons, IH, Ascii.eqb_sym, Ha. done.
Qed.

Lemma split0_startswith p c s : startswith p (split0 c s) = true -> startswith p s = true.
Proof.
  revert s. induction p as [|a p IH]; intros s; [done|].
  destruct s as [|b s]; [done|]. simpl split0.
  destruct (Ascii.eqb b c); [done|]. simpl.
  destruct (Ascii.eqb a b); [apply IH|done].
Qed.

Lemma strip_query_no_query href : str_in "?" (strip_query href) = false.
Proof.
  unfold strip_query. destruct (str_in "?" href) eqn:Hq; [|done].
  apply split0_no_sep.
Qed.

Lemma strip_query_keeps_http href :
  startswith "http" (strip_query href) = startswith "http" href.
Proof.
  unfold strip_query. destruct (str_in "?" href); [|done].
  destruct (startswith "http" href) eqn:Hh.
  - apply startswith_split in Hh as [r ->]. done.
  - destruct (startswith "http" (split0 "?" href)) eqn:Hs; [|done].
    apply split0_startswith in Hs. congruence.
Qed.

(** The two cases of [clean_url]. *)
Lemma clean_url_absolute href :
  startswith "http" href = true -> clean_url href = strip_query href.
Proof.
  intros Hh. unfold clean_url. by rewrite strip_query_keeps_http, Hh.
Qed.

Lemma clean_url_relative href :
  startswith "http" href = false -> clean_url href = base_origin +:+ strip_query href.
Proof.
  intros Hh. unfold clean_url. by rewrite strip_query_keeps_http, Hh.
Qed.

Lemma clean_url_well_formed href : Spec.well_formed (clean_url href).
Proof.
  unfold Spec.well_formed, clean_url.
  destruct (startswith "http" (strip_query href)) eqn:Hh; simpl.
  - split; [apply strip_query_no_query|done].
  - split; [|done].
    rewrite str_in_char_app, strip_query_no_query. done.
Qed.

Lemma startswith_append p r : startswith p (p +:+ r) = true.
Proof.
  induction p as [|a p IH]; [done|].
  rewrite append_cons. simpl. by rewrite Ascii.eqb_refl.
Qed.

Lemma str_in_startswith needle hay : startswith needle hay = true -> str_in needle hay = true.
Proof. intros H. destruct hay; simpl in *; by rewrite H. Qed.

Lemma str_in_append needle pre post : str_in needle (pre +:+ needle +:+ post) = true.
Proof.
  induction pre as [|a pre IH].
  - change (str_in needle (needle +:+ post) = true).
    apply str_in_startswith, startswith_append.
  - rewrite append_cons. simpl. rewrite IH. apply orb_true_r.
Qed.

Lemma append_assoc a b c : (a +:+ b) +:+ c = a +:+ b +:+ c.
Proof. induction a as [|x a IH]; [done|]. by rewrite !append_cons, IH. Qed.

(** ** First-seen order *)

Section FirstSeen.
Import Spec.
Implicit Types (l k urls : list string) (u v x : string).

Lemma elem_of_first_seen l x : x ∈ first_seen l ↔ x ∈ l.
Proof.
  induction l as [|y l IH]; simpl; [done|].
  rewrite !elem_of_cons, list_elem_of_filter, IH.
  destruct (decide (x = y)); tauto.
Qed.

Lemma NoDup_first_seen l : NoDup (first_seen l).
Proof.
  induction l as [|y l IH]; simpl; constructor.
  - rewrite list_elem_of_filter. tauto.
  - by apply NoDup_filter.
Qed.

Lemma length_first_seen l : List.length (first_seen l) = distinct l.
Proof.
  unfold distinct. rewrite <- (size_list_to_set (C:=gset string)) by apply NoDup_first_seen.
  f_equal. apply set_eq. intros x.
  by rewrite !elem_of_list_to_set, elem_of_first_seen.
Qed.

Lemma before_sublist u v l k : l `sublist_of` k -> before u v l -> before u v k.
Proof.
  intros Hs (l1 & l2 & l3 & ->).
  apply sublist_app_l in Hs as (k1 & k2 & -> & _ & Hs).
  apply sublist_cons_l in Hs as (k3 & k4 & -> & Hs).
  apply sublist_app_l in Hs as (k5 & k6 & -> & _ & Hs).
  apply sublist_cons_l in Hs as (k7 & k8 & -> & _).
  exists (k1 ++ k3), (k5 ++ k7), k8. by rewrite <- !app_assoc.
Qed.

Lemma before_elem_of u v l : before u v l -> u ∈ l ∧ v ∈ l.
Proof. intros (l1 & l2 & l3 & ->). set_solver. Qed.

Lemma first_seen_ordered l : first_seen_order l (first_seen l).
Proof.
  induction l as [|x l IH]; intros u v Hb.
  { destruct Hb as ([|??] & ? & ? & ?); done. }
  destruct Hb as (o1 & o2 & o3 & Heq). simpl in Heq.
  destruct o1 as [|y o1]; injection Heq as -> Heq.
  - assert (v ∈ filter (λ y, y ≠ u) (first_seen l)) as Hv
      by (rewrite Heq; set_solver).
    apply list_elem_of_filter in Hv as [Hne Hv].
    apply elem_of_first_seen, list_elem_of_split_l in Hv as (l2 & l3 & -> & Hn).
    exists [], l2, l3. split_and!; try done; set_solver.
  - assert (before u v (filter (λ z, z ≠ y) (first_seen l))) as Hb
      by (by exists o1, o2, o3).
    clear Heq.
    destruct (before_elem_of _ _ _ Hb) as [[Hu _]%list_elem_of_filter [Hv _]%list_elem_of_filter].
    apply (before_sublist _ _ _ (first_seen l)) in Hb; [|apply sublist_filter].
    apply IH in Hb as (l1 & l2 & l3 & -> & ? & ? & ? & ?).
    exists (y :: l1), l2, l3. split_and!; try done; set_solver.
Qed.

Lemma first_seen_order_take input out n :
  first_seen_order input out -> first_seen_order input (take n out).
Proof.
  intros Ho u v Hb. apply Ho. eapply before_sublist; [apply sublist_take|done].
Qed.

Lemma foldl_absorb urls l :
  foldl absorb urls l = urls ++ filter (λ y, y ∉ urls) (first_seen l).
Proof.
  revert urls. induction l as [|x l IH]; intros urls; simpl.
  - by rewrite app_nil_r.
  - rewrite IH. unfold absorb. case_decide as Hx.
    + rewrite filter_cons_False by naive_solver. f_equal.
      symmetry. apply list_filter_filter_l. set_solver.
    + rewrite filter_cons_True by done. rewrite <- app_assoc. simpl. do 2 f_equal.
      rewrite list_filter_filter. apply list_filter_iff. set_solver.
Qed.

Lemma foldl_absorb_nil l : foldl absorb [] l = first_seen l.
Proof.
  rewrite foldl_absorb. simpl.
  induction (first_seen l) as [|x k IH]; [done|].
  rewrite filter_cons_True by set_solver. by rewrite IH.
Qed.
End FirstSeen.

(** ** The link extractor of SavedJobsScraper *)

Section Extractor.
Import SavedJobs Spec.
Implicit Types (limit : Z) (job_links : list link) (urls : list string) (acc : accum).

Lemma skipped_matches href : skipped href = negb (matches href).
Proof. by destruct href as [[|??]|]. Qed.

Lemma limit_reached limit urls :
  (limit <=? len urls) = true ↔ (Z.to_nat limit ≤ List.length urls)%nat.
Proof. unfold len. rewrite Z.leb_le. lia. Qed.

(** One anchor: what the protected body leaves in the accumulators. *)
Lemma read_link_value lk urls :
  value (try_except (read_link lk (urls, list_to_set urls))
           (fun e =>
              run emit (Log DEBUG ("Error extracting saved job URL: " +:+ exn_str e));
              ret (urls, list_to_set urls)))
  = Ok (let r := foldl absorb urls (normalized [lk]) in (r, list_to_set r)).
Proof.
  unfold read_link, call, normalized. destruct lk as [[href|e]]; simpl; [|done].
  rewrite skipped_matches. destruct (matches href); simpl; [|done].
  unfold absorb. rewrite (decide_ext _ _ _ _ (elem_of_list_to_set _ _)).
  case_decide; simpl; [done|].
  do 2 f_equal. set_solver.
Qed.

Lemma normalized_cons lk job_links :
  normalized (lk :: job_links) = normalized [lk] ++ normalized job_links.
Proof. unfold normalized. by rewrite <- omap_app. Qed.

Lemma length_absorb_one urls lk :
  (List.length urls ≤ List.length (foldl absorb urls (normalized [lk]))
   ≤ S (List.length urls))%nat.
Proof.
  unfold normalized. simpl. destruct (get_attribute_href lk) as [href|]; simpl; [|lia].
  destruct (matches href); simpl; [|lia].
  unfold absorb. case_decide; [lia|]. rewrite length_app. simpl. lia.
Qed.

Lemma extract_loop_cons limit lk rest acc :
  extract_loop limit (lk :: rest) acc
  = if limit <=? len acc.1 then ret acc
    else
      do acc' <- try_except (read_link lk acc)
                   (fun e =>
                      run emit (Log DEBUG ("Error extracting saved job URL: " +:+ exn_str e));
                      ret acc);
      extract_loop limit rest acc'.
Proof. done. Qed.

(** The loop as a fold: it absorbs the normalized URLs one by one and
    stops growing at [limit]. *)
Lemma extract_loop_value limit job_links urls :
  value (extract_loop limit job_links (urls, list_to_set urls))
  = Ok (let r := take (Z.to_nat limit `max` List.length urls)
                   (foldl absorb urls (normalized job_links)) in
        (r, list_to_set r)).
Proof.
  revert urls. induction job_links as [|lk rest IH]; intros urls.
  - simpl. rewrite take_ge by lia. done.
  - rewrite extract_loop_cons. simpl fst.
    destruct (limit <=? len urls) eqn:Hl.
    + apply limit_reached in Hl. simpl.
      rewrite foldl_absorb, Nat.max_r, take_app_length by done. done.
    + assert (List.length urls < Z.to_nat limit)%nat as Hlt.
      { destruct (decide (Z.to_nat limit ≤ List.length urls)%nat) as [Hle|]; [|lia].
        apply limit_reached in Hle. congruence. }
      erewrite value_bind_ok by apply read_link_value.
      cbv zeta. rewrite IH, (normalized_cons lk rest), foldl_app.
      pose proof (length_absorb_one urls lk).
      rewrite !Nat.max_l by lia. done.
Qed.

Lemma extract_loop_ok limit job_links urls :
  ∃ acc, value (extract_loop limit job_links (urls, list_to_set urls)) = Ok acc.
Proof. rewrite extract_loop_value. eauto. Qed.

(** [_extract_job_urls] never raises, whatever the page answers. *)
Lemma extract_job_urls_value pg limit :
  value (_extract_job_urls pg limit)
  = Ok (match locator_all pg job_link_selector with
        | Ok job_links => take (Z.to_nat limit) (first_seen (normalized job_links))
        | Raise _ => []
        end).
Proof.
  unfold _extract_job_urls, call. cbv zeta.
  destruct (locator_all pg job_link_selector) as [job_links|e] eqn:Hall; [|done].
  erewrite value_try_ok; [done|].
  erewrite value_bind_ok by done.
  erewrite value_bind_ok by apply (extract_loop_value limit job_links []).
  simpl. by rewrite foldl_absorb_nil, Nat.max_0_r.
Qed.

Lemma extract_job_urls_anchors pg limit :
  value (_extract_job_urls pg limit)
  = Ok (take (Z.to_nat limit) (first_seen (normalized (anchors pg)))).
Proof.
  rewrite extract_job_urls_value. unfold anchors.
  destruct (locator_all pg job_link_selector); [done|]. simpl. by rewrite take_nil.
Qed.

Lemma normalized_clean job_links u :
  u ∈ normalized job_links -> ∃ href, u = clean_url href.
Proof.
  unfold normalized. rewrite list_elem_of_omap. intros (lk & _ & Hu).
  destruct (get_attribute_href lk) as [href|]; [|done].
  destruct (matches href); [|done]. injection Hu as <-. eauto.
Qed.

Lemma first_seen_well_formed job_links n :
  Forall well_formed (take n (first_seen (normalized job_links))).
Proof.
  apply Forall_forall. intros u Hu.
  apply (subseteq_take n) in Hu. rewrite elem_of_first_seen in Hu.
  apply normalized_clean in Hu as [href ->].
  apply clean_url_well_formed.
Qed.

Lemma read_link_calm lk acc :
  existsb is_on_error
    (trace (try_except (read_link lk acc)
              (fun e =>
                 run emit (Log DEBUG ("Error extracting saved job URL: " +:+ exn_str e));
                 ret acc))) = false
  ∧ ∃ acc', value (try_except (read_link lk acc)
              (fun e =>
                 run emit (Log DEBUG ("Error extracting saved job URL: " +:+ exn_str e));
                 ret acc)) = Ok acc'.
Proof.
  unfold read_link, call. destruct lk as [[href|e]]; simpl; [|eauto].
  destruct (skipped href); simpl; [eauto|]. case_decide; simpl; eauto.
Qed.



Lemma value_bind m (k : accum -> M event accum) :
  value (bind m k) = match value m with Ok a => value (k a) | Raise e => Raise e end.
Proof. destruct m as [[a|e] t]; simpl; [|done]. by destruct (k a). Qed.

Lemma extract_loop_full limit job_links acc :
  (limit <=? len acc.1) = true -> value (extract_loop limit job_links acc) = Ok acc.
Proof. intros Hl. destruct job_links; [done|]. by rewrite extract_loop_cons, Hl. Qed.

Lemma extract_loop_skips_stale limit l1 e l2 : ∀ acc,
  value (extract_loop limit (l1 ++ stale e :: l2) acc)
  = value (extract_loop limit (l1 ++ l2) acc).
Proof.
  induction l1 as [|lk l1 IH]; intros acc; simpl app.
  - rewrite extract_loop_cons. destruct (limit <=? len acc.1) eqn:Hl.
    + by rewrite extract_loop_full.
    + rewrite value_bind. done.
  - rewrite !extract_loop_cons. destruct (limit <=? len acc.1); [done|].
    rewrite !value_bind. destruct (value _); [apply IH|done].
Qed.
End Extractor.

(** ** The click-pagination script *)

Section ClickPager.
Import ScrapeSavedJobs Spec.
Implicit Types (job_links : list link) (urls : list string) (v : page_view)
  (br : browser) (t : list event).

Lemma links_loop_cons lk rest urls :
  links_loop (lk :: rest) urls
  = do urls' <- try_except (read_link lk urls) (fun _ => ret urls); links_loop rest urls'.
Proof. done. Qed.

Lemma read_link_run lk urls :
  try_except (read_link lk urls) (fun _ => ret urls)
  = (Ok (foldl absorb urls (normalized [lk])), [GetAttribute "href"]).
Proof.
  unfold read_link, normalized. destruct lk as [[href|e]]; simpl; [|done].
  destruct (matches href); simpl; [|done].
  unfold absorb. by case_decide.
Qed.

(** The inner loop never raises; it absorbs the normalized URLs of the
    anchors it can read and performs one attribute read per anchor. *)
Lemma links_loop_run job_links urls :
  links_loop job_links urls
  = (Ok (foldl absorb urls (normalized job_links)),
     replicate (List.length job_links) (GetAttribute "href")).
Proof.
  revert urls. induction job_links as [|lk rest IH]; intros urls; [done|].
  rewrite links_loop_cons, read_link_run. unfold bind.
  rewrite IH, (normalized_cons lk rest), foldl_app. done.
Qed.

Lemma quiet_app t1 t2 : quiet (t1 ++ t2) = quiet t1 && quiet t2.
Proof. apply forallb_app. Qed.

Lemma enabled_app t1 t2 : enabled (t1 ++ t2) = enabled t1 && enabled t2.
Proof. apply forallb_app. Qed.

Lemma clicks_app t1 t2 : clicks (t1 ++ t2) = (clicks t1 + clicks t2)%nat.
Proof. unfold clicks. by rewrite List.filter_app, length_app. Qed.

Lemma clicks_cons ev t :
  clicks (ev :: t) = ((if is_click ev then 1 else 0) + clicks t)%nat.
Proof. unfold clicks. simpl. by destruct (is_click ev). Qed.

Lemma reads_quiet n : quiet (replicate n (GetAttribute "href")) = true.
Proof. by induction n. Qed.

Lemma reads_enabled n : enabled (replicate n (GetAttribute "href")) = true.
Proof. by induction n. Qed.

Lemma reads_clicks n : clicks (replicate n (GetAttribute "href")) = 0%nat.
Proof. by induction n. Qed.

Lemma no_click_after_disabled_app t1 t2 :
  no_click_after_disabled (t1 ++ t2)
  = if enabled t1 then no_click_after_disabled t2
    else no_click_after_disabled t1 && quiet t2.
Proof.
  induction t1 as [|ev t1 IH]; [done|].
  simpl. destruct (is_disabled_obs ev); simpl.
  - apply quiet_app.
  - apply IH.
Qed.

(** Case analysis on what the browser answers during one iteration. *)
Ltac step_cases v :=
  unfold page_step, advances, control_absent, control_disabled, anchors;
  destruct v as [[[]|?] [?|?] [c|?] [[]|?] [[]|?]]; simpl;
  rewrite ?links_loop_run; simpl;
  try (destruct (0 <? c); simpl).

Ltac trace_facts :=
  rewrite ?clicks_cons, ?no_click_after_disabled_app, ?enabled_app, ?quiet_app,
    ?clicks_app, ?clicks_cons, ?reads_enabled, ?reads_quiet, ?reads_clicks; simpl.

Lemma page_step_safe v urls pn :
  no_click_after_disabled (trace (page_step v urls pn)) = true
  ∧ (∀ urls' pn', value (page_step v urls pn) = Ok (true, urls', pn') ->
       enabled (trace (page_step v urls pn)) = true).
Proof. step_cases v; trace_facts; split; done. Qed.

Lemma page_step_advances v urls pn :
  advances v = true ->
  value (page_step v urls pn) = Ok (true, foldl absorb urls (normalized (anchors v)), pn + 1)
  ∧ clicks (trace (page_step v urls pn)) = 1%nat.
Proof. step_cases v; trace_facts; done. Qed.

Lemma page_step_last v urls pn :
  control_absent v || control_disabled v = true ->
  value (page_step v urls pn) = Ok (false, foldl absorb urls (normalized (anchors v)), pn)
  ∧ clicks (trace (page_step v urls pn)) = 0%nat.
Proof. step_cases v; trace_facts; done. Qed.

Lemma pages_loop_S fuel br i urls pn :
  pages_loop (S fuel) br i urls pn
  = match page_step (br i) urls pn with
    | (Raise e, t) => (Some (Raise e), t)
    | (Ok (false, urls', pn'), t) => (Some (Ok (urls', pn')), t)
    | (Ok (true, urls', pn'), t) =>
        let '(r, t') := pages_loop fuel br (S i) urls' pn' in (r, t ++ t')
    end.
Proof. done. Qed.

(** The loop ends at the first view whose next-page control is absent or
    disabled, after one click per earlier view. *)
Lemma pages_loop_stops k : ∀ fuel br i urls pn,
  (∀ j, (j < k)%nat -> advances (br (i + j)%nat) = true) ->
  control_absent (br (i + k)%nat) || control_disabled (br (i + k)%nat) = true ->
  (k < fuel)%nat ->
  fst (pages_loop fuel br i urls pn)
  = Some (Ok (foldl absorb urls
                (flat_map (fun j => normalized (anchors (br j))) (seq i (S k))),
              pn + Z.of_nat k))
  ∧ clicks (snd (pages_loop fuel br i urls pn)) = k.
Proof.
  induction k as [|k IH]; intros fuel br i urls pn Hadv Hlast Hfuel;
    (destruct fuel as [|fuel]; [lia|]); rewrite pages_loop_S.
  - rewrite Nat.add_0_r in Hlast.
    destruct (page_step_last (br i) urls pn Hlast) as [Hv Hc].
    destruct (page_step (br i) urls pn) as [r t]. simpl in Hv, Hc. subst r.
    simpl. by rewrite app_nil_r, Z.add_0_r.
  - assert (advances (br i) = true) as Ha
      by (rewrite <- (Nat.add_0_r i); apply Hadv; lia).
    destruct (page_step_advances (br i) urls pn Ha) as [Hv Hc].
    destruct (page_step (br i) urls pn) as [r t]. simpl in Hv, Hc. subst r.
    destruct (IH fuel br (S i) (foldl absorb urls (normalized (anchors (br i)))) (pn + 1))
      as [Hv' Hc'].
    + intros j Hj. replace (S i + j)%nat with (i + S j)%nat by lia. apply Hadv. lia.
    + by replace (S i + k)%nat with (i + S k)%nat by lia.
    + lia.
    + destruct (pages_loop fuel br (S i) _ (pn + 1)) as [r' t']. simpl in Hv', Hc'.
      subst r'. simpl. rewrite clicks_app, Hc, Hc'. split; [|done].
      replace (pn + Z.of_nat (S k)) with (pn + 1 + Z.of_nat k) by lia.
      by rewrite !foldl_app.
Qed.

(** Whatever the browser answers and however long the loop is followed,
    no click comes after a disabled observation. *)
Lemma pages_loop_safe fuel : ∀ br i urls pn,
  no_click_after_disabled (snd (pages_loop fuel br i urls pn)) = true.
Proof.
  induction fuel as [|fuel IH]; intros br i urls pn; [done|].
  rewrite pages_loop_S.
  destruct (page_step_safe (br i) urls pn) as [Hs He].
  destruct (page_step (br i) urls pn) as [[[[[] urls'] pn']|e] t]; simpl in *; try done.
  specialize (IH br (S i) urls' pn').
  destruct (pages_loop fuel br (S i) urls' pn') as [r t']. simpl in *.
  by rewrite no_click_after_disabled_app, (He urls' pn').
Qed.

Lemma no_click_after_disabled_spec t :
  no_click_after_disabled t = true ->
  ∀ t1 t2, t = t1 ++ NextIsDisabled true :: t2 -> NextClick ∉ t2.
Proof.
  assert (∀ t', quiet t' = true -> NextClick ∉ t') as Hq.
  { intros t' Hq Hin. unfold quiet in Hq. rewrite forallb_forall in Hq.
    apply list_elem_of_In, Hq in Hin. done. }
  induction t as [|ev t IH]; intros Ht t1 t2 Heq.
  { by destruct t1. }
  destruct t1 as [|ev' t1]; injection Heq as -> ->; simpl in Ht.
  - by apply Hq.
  - destruct (is_disabled_obs ev').
    + rewrite quiet_app in Ht. apply andb_true_iff in Ht as [_ Ht].
      simpl in Ht. by apply Hq.
    + by apply (IH Ht t1).
Qed.

Lemma page_step_value v urls pn b urls' pn' :
  value (page_step v urls pn) = Ok (b, urls', pn') ->
  urls' = foldl absorb urls (normalized (anchors v))
  ∧ pn' = (if b then pn + 1 else pn).
Proof. step_cases v; intros H; by simplify_eq. Qed.

(** A loop that ends normally ended at some iteration [k], holding what
    the views up to [k] showed. *)
Lemma pages_loop_result fuel : ∀ br i urls pn out pn',
  fst (pages_loop fuel br i urls pn) = Some (Ok (out, pn')) ->
  ∃ k, pn' = pn + Z.of_nat k
       ∧ out = foldl absorb urls
                 (flat_map (fun j => normalized (anchors (br j))) (seq i (S k))).
Proof.
  induction fuel as [|fuel IH]; intros br i urls pn out pn'; [done|].
  rewrite pages_loop_S.
  pose proof (page_step_value (br i) urls pn) as Hstep.
  destruct (page_step (br i) urls pn) as [[[[b urls1] pn1]|e] t]; [|done].
  destruct (Hstep b urls1 pn1 eq_refl) as [-> ->].
  destruct b; simpl.
  - specialize (IH br (S i) (foldl absorb urls (normalized (anchors (br i)))) (pn + 1) out pn').
    destruct (pages_loop fuel br (S i) _ (pn + 1)) as [r t']. simpl in *.
    intros Hr. destruct (IH Hr) as (k & -> & ->).
    exists (S k). split; [lia|]. simpl. by rewrite !foldl_app.
  - intros [= <- <-]. exists 0%nat. split; [lia|]. by rewrite app_nil_r.
Qed.

Lemma collect_result fuel br out pn :
  fst (main fuel br) = Collected out pn ->
  ∃ k, pn = 1 + Z.of_nat k ∧ out = first_seen (shown br (S k)).
Proof.
  unfold main.
  pose proof (pages_loop_result fuel br 0 [] 1) as Hres.
  destruct (pages_loop fuel br 0 [] 1) as [[[[out' pn']|e]|] t]; simpl; try done.
  intros [= <- <-]. destruct (Hres out' pn' eq_refl) as (k & -> & ->).
  exists k. by rewrite foldl_absorb_nil.
Qed.

Lemma stops_at_spec br k :
  stops_at br k = true ->
  (∀ j, (j < k)%nat -> advances (br j) = true)
  ∧ control_absent (br k) || control_disabled (br k) = true.
Proof.
  unfold stops_at. rewrite andb_true_iff, forallb_forall.
  intros [Hadv Hlast]. split; [|done].
  intros j Hj. apply Hadv, in_seq. lia.
Qed.

Lemma collect_stops br k fuel :
  stops_at br k = true -> (k < fuel)%nat ->
  fst (main fuel br) = Collected (first_seen (shown br (S k))) (1 + Z.of_nat k)
  ∧ clicks (snd (main fuel br)) = k.
Proof.
  intros [Hadv Hlast]%stops_at_spec Hfuel. unfold main.
  destruct (pages_loop_stops k fuel br 0 [] 1 Hadv Hlast Hfuel) as [Hv Hc].
  destruct (pages_loop fuel br 0 [] 1) as [r t]. simpl in Hv, Hc. subst r.
  simpl. rewrite foldl_absorb_nil. split; [done|].
  rewrite clicks_cons, clicks_app, clicks_cons, Hc. simpl. unfold clicks. simpl. lia.
Qed.

Lemma collect_safe fuel br :
  no_click_after_disabled (snd (main fuel br)) = true.
Proof.
  unfold main. pose proof (pages_loop_safe fuel br 0 [] 1) as Hs.
  destruct (pages_loop fuel br 0 [] 1) as [[[[out pn]|e]|] t]; simpl in *;
    try done; rewrite no_click_after_disabled_app, Hs; by destruct (enabled t).
Qed.
End ClickPager.

(** ** The login poll loop *)

Section LoginPoll.
Import CreateSession.
Implicit Types (is_logged_in : Z -> bool) (attempts : list Z) (t : list event).

Lemma poll_loop_run is_logged_in max attempts :
  poll_loop is_logged_in max attempts false
  = (Ok (match first_login is_logged_in attempts with
         | Some _ => true
         | None => false
         end),
     flat_map (waiting_block max) (waited is_logged_in attempts)
     ++ match first_login is_logged_in attempts with
        | Some a => detected_block a
        | None => []
        end).
Proof.
  induction attempts as [|a rest IH]; [done|].
  simpl. destruct (is_logged_in a) eqn:Ha; simpl; [done|].
  by rewrite IH.
Qed.

Lemma slept_app t1 t2 : slept (t1 ++ t2) = slept t1 + slept t2.
Proof. induction t1 as [|[] t1 IH]; simpl; lia. Qed.

Lemma samples_app t1 t2 : samples (t1 ++ t2) = (samples t1 + samples t2)%nat.
Proof. induction t1 as [|[] t1 IH]; simpl; lia. Qed.

Lemma waiting_blocks_slept max l :
  slept (flat_map (waiting_block max) l) = 10 * Z.of_nat (List.length l)
  ∧ samples (flat_map (waiting_block max) l) = List.length l.
Proof. induction l as [|a l [IH1 IH2]]; simpl; [done|]. lia. Qed.

Lemma waited_length is_logged_in attempts :
  (List.length (waited is_logged_in attempts) ≤ List.length attempts)%nat.
Proof.
  induction attempts as [|a rest IH]; simpl; [done|].
  destruct (is_logged_in a); simpl; lia.
Qed.

Lemma waited_none is_logged_in attempts :
  first_login is_logged_in attempts = None -> waited is_logged_in attempts = attempts.
Proof.
  induction attempts as [|a rest IH]; simpl; [done|].
  destruct (is_logged_in a); [done|]. intros ?. f_equal. auto.
Qed.

(** The attempt at which the login is detected is the first at which the
    oracle answers [True]. *)
Lemma first_login_range is_logged_in n a :
  first_login is_logged_in (py_range n) = Some a ->
  is_logged_in a = true
  ∧ waited is_logged_in (py_range n) = py_range a
  ∧ 0 <= a < n.
Proof.
  unfold py_range. remember (Z.to_nat n) as m eqn:Hm. intros Hf.
  assert (∀ s, first_login is_logged_in (map Z.of_nat (seq s m)) = Some a ->
               is_logged_in a = true
               ∧ ∃ d, a = Z.of_nat (s + d) ∧ (d < m)%nat
                      ∧ waited is_logged_in (map Z.of_nat (seq s m))
                        = map Z.of_nat (seq s d)) as Hgen.
  { clear Hf Hm. induction m as [|m IH]; intros s; simpl; [done|].
    destruct (is_logged_in (Z.of_nat s)) eqn:Hs.
    - intros [= <-]. split; [done|]. exists 0%nat. split_and!; [f_equal|..|done]; lia.
    - intros (Ha & d & -> & Hd & Hw)%IH. split; [done|].
      exists (S d). split_and!; [f_equal|..]; try lia. simpl. by rewrite Hw. }
  destruct (Hgen 0%nat Hf) as (Ha & d & -> & Hd & Hw).
  split; [done|]. rewrite Nat2Z.id. split; [done|]. lia.
Qed.

Lemma waiting_msg_reports_elapsed e r : reports e (waiting_msg e r) = true.
Proof.
  unfold reports.
  replace (waiting_msg e r)
    with ("[" +:+ (str_of_Z e +:+ "s")
          +:+ ("] Not logged in yet... (" +:+ str_of_Z r +:+ "s remaining)"))
    by (unfold waiting_msg; by rewrite !append_assoc).
  apply str_in_append.
Qed.

Lemma waiting_msg_reports_remaining e r : reports r (waiting_msg e r) = true.
Proof.
  unfold reports.
  replace (waiting_msg e r)
    with (("[" +:+ str_of_Z e +:+ "s] Not logged in yet... (")
          +:+ (str_of_Z r +:+ "s") +:+ " remaining)")
    by (unfold waiting_msg; by rewrite !append_assoc).
  apply str_in_append.
Qed.

Lemma detected_msg_reports_elapsed e : reports e (detected_msg e) = true.
Proof.
  unfold reports.
  replace (detected_msg e)
    with ((nl +:+ "[") +:+ (str_of_Z e +:+ "s") +:+ "] LOGIN DETECTED!")
    by (unfold detected_msg; by rewrite !append_assoc).
  apply str_in_append.
Qed.
End LoginPoll.

(** ** The scroll pager *)

Section ScrollPagerFacts.
Import ScrollPager.
Variable stop_on_decrease : bool.
Variable counts : nat -> Z.






End ScrollPagerFacts.

(** * The specification's claims *)

Import Spec.

(** C1 (dedup invariant).  Within one page, [_extract_job_urls] returns the
    normalized URLs of the anchors it scans each at most once and in the
    order in which they are first seen, cut at [limit]; and whenever the
    click-pagination loop ends normally, the list it has accumulated across
    all the pages visited holds every normalized URL shown exactly once, in
    first-seen order.  Duplicates and re-orderings in the input are covered
    by the quantification over all pages and browsers. *)
Theorem C1_dedup_first_seen_order :
  (∀ pg limit, ∃ out,
      value (SavedJobs._extract_job_urls pg limit) = Ok out
      ∧ out = take (Z.to_nat limit) (first_seen (normalized (SavedJobs.anchors pg)))
      ∧ NoDup out
      ∧ out ⊆ normalized (SavedJobs.anchors pg)
      ∧ first_seen_order (normalized (SavedJobs.anchors pg)) out)
  ∧ (∀ fuel br out page_num,
      fst (ScrapeSavedJobs.main fuel br) = ScrapeSavedJobs.Collected out page_num ->
      ∃ k, page_num = 1 + Z.of_nat k
           ∧ out = first_seen (shown br (S k))
           ∧ NoDup out
           ∧ (∀ u, u ∈ out ↔ u ∈ shown br (S k))
           ∧ first_seen_order (shown br (S k)) out)
  ∧ (∀ br k fuel,
      ScrapeSavedJobs.stops_at br k = true -> (k < fuel)%nat ->
      fst (ScrapeSavedJobs.main fuel br)
      = ScrapeSavedJobs.Collected (first_seen (shown br (S k))) (1 + Z.of_nat k)).
Proof.
  split_and!.
  - intros pg limit. eexists. split; [apply extract_job_urls_anchors|].
    split_and!.
    + done.
    + eapply sublist_NoDup; [apply NoDup_first_seen|apply sublist_take].
    + intros u Hu. apply elem_of_first_seen.
      by apply (subseteq_take (Z.to_nat limit)).
    + apply first_seen_order_take, first_seen_ordered.
  - intros fuel br out page_num (k & -> & ->)%collect_result.
    exists k. split_and!; try done.
    + apply NoDup_first_seen.
    + intros u. apply elem_of_first_seen.
    + apply first_seen_ordered.
  - intros br k fuel Hstop Hfuel. by destruct (collect_stops br k fuel Hstop Hfuel).
Qed.

(** C1 on two pages: the script ends on page 2 with the three jobs shown,
    each once. *)
Lemma C1_two_pages_witness :
  fst (ScrapeSavedJobs.main 5 Examples.two_pages)
  = ScrapeSavedJobs.Collected (first_seen (shown Examples.two_pages 2)) 2.
Proof.
  apply (proj2 (proj2 C1_dedup_first_seen_order) Examples.two_pages 1%nat 5%nat).
  - vm_compute. reflexivity.
  - lia.
Defined.

(** C2 (limit invariant), amended.  For every limit that is not negative,
    the list returned by [_extract_job_urls] has length at most [limit]; and
    whenever the number of distinct normalized matching URLs exceeds [limit],
    exactly [limit] URLs are returned, namely the earliest-seen ones.  For a
    negative limit the list returned is empty. *)
Theorem C2_limit_nonnegative pg limit :
  ∃ out,
    value (SavedJobs._extract_job_urls pg limit) = Ok out
    ∧ (0 <= limit ->
       len out <= limit
       ∧ (limit < Z.of_nat (distinct (normalized (SavedJobs.anchors pg))) ->
          len out = limit
          ∧ out = take (Z.to_nat limit)
                    (first_seen (normalized (SavedJobs.anchors pg)))))
    ∧ (limit < 0 -> out = []).
Proof.
  eexists. split; [apply extract_job_urls_anchors|]. split.
  - intros Hlimit. unfold len. rewrite length_take, length_first_seen.
    split; [lia|]. intros Hmore. split; [lia|done].
  - intros Hneg. by replace (Z.to_nat limit) with 0%nat by lia.
Qed.

(** C2 on the three anchors of the scenario with limit 1: one URL, the
    first seen. *)
Lemma C2_limit_one_witness :
  ∃ out,
    value (SavedJobs._extract_job_urls Examples.page_three 1) = Ok out
    ∧ len out = 1
    ∧ out = ["https://www.linkedin.com/jobs/view/111"].
Proof.
  destruct (C2_limit_nonnegative Examples.page_three 1) as (out & Hv & Hpos & _).
  destruct (Hpos ltac:(lia)) as [_ Hexact].
  destruct Hexact as [Hlen Hout]; [vm_compute; reflexivity|].
  exists out. split; [exact Hv|]. split; [exact Hlen|]. rewrite Hout. reflexivity.
Defined.

(** C2 as stated fails for a negative limit: the extractor, and [scrape]
    itself, return the empty list, whose length 0 is neither at most -1 nor
    equal to -1, although two distinct URLs are available. *)
Lemma C2_negative_limit_counterexample :
  value (SavedJobs._extract_job_urls Examples.page_three (-1)) = Ok []
  ∧ value (SavedJobs.scrape SavedJobs.SilentCallback Examples.page_three (-1) 5 1) = Ok []
  ∧ -1 < Z.of_nat (distinct (normalized (SavedJobs.anchors Examples.page_three)))
  ∧ ¬ (len (@nil string) <= -1)
  ∧ len (@nil string) ≠ -1.
Proof. split_and!; [by vm_compute|by vm_compute|by vm_compute|unfold len; simpl; lia..]. Qed.

(** C3 (extraction scenario), amended.  The three anchors
    [/jobs/view/111?pos=1], [/jobs/view/111?pos=2], [/jobs/view/222] with
    limit 10 yield exactly the two URLs qualified against the origin the
    code fixes, https://www.linkedin.com. *)
Theorem C3_three_anchors pg :
  SavedJobs.locator_all pg SavedJobs.job_link_selector = Ok Examples.three_anchors ->
  value (SavedJobs._extract_job_urls pg 10)
  = Ok ["https://www.linkedin.com/jobs/view/111"; "https://www.linkedin.com/jobs/view/222"].
Proof. intros Hall. rewrite extract_job_urls_value, Hall. by vm_compute. Qed.

(** C3 on a page on which every other call succeeds too. *)
Lemma C3_three_anchors_witness :
  value (SavedJobs._extract_job_urls Examples.page_three 10)
  = Ok ["https://www.linkedin.com/jobs/view/111"; "https://www.linkedin.com/jobs/view/222"].
Proof. apply (C3_three_anchors Examples.page_three). reflexivity. Defined.

(** C3 as stated names the origin [https://site]; the list the code returns
    is not the one the claim gives. *)
Lemma C3_site_origin_counterexample :
  value (SavedJobs._extract_job_urls Examples.page_three 10)
  ≠ Ok ["https://site/jobs/view/111"; "https://site/jobs/view/222"].
Proof. by vm_compute. Qed.

(** C4 (click-pagination termination).  When the browser lets [k] iterations
    advance and then shows a next-page control that is absent, or present but
    disabled, the loop ends at that iteration, on page [k + 1], having
    clicked [k] times; and in every run, however long it is followed and
    whatever the browser answers, no click is issued after a disabled
    control has been observed. *)
Theorem C4_click_pager_terminates :
  (∀ br k fuel,
      ScrapeSavedJobs.stops_at br k = true -> (k < fuel)%nat ->
      ∃ out, fst (ScrapeSavedJobs.main fuel br) = ScrapeSavedJobs.Collected out (1 + Z.of_nat k)
             ∧ ScrapeSavedJobs.clicks (snd (ScrapeSavedJobs.main fuel br)) = k)
  ∧ (∀ fuel br t1 t2,
      snd (ScrapeSavedJobs.main fuel br) = t1 ++ ScrapeSavedJobs.NextIsDisabled true :: t2 ->
      ScrapeSavedJobs.NextClick ∉ t2).
Proof.
  split.
  - intros br k fuel Hstop Hfuel.
    destruct (collect_stops br k fuel Hstop Hfuel) as [Hv Hc]. eauto.
  - intros fuel br t1 t2. apply no_click_after_disabled_spec, collect_safe.
Qed.

(** C4 on two pages: one click, and the loop ends on the disabled control
    of page 2. *)
Lemma C4_two_pages_witness :
  ∃ out, fst (ScrapeSavedJobs.main 5 Examples.two_pages) = ScrapeSavedJobs.Collected out 2
         ∧ ScrapeSavedJobs.clicks (snd (ScrapeSavedJobs.main 5 Examples.two_pages)) = 1%nat.
Proof.
  apply (proj1 C4_click_pager_terminates Examples.two_pages 1%nat 5%nat).
  - vm_compute. reflexivity.
  - lia.
Defined.

(** C5 (login polling), amended.  The poll loop sleeps the fixed interval
    before every sample; every sample that is not logged in prints a message
    reporting the elapsed and the remaining time, and the sample that
    detects the login prints a message reporting the elapsed time only; the
    loop ends at the first sample at which the login is detected, and
    otherwise after [max_attempts] samples, when it has slept exactly the
    total timeout; it never sleeps longer than the timeout. *)
Theorem C5_login_poll max is_logged_in :
  0 <= max ->
  trace (CreateSession.poll_with max is_logged_in)
  = flat_map (CreateSession.waiting_block max)
      (CreateSession.waited is_logged_in (py_range max))
    ++ match CreateSession.first_login is_logged_in (py_range max) with
       | Some a => CreateSession.detected_block a
       | None => []
       end
  ∧ CreateSession.slept (trace (CreateSession.poll_with max is_logged_in))
    = CreateSession.interval
      * Z.of_nat (CreateSession.samples (trace (CreateSession.poll_with max is_logged_in)))
  ∧ (∀ a, CreateSession.first_login is_logged_in (py_range max) = Some a ->
          value (CreateSession.poll_with max is_logged_in) = Ok true
          ∧ is_logged_in a = true
          ∧ CreateSession.waited is_logged_in (py_range max) = py_range a
          ∧ Z.of_nat
              (CreateSession.samples (trace (CreateSession.poll_with max is_logged_in)))
            = a + 1)
  ∧ (CreateSession.first_login is_logged_in (py_range max) = None ->
     value (CreateSession.poll_with max is_logged_in) = Ok false
     ∧ Z.of_nat (CreateSession.samples (trace (CreateSession.poll_with max is_logged_in)))
       = max
     ∧ CreateSession.slept (trace (CreateSession.poll_with max is_logged_in))
       = CreateSession.timeout max)
  ∧ CreateSession.slept (trace (CreateSession.poll_with max is_logged_in))
    <= CreateSession.timeout max
  ∧ (∀ e r, CreateSession.reports e (CreateSession.waiting_msg e r) = true
            ∧ CreateSession.reports r (CreateSession.waiting_msg e r) = true
            ∧ CreateSession.reports e (CreateSession.detected_msg e) = true).
Proof.
  intros Hmax.
  unfold CreateSession.poll_with, CreateSession.timeout, CreateSession.interval.
  rewrite poll_loop_run. simpl value. simpl trace.
  pose proof (waiting_blocks_slept max (CreateSession.waited is_logged_in (py_range max)))
    as [Hslept Hsamples].
  pose proof (waited_length is_logged_in (py_range max)) as Hlen.
  assert (List.length (py_range max) = Z.to_nat max) as Hrange
    by (unfold py_range; by rewrite length_map, length_seq).
  rewrite slept_app, samples_app, Hslept, Hsamples.
  split_and!.
  - done.
  - destruct (CreateSession.first_login is_logged_in (py_range max)); simpl; lia.
  - intros a Ha. rewrite Ha.
    apply first_login_range in Ha as (Hin & Hw & Hrng).
    rewrite Hw. split_and!; try done.
    unfold py_range. rewrite length_map, length_seq. simpl. lia.
  - intros Hnone. rewrite Hnone, (waited_none _ _ Hnone), Hrange. simpl.
    split_and!; [done|lia..].
  - destruct (CreateSession.first_login is_logged_in (py_range max)) as [a|] eqn:Hf; simpl.
    + apply first_login_range in Hf as (_ & Hw & Hrng).
      rewrite Hw. unfold py_range. rewrite length_map, length_seq. lia.
    + lia.
  - intros e r. split_and!.
    + apply waiting_msg_reports_elapsed.
    + apply waiting_msg_reports_remaining.
    + apply detected_msg_reports_elapsed.
Qed.

(** C5 with the 30 attempts of the script and a user who logs in between
    the second and the third sample: two waiting messages, then the
    detection after 30 seconds. *)
Lemma C5_thirty_attempts_witness :
  trace (CreateSession.create_session Examples.logs_in_at_third)
  = [CreateSession.Sleep 10; CreateSession.IsLoggedIn false;
     CreateSession.Print (CreateSession.waiting_msg 10 290);
     CreateSession.Sleep 10; CreateSession.IsLoggedIn false;
     CreateSession.Print (CreateSession.waiting_msg 20 280);
     CreateSession.Sleep 10; CreateSession.IsLoggedIn true;
     CreateSession.Print (CreateSession.detected_msg 30)].
Proof.
  unfold CreateSession.create_session, CreateSession.max_attempts.
  rewrite (proj1 (C5_login_poll 30 Examples.logs_in_at_third ltac:(lia))).
  reflexivity.
Defined.

(** C5 as stated fails on the sample that detects the login: when the user is
    logged in at the first sample, the only message printed is the one of
    line 37, which reports the 10 seconds elapsed but not the 290 seconds
    remaining. *)
Lemma C5_remaining_not_reported_counterexample :
  trace (CreateSession.create_session (fun _ => true))
  = [CreateSession.Sleep 10; CreateSession.IsLoggedIn true;
     CreateSession.Print (CreateSession.detected_msg 10)]
  ∧ CreateSession.reports 10 (CreateSession.detected_msg 10) = true
  ∧ CreateSession.reports (CreateSession.timeout CreateSession.max_attempts - 10)
      (CreateSession.detected_msg 10) = false.
Proof. split_and!; by vm_compute. Qed.


(** Unfold [scrape] and name what the extractor returns and leaves in the
    trace. *)
Ltac scrape_open pg limit :=
  let Hv := fresh "Hv" in
  let r := fresh "r" in
  let t := fresh "t" in
  unfold SavedJobs.scrape, SavedJobs.awaited, SavedJobs.page_steps, SavedJobs.extracted,
    SavedJobs.call, SavedJobs.notify;
  pose proof (extract_job_urls_anchors pg limit) as Hv; revert Hv;
  destruct (SavedJobs._extract_job_urls pg limit) as [r t];
  unfold value, trace; cbn [fst snd]; intros ->.

(** Case analysis on the answers to what [scrape] awaits in its [try]
    block, in the order of the source; every case is left to the caller. *)
Ltac awaited_cases cb pg max_scrolls pause_time :=
  destruct (SavedJobs.navigate_and_wait pg SavedJobs.saved_jobs_url) as [[]|?]; simpl;
  [destruct (SavedJobs.on_progress cb "Navigated to saved jobs" 10) as [[]|?]; simpl;
   [destruct (SavedJobs.ensure_logged_in pg) as [[]|?]; simpl;
    [destruct (SavedJobs.wait_for_selector pg "main" 10000) as [[]|?]; simpl;
     [destruct (SavedJobs.wait_and_focus pg 1) as [[]|?]; simpl;
      [destruct (SavedJobs.close_modals pg) as [[]|?]; simpl;
       [destruct (SavedJobs.scroll_page_to_bottom pg pause_time max_scrolls) as [[]|?];
        simpl;
        [match goal with
         | |- context [SavedJobs.on_progress cb ?m 90] =>
             destruct (SavedJobs.on_progress cb m 90) as [[]|?]; simpl;
             [match goal with
              | |- context [SavedJobs.on_complete cb "SavedJobs" ?o] =>
                  destruct (SavedJobs.on_complete cb "SavedJobs" o) as [[]|?]; simpl
              end|]
         end|]|]|]|]|]|]|].

(** The answer of [on_error] to the exception that reached the handler. *)
Ltac handler_cases cb :=
  match goal with
  | |- context [SavedJobs.on_error cb ?e] =>
      destruct (SavedJobs.on_error cb e) as [[]|?]; simpl
  end.

Ltac handler_answer cb Herr :=
  match goal with
  | |- context [SavedJobs.on_error cb ?e] =>
      destruct (SavedJobs.on_error cb e) as [[]|?] eqn:Herr; simpl
  end.





(** C7 (per-element failures).  An anchor whose attribute read raises is
    skipped: both extraction loops return what they would return without it,
    and neither the extractor nor the script's loop over the anchors ever
    ends with an exception. *)
Theorem C7_unreadable_anchor_skipped :
  (∀ limit l1 e l2 acc,
      value (SavedJobs.extract_loop limit (l1 ++ stale e :: l2) acc)
      = value (SavedJobs.extract_loop limit (l1 ++ l2) acc))
  ∧ (∀ pg limit, ∃ out, value (SavedJobs._extract_job_urls pg limit) = Ok out)
  ∧ (∀ l1 e l2 urls,
      value (ScrapeSavedJobs.links_loop (l1 ++ stale e :: l2) urls)
      = value (ScrapeSavedJobs.links_loop (l1 ++ l2) urls))
  ∧ (∀ job_links urls, ∃ out, value (ScrapeSavedJobs.links_loop job_links urls) = Ok out).
Proof.
  split_and!.
  - intros limit l1 e l2 acc. apply extract_loop_skips_stale.
  - intros pg limit. eexists. apply extract_job_urls_anchors.
  - intros l1 e l2 urls. rewrite !links_loop_run. simpl. f_equal.
    unfold normalized. by rewrite !omap_app.
  - intros job_links urls. rewrite links_loop_run. eauto.
Qed.

(** C7 on the second of the two pages, whose middle anchor is stale: the
    script reads the other two. *)
Lemma C7_stale_anchor_witness :
  value (ScrapeSavedJobs.links_loop
           [anchor "/jobs/view/2?y=2"; stale (PyException "stale element");
            anchor "/jobs/view/3"] [])
  = Ok ["https://www.linkedin.com/jobs/view/2"; "https://www.linkedin.com/jobs/view/3"].
Proof.
  etrans.
  - apply (proj1 (proj2 (proj2 C7_unreadable_anchor_skipped))
             [anchor "/jobs/view/2?y=2"] (PyException "stale element")
             [anchor "/jobs/view/3"] []).
  - reflexivity.
Defined.



(** C9 (non-positive limit), amended.  For a limit that is zero or negative
    the whole run of [scrape] is the log record of the start and the call of
    [on_start]: no navigation, login check, scrolling or extraction, and no
    other callback.  When [on_start] returns, [scrape] returns the empty list
    at once; when [on_start] raises, its exception leaves [scrape]. *)
Theorem C9_nonpositive_limit cb pg limit max_scrolls pause_time :
  limit <= 0 ->
  trace (SavedJobs.scrape cb pg limit max_scrolls pause_time)
  = [SavedJobs.Log SavedJobs.INFO "Starting saved jobs scraping";
     SavedJobs.OnStart "SavedJobs" SavedJobs.saved_jobs_url]
  ∧ (SavedJobs.on_start cb "SavedJobs" SavedJobs.saved_jobs_url = Ok tt ->
     value (SavedJobs.scrape cb pg limit max_scrolls pause_time) = Ok [])
  ∧ (∀ e, SavedJobs.on_start cb "SavedJobs" SavedJobs.saved_jobs_url = Raise e ->
          value (SavedJobs.scrape cb pg limit max_scrolls pause_time) = Raise e).
Proof.
  intros Hlimit. unfold SavedJobs.scrape, SavedJobs.notify.
  apply Z.leb_le in Hlimit. rewrite Hlimit.
  destruct (SavedJobs.on_start cb "SavedJobs" SavedJobs.saved_jobs_url) as [[]|e0]; simpl.
  - split_and!; [done|done|]. by intros e [=].
  - split_and!; [done|by intros [=]|]. by intros e [= <-].
Qed.

(** C9 with limit 0 on a page that shows three anchors, with the default
    callback. *)
Lemma C9_limit_zero_witness :
  trace (SavedJobs.scrape SavedJobs.SilentCallback Examples.page_three 0 5 1)
  = [SavedJobs.Log SavedJobs.INFO "Starting saved jobs scraping";
     SavedJobs.OnStart "SavedJobs" SavedJobs.saved_jobs_url]
  ∧ value (SavedJobs.scrape SavedJobs.SilentCallback Examples.page_three 0 5 1) = Ok [].
Proof.
  destruct (C9_nonpositive_limit SavedJobs.SilentCallback Examples.page_three 0 5 1
              ltac:(lia)) as (Ht & Hv & _).
  split; [exact Ht|exact (Hv eq_refl)].
Defined.

(** C9 as stated fails for a callback whose [on_start] raises: it is awaited
    before the guard of line 57 and outside the [try], so with limit 0
    [scrape] does not return the empty list but ends with the callback's
    exception. *)
Lemma C9_raising_on_start_counterexample :
  value (SavedJobs.scrape Cases.raising_on_start Examples.page_three 0 5 1)
  = Raise Cases.callback_bug
  ∧ value (SavedJobs.scrape Cases.raising_on_start Examples.page_three 0 5 1) ≠ Ok [].
Proof. split; [by vm_compute|]. vm_compute. discriminate. Qed.

(** C10 (shape of the URLs).  Every URL returned by the extractor, and every
    URL collected by the script, contains no question mark and starts with
    [http]; an href that begins with [http] is kept as it is once its query
    string is stripped, and any other href is prefixed with
    [https://www.linkedin.com]. *)
Theorem C10_urls_well_formed :
  (∀ pg limit, ∃ out,
      value (SavedJobs._extract_job_urls pg limit) = Ok out ∧ Forall well_formed out)
  ∧ (∀ fuel br out page_num,
      fst (ScrapeSavedJobs.main fuel br) = ScrapeSavedJobs.Collected out page_num ->
      Forall well_formed out)
  ∧ (∀ href, startswith "http" href = true -> clean_url href = strip_query href)
  ∧ (∀ href, startswith "http" href = false ->
             clean_url href = "https://www.linkedin.com" +:+ strip_query href).
Proof.
  split_and!.
  - intros pg limit. eexists. split; [apply extract_job_urls_anchors|].
    apply first_seen_well_formed.
  - intros fuel br out page_num (k & -> & ->)%collect_result.
    apply Forall_forall. intros u Hu. rewrite elem_of_first_seen in Hu.
    unfold shown in Hu. rewrite list_elem_of_In in Hu.
    apply in_flat_map in Hu as (i & _ & Hu). rewrite <- list_elem_of_In in Hu.
    apply normalized_clean in Hu as [href ->].
    apply clean_url_well_formed.
  - apply clean_url_absolute.
  - apply clean_url_relative.
Qed.

(** C10 on the three URLs the script collects from the two pages. *)
Lemma C10_two_pages_witness :
  Forall well_formed
    ["https://www.linkedin.com/jobs/view/1"; "https://www.linkedin.com/jobs/view/2";
     "https://www.linkedin.com/jobs/view/3"].
Proof.
  apply (proj1 (proj2 C10_urls_well_formed) 5%nat Examples.two_pages _ 2).
  vm_compute. reflexivity.
Defined.

(** * Further properties of the code *)

(** ** Normalisation (saved_jobs.py lines 109-111, scrape_saved_jobs.py
    lines 73-75) *)

Lemma strip_query_plain href : str_in "?" href = false -> strip_query href = href.
Proof. intros Hq. unfold strip_query. by rewrite Hq. Qed.

Lemma split0_append c p q :
  str_in (String c EmptyString) p = false -> split0 c (p +:+ String c q) = p.
Proof.
  induction p as [|a p IH]; intros Hp.
  - change (split0 c (String c q) = EmptyString). simpl. by rewrite Ascii.eqb_refl.
  - rewrite str_in_char_cons in Hp. apply orb_false_iff in Hp as [Ha Hp].
    rewrite append_cons. simpl. rewrite Ascii.eqb_sym, Ha. by rewrite IH.
Qed.

Lemma split0_append_plain c p q :
  str_in (String c EmptyString) p = false -> split0 c (p +:+ q) = p +:+ split0 c q.
Proof.
  induction p as [|a p IH]; intros Hp; [done|].
  rewrite str_in_char_cons in Hp. apply orb_false_iff in Hp as [Ha Hp].
  rewrite !append_cons. simpl. rewrite Ascii.eqb_sym, Ha. by rewrite IH.
Qed.

Lemma split0_plain c p : str_in (String c EmptyString) p = false -> split0 c p = p.
Proof.
  induction p as [|a p IH]; intros Hp; [done|].
  rewrite str_in_char_cons in Hp. apply orb_false_iff in Hp as [Ha Hp].
  simpl. rewrite Ascii.eqb_sym, Ha. by rewrite IH.
Qed.

(** X1.  Normalisation is idempotent: normalising a URL that the extractor
    returned gives the same URL. *)
Theorem X1_clean_url_idempotent href : clean_url (clean_url href) = clean_url href.
Proof.
  destruct (clean_url_well_formed href) as [Hq Hh].
  rewrite (clean_url_absolute _ Hh). by apply strip_query_plain.
Qed.

(** X2.  Two hrefs that differ only in their query string normalise to the
    same URL: whatever follows the first question mark is dropped. *)
Theorem X2_query_string_dropped p q :
  str_in "?" p = false -> clean_url (p +:+ "?" +:+ q) = clean_url p.
Proof.
  intros Hp. unfold clean_url.
  assert (strip_query (p +:+ "?" +:+ q) = p) as ->.
  { unfold strip_query.
    rewrite str_in_char_app. simpl (str_in "?" ("?" +:+ q)). rewrite orb_true_r.
    by apply (split0_append "?"%char). }
  by rewrite strip_query_plain.
Qed.

Lemma X2_pos_parameter_witness :
  clean_url ("/jobs/view/111" +:+ "?" +:+ "pos=2") = clean_url "/jobs/view/111".
Proof. apply (X2_query_string_dropped "/jobs/view/111" "pos=2"). reflexivity. Defined.

(** X3.  A relative href and the same path written out against
    https://www.linkedin.com normalise to the same URL, so the extractor
    counts them as one job. *)
Theorem X3_relative_and_absolute_agree p :
  startswith "http" p = false -> clean_url (base_origin +:+ p) = clean_url p.
Proof.
  intros Hp. rewrite (clean_url_relative p Hp).
  assert (strip_query (base_origin +:+ p) = base_origin +:+ strip_query p) as Hs.
  { unfold strip_query. rewrite str_in_char_app.
    change (str_in "?" base_origin) with false. simpl orb.
    destruct (str_in "?" p); [|done].
    by apply (split0_append_plain "?"%char). }
  by rewrite clean_url_absolute.
Qed.

Lemma X3_job_path_witness :
  clean_url (base_origin +:+ "/jobs/view/222?refId=7") = clean_url "/jobs/view/222?refId=7".
Proof. apply (X3_relative_and_absolute_agree "/jobs/view/222?refId=7"). reflexivity. Defined.

(** ** The extractor (saved_jobs.py lines 84-123) *)

Section ExtractorRuns.
Import SavedJobs Observed.
Implicit Types (limit : Z) (job_links : list link) (urls : list string)
  (t : list SavedJobs.event).

Lemma reads_app t1 t2 : reads (t1 ++ t2) = (reads t1 + reads t2)%nat.
Proof. unfold reads. by rewrite List.filter_app, length_app. Qed.

Lemma debug_logs_app t1 t2 : debug_logs (t1 ++ t2) = debug_logs t1 ++ debug_logs t2.
Proof. apply omap_app. Qed.

Lemma failures_cons lk job_links :
  failures (lk :: job_links) = failures [lk] ++ failures job_links.
Proof. unfold failures. by rewrite <- omap_app. Qed.

(** What reading one anchor leaves in the trace. *)
Lemma read_link_trace lk acc :
  reads (trace (try_except (read_link lk acc)
                  (fun e =>
                     run emit (Log DEBUG ("Error extracting saved job URL: " +:+ exn_str e));
                     ret acc))) = 1%nat
  ∧ debug_logs (trace (try_except (read_link lk acc)
                  (fun e =>
                     run emit (Log DEBUG ("Error extracting saved job URL: " +:+ exn_str e));
                     ret acc)))
    = map (fun e => "Error extracting saved job URL: " +:+ exn_str e) (failures [lk]).
Proof.
  unfold read_link, call, failures. destruct lk as [[href|e]]; simpl; [|done].
  destruct (skipped href); simpl; [done|]. by case_decide.
Qed.

(** The loop reads the anchors in order and stops reading as soon as, and
    only when, [limit] URLs are held; every failed read is logged. *)
Lemma extract_loop_reads limit job_links : ∀ urls,
  ∃ t out,
    extract_loop limit job_links (urls, list_to_set urls) = (Ok (out, list_to_set out), t)
    ∧ (reads t ≤ List.length job_links)%nat
    ∧ out = foldl absorb urls (normalized (take (reads t) job_links))
    ∧ ((reads t < List.length job_links)%nat -> (Z.to_nat limit ≤ List.length out)%nat)
    ∧ (∀ m, (m < reads t)%nat ->
            (List.length (foldl absorb urls (normalized (take m job_links)))
             < Z.to_nat limit)%nat)
    ∧ debug_logs t
      = map (fun e => "Error extracting saved job URL: " +:+ exn_str e)
          (failures (take (reads t) job_links)).
Proof.
  induction job_links as [|lk rest IH]; intros urls.
  - exists [], urls. split_and!; try done; unfold reads; simpl; intros; lia.
  - rewrite extract_loop_cons. simpl fst.
    destruct (limit <=? len urls) eqn:Hl.
    + apply limit_reached in Hl.
      exists [], urls. split_and!; try done; unfold reads; simpl; intros; lia.
    + assert (List.length urls < Z.to_nat limit)%nat as Hlt.
      { destruct (decide (Z.to_nat limit ≤ List.length urls)%nat) as [Hle|]; [|lia].
        apply limit_reached in Hle. congruence. }
      pose proof (read_link_value lk urls) as Hv.
      destruct (read_link_trace lk (urls, list_to_set urls)) as [Hr Hd].
      destruct (try_except (read_link lk (urls, list_to_set urls)) _) as [r t1].
      unfold value, trace in Hv, Hr, Hd. cbn [fst snd] in Hv, Hr, Hd.
      subst r. cbv zeta.
      destruct (IH (foldl absorb urls (normalized [lk])))
        as (t2 & out & Heq & Hn & Hout & Hstop & Hbelow & Hlog).
      unfold bind. rewrite Heq.
      exists (t1 ++ t2), out.
      rewrite reads_app, Hr, debug_logs_app, Hd, Hlog.
      change (take (1 + reads t2) (lk :: rest)) with (lk :: take (reads t2) rest).
      rewrite (normalized_cons lk (take (reads t2) rest)), foldl_app,
        (failures_cons lk (take (reads t2) rest)), map_app.
      split_and!; try done.
      * simpl. lia.
      * intros Hlt'. apply Hstop. simpl in Hlt'. lia.
      * intros [|m] Hm; [simpl; lia|].
        change (take (S m) (lk :: rest)) with (lk :: take m rest).
        rewrite (normalized_cons lk), foldl_app. apply Hbelow. lia.
Qed.
(** The extractor never calls the callback. *)
Lemma extract_loop_internal limit job_links : ∀ acc,
  forallb internal (trace (extract_loop limit job_links acc)) = true.
Proof.
  induction job_links as [|lk rest IH]; intros acc; [done|].
  rewrite extract_loop_cons. destruct (limit <=? len acc.1); [done|].
  destruct (read_link_calm lk acc) as [_ [acc' Hv]].
  erewrite trace_bind_ok by done. rewrite forallb_app, IH, andb_true_r.
  unfold read_link, call. destruct lk as [[href|e]]; simpl; [|done].
  destruct (skipped href); simpl; [done|]. by case_decide.
Qed.

Lemma internal_silent t :
  forallb internal t = true -> completions t = [] ∧ progress t = [].
Proof.
  induction t as [|ev t IH]; [done|]. simpl.
  intros [Hev Ht]%andb_true_iff. destruct (IH Ht) as [Hc Hp].
  unfold completions, progress in *. simpl. rewrite Hc, Hp.
  by destruct ev.
Qed.

(** A run of the extractor on a page whose anchors can be located. *)
Lemma extract_job_urls_reads pg limit job_links :
  locator_all pg job_link_selector = Ok job_links ->
  ∃ t out,
    _extract_job_urls pg limit = (Ok out, Page (LocatorAll job_link_selector) :: t)
    ∧ (reads t ≤ List.length job_links)%nat
    ∧ out = first_seen (normalized (take (reads t) job_links))
    ∧ ((reads t < List.length job_links)%nat -> List.length out = Z.to_nat limit)
    ∧ (∀ m, (m < reads t)%nat ->
            (List.length (first_seen (normalized (take m job_links))) < Z.to_nat limit)%nat)
    ∧ debug_logs t
      = map (fun e => "Error extracting saved job URL: " +:+ exn_str e)
          (failures (take (reads t) job_links)).
Proof.
  intros Hall.
  destruct (extract_loop_reads limit job_links [])
    as (t & out & Heq & Hn & Hout & Hstop & Hbelow & Hlog).
  change (list_to_set []) with (∅ : gset string) in Heq.
  pose proof (extract_job_urls_value pg limit) as Hv.
  assert (_extract_job_urls pg limit = (Ok out, Page (LocatorAll job_link_selector) :: t))
    as Hrun.
  { unfold _extract_job_urls, call. cbv zeta. rewrite Hall. simpl. rewrite Heq. simpl.
    by rewrite app_nil_r. }
  rewrite Hrun, Hall in Hv. simpl in Hv. injection Hv as Hv.
  rewrite foldl_absorb_nil in Hout.
  exists t, out. split_and!; try done.
  - intros Hlt. specialize (Hstop Hlt).
    assert (List.length out ≤ Z.to_nat limit)%nat; [|lia].
    rewrite Hv, length_take. lia.
  - intros m Hm. rewrite <- foldl_absorb_nil. by apply Hbelow.
Qed.

Lemma extract_job_urls_internal pg limit :
  forallb internal (trace (_extract_job_urls pg limit)) = true.
Proof.
  unfold _extract_job_urls, call. cbv zeta.
  destruct (locator_all pg job_link_selector) as [job_links|e]; [|done].
  simpl. pose proof (extract_loop_internal limit job_links ([], ∅)) as Hi.
  destruct (extract_loop limit job_links ([], ∅)) as [[acc|e] t]; simpl in *;
    by rewrite ?app_nil_r, ?forallb_app, ?Hi.
Qed.

(** X4.  Raising the limit only appends: the URLs returned for a limit are
    the first URLs returned for any larger limit, in the same order. *)
Theorem X4_larger_limit_extends pg limit limit' :
  limit <= limit' ->
  ∃ out out',
    value (_extract_job_urls pg limit) = Ok out
    ∧ value (_extract_job_urls pg limit') = Ok out'
    ∧ out `prefix_of` out'.
Proof.
  intros Hle. do 2 eexists. split; [apply extract_job_urls_anchors|].
  split; [apply extract_job_urls_anchors|].
  replace (Z.to_nat limit) with (Z.to_nat limit `min` Z.to_nat limit')%nat by lia.
  rewrite <- take_take. apply prefix_take.
Qed.

Lemma X4_limit_one_of_ten_witness :
  ∃ out out',
    value (_extract_job_urls Examples.page_three 1) = Ok out
    ∧ value (_extract_job_urls Examples.page_three 10) = Ok out'
    ∧ out `prefix_of` out'.
Proof. apply (X4_larger_limit_extends Examples.page_three 1 10). lia. Defined.

(** X5.  Anchors that come later in the document never disturb what the
    earlier ones gave: on a page that shows the same anchors followed by
    more, the extractor returns a list that starts with the URLs it returns
    on the shorter page. *)
Theorem X5_later_anchors_extend pg pg' more limit :
  anchors pg' = anchors pg ++ more ->
  ∃ out out',
    value (_extract_job_urls pg limit) = Ok out
    ∧ value (_extract_job_urls pg' limit) = Ok out'
    ∧ out `prefix_of` out'.
Proof.
  intros Hmore. do 2 eexists. split; [apply extract_job_urls_anchors|].
  split; [apply extract_job_urls_anchors|].
  rewrite Hmore. unfold normalized. rewrite omap_app.
  rewrite <- !foldl_absorb_nil, foldl_app, (foldl_absorb (foldl absorb [] _)).
  rewrite take_app. apply prefix_app_r. done.
Qed.

Lemma X5_fourth_anchor_witness :
  ∃ out out',
    value (_extract_job_urls Examples.page_three 10) = Ok out
    ∧ value (_extract_job_urls
               (page_showing (Ok (Examples.three_anchors ++ [anchor "/jobs/view/333"]))) 10)
      = Ok out'
    ∧ out `prefix_of` out'.
Proof.
  apply (X5_later_anchors_extend Examples.page_three
           (page_showing (Ok (Examples.three_anchors ++ [anchor "/jobs/view/333"])))
           [anchor "/jobs/view/333"] 10).
  reflexivity.
Defined.

(** X6.  The extractor reads the anchors in document order and stops
    reading exactly when [limit] URLs are held: the list returned is the
    first-seen deduplication of the anchors read, fewer anchors are read
    than located only if the list has reached the limit, and before each
    read the list was still short of it. *)
Theorem X6_reading_stops_at_limit pg limit job_links :
  locator_all pg job_link_selector = Ok job_links ->
  ∃ out,
    value (_extract_job_urls pg limit) = Ok out
    ∧ (reads (trace (_extract_job_urls pg limit)) ≤ List.length job_links)%nat
    ∧ out = first_seen
              (normalized (take (reads (trace (_extract_job_urls pg limit))) job_links))
    ∧ ((reads (trace (_extract_job_urls pg limit)) < List.length job_links)%nat ->
       List.length out = Z.to_nat limit)
    ∧ (∀ m, (m < reads (trace (_extract_job_urls pg limit)))%nat ->
            (List.length (first_seen (normalized (take m job_links))) < Z.to_nat limit)%nat).
Proof.
  intros Hall.
  destruct (extract_job_urls_reads pg limit job_links Hall)
    as (t & out & -> & Hn & Hout & Hstop & Hbelow & _).
  exists out. simpl trace.
  change (reads (Page (LocatorAll job_link_selector) :: t)) with (reads t).
  done.
Qed.

Lemma X6_limit_one_witness :
  ∃ out,
    value (_extract_job_urls Examples.page_three 1) = Ok out
    ∧ reads (trace (_extract_job_urls Examples.page_three 1)) = 1%nat
    ∧ out = ["https://www.linkedin.com/jobs/view/111"].
Proof.
  destruct (X6_reading_stops_at_limit Examples.page_three 1 Examples.three_anchors)
    as (out & Hv & _ & Hout & _); [reflexivity|].
  exists out. split; [exact Hv|]. split; [reflexivity|]. rewrite Hout. reflexivity.
Defined.

(** X7.  Every failed read is logged: the DEBUG records of a run are, in
    order, the messages of the exceptions raised by the anchors read; and
    when the anchors hold fewer distinct URLs than [limit], every anchor is
    read, so every unreadable anchor is logged. *)
Theorem X7_failed_reads_logged pg limit job_links :
  locator_all pg job_link_selector = Ok job_links ->
  debug_logs (trace (_extract_job_urls pg limit))
  = map (fun e => "Error extracting saved job URL: " +:+ exn_str e)
      (failures (take (reads (trace (_extract_job_urls pg limit))) job_links))
  ∧ (Z.of_nat (distinct (normalized job_links)) < limit ->
     reads (trace (_extract_job_urls pg limit)) = List.length job_links
     ∧ debug_logs (trace (_extract_job_urls pg limit))
       = map (fun e => "Error extracting saved job URL: " +:+ exn_str e)
           (failures job_links)).
Proof.
  intros Hall.
  destruct (extract_job_urls_reads pg limit job_links Hall)
    as (t & out & -> & Hn & Hout & Hstop & Hbelow & Hlog).
  simpl trace.
  change (reads (Page (LocatorAll job_link_selector) :: t)) with (reads t).
  change (debug_logs (Page (LocatorAll job_link_selector) :: t)) with (debug_logs t).
  split; [done|]. intros Hmore.
  assert (reads t = List.length job_links) as Hall_read.
  { destruct (decide (reads t < List.length job_links)%nat) as [Hlt|]; [|lia].
    specialize (Hstop Hlt).
    assert (List.length out ≤ distinct (normalized job_links))%nat; [|lia].
    rewrite Hout, length_first_seen. unfold distinct.
    apply subseteq_size. intros u. rewrite !elem_of_list_to_set.
    unfold normalized. rewrite !list_elem_of_omap.
    intros (lk & Hlk & Hu). exists lk. split; [|done].
    by apply (subseteq_take (reads t)). }
  split; [done|]. by rewrite Hlog, Hall_read, firstn_all.
Qed.

Lemma X7_stale_anchor_witness :
  debug_logs
    (trace (_extract_job_urls
              (page_showing
                 (Ok [anchor "/jobs/view/2"; stale (PyException "stale element")])) 10))
  = ["Error extracting saved job URL: stale element"].
Proof.
  rewrite (proj1 (X7_failed_reads_logged
                    (page_showing
                       (Ok [anchor "/jobs/view/2"; stale (PyException "stale element")]))
                    10 _ eq_refl)).
  reflexivity.
Defined.
End ExtractorRuns.

(** ** [scrape] (saved_jobs.py lines 32-82) *)

Section ScrapeRuns.
Import SavedJobs Observed.

Lemma completions_app t1 t2 : completions (t1 ++ t2) = completions t1 ++ completions t2.
Proof. apply omap_app. Qed.

Lemma progress_app t1 t2 : progress (t1 ++ t2) = progress t1 ++ progress t2.
Proof. apply omap_app. Qed.

Lemma page_calls_app t1 t2 : page_calls (t1 ++ t2) = page_calls t1 ++ page_calls t2.
Proof. apply omap_app. Qed.

(** X8.  The exceptions that leave [scrape].  An exception of [on_start]
    leaves it as it is, whatever the limit.  Otherwise [scrape] raises only
    for a positive limit and only when something awaited in its [try] block
    raises, a page call or the callback's [on_progress] or [on_complete]:
    the first such exception is handed to [on_error], and what leaves
    [scrape] is a [ScrapingError] carrying its message, or the exception of
    [on_error] if that call raises.  So with a callback whose [on_start] and
    [on_error] return, [scrape] raises nothing but [ScrapingError], whatever
    the class of the failure (a failed login check included). *)
Theorem X8_scrape_exceptions cb pg limit max_scrolls pause_time e :
  (value (scrape cb pg limit max_scrolls pause_time) = Raise e
   ↔ on_start cb "SavedJobs" saved_jobs_url = Raise e
     ∨ (on_start cb "SavedJobs" saved_jobs_url = Ok tt
        ∧ 0 < limit
        ∧ ∃ cause,
            first_failure (awaited cb pg limit max_scrolls pause_time) = Some cause
            ∧ (on_error cb cause = Raise e
               ∨ (on_error cb cause = Ok tt
                  ∧ e = ScrapingError ("Failed to scrape saved jobs: "
                                       +:+ exn_str cause)))))
  ∧ (on_start cb "SavedJobs" saved_jobs_url = Ok tt ->
     (∀ cause, on_error cb cause = Ok tt) ->
     value (scrape cb pg limit max_scrolls pause_time) = Raise e ->
     ∃ cause,
       first_failure (awaited cb pg limit max_scrolls pause_time) = Some cause
       ∧ e = ScrapingError ("Failed to scrape saved jobs: " +:+ exn_str cause)).
Proof.
  assert (value (scrape cb pg limit max_scrolls pause_time) = Raise e
          ↔ on_start cb "SavedJobs" saved_jobs_url = Raise e
            ∨ (on_start cb "SavedJobs" saved_jobs_url = Ok tt
               ∧ 0 < limit
               ∧ ∃ cause,
                   first_failure (awaited cb pg limit max_scrolls pause_time) = Some cause
                   ∧ (on_error cb cause = Raise e
                      ∨ (on_error cb cause = Ok tt
                         ∧ e = ScrapingError ("Failed to scrape saved jobs: "
                                              +:+ exn_str cause))))) as Hiff.
  { destruct (limit <=? 0) eqn:Hl.
    - pose proof Hl as Hle. apply Z.leb_le in Hle.
      unfold scrape, notify. rewrite Hl.
      destruct (on_start cb "SavedJobs" saved_jobs_url) as [[]|e0]; simpl.
      + split; [done|]. intros [[=]|(_ & Hpos & _)]. lia.
      + split; [intros [= <-]; by left|]. by intros [[= <-]|([=] & _)].
    - pose proof Hl as Hpos. apply Z.leb_gt in Hpos.
      scrape_open pg limit. rewrite Hl.
      destruct (on_start cb "SavedJobs" saved_jobs_url) as [[]|e0]; simpl.
      2: { split; [intros [= <-]; by left|]. by intros [[= <-]|([=] & _)]. }
      awaited_cases cb pg max_scrolls pause_time.
      1: { split; [done|]. by intros [[=]|(_ & _ & cause & [=] & _)]. }
      all: handler_answer cb Herr.
      all: split;
        [intros [= <-]; right; split_and!; [done|done|]; eexists; split; [done|]; auto
        |intros [[=]|(_ & _ & cause & [= <-] & [Hr|[Ho Hs]])];
         rewrite Herr in *; by simplify_eq]. }
  split; [exact Hiff|].
  intros Hstart Herr Hv. apply Hiff in Hv as [Hs|(_ & _ & cause & Hf & [Hr|[_ ->]])].
  - rewrite Hstart in Hs. discriminate Hs.
  - rewrite Herr in Hr. discriminate Hr.
  - eauto.
Qed.

(** X9.  A run of [scrape] in which [on_start] returns and nothing awaited
    in the [try] block raises, neither a page call nor the callback, makes
    the six page calls in order and then extracts; it hands the list it
    returns to [on_complete], once, and reports progress twice: after
    navigating, and with the number of URLs found. *)
Theorem X9_success_reported cb pg limit max_scrolls pause_time :
  0 < limit ->
  on_start cb "SavedJobs" saved_jobs_url = Ok tt ->
  first_failure (awaited cb pg limit max_scrolls pause_time) = None ->
  ∃ out,
    value (scrape cb pg limit max_scrolls pause_time) = Ok out
    ∧ out = take (Z.to_nat limit) (first_seen (normalized (anchors pg)))
    ∧ completions (trace (scrape cb pg limit max_scrolls pause_time)) = [out]
    ∧ progress (trace (scrape cb pg limit max_scrolls pause_time))
      = [("Navigated to saved jobs", 10);
         ("Found " +:+ str_of_Z (len out) +:+ " saved jobs", 90)]
    ∧ page_calls (trace (scrape cb pg limit max_scrolls pause_time))
      = steps max_scrolls pause_time ++ page_calls (trace (_extract_job_urls pg limit)).
Proof.
  intros Hlimit Hstart.
  assert ((limit <=? 0) = false) as Hl by by apply Z.leb_gt.
  destruct (internal_silent _ (extract_job_urls_internal pg limit)) as [Hc Hp].
  revert Hc Hp.
  scrape_open pg limit. rewrite Hstart, Hl. simpl. intros Hc Hp.
  awaited_cases cb pg max_scrolls pause_time; try done.
  intros _. eexists. split_and!; try done.
  - unfold completions in *. simpl. rewrite omap_app, Hc. done.
  - unfold progress in *. simpl. rewrite omap_app, Hp. done.
  - unfold page_calls, steps. simpl. rewrite omap_app. simpl. by rewrite app_nil_r.
Qed.

(** X10.  When one of the six page calls of [scrape] raises, no later call
    is made and [on_complete] is never called, whatever the callback does:
    the page calls of the run are among the calls up to the failing one, and
    they are exactly those calls, with no anchor located or read, when the
    callback methods awaited before the failing call returned. *)
Theorem X10_failure_stops_run cb pg limit max_scrolls pause_time i :
  0 < limit ->
  failure_index (page_steps pg max_scrolls pause_time) = Some i ->
  page_calls (trace (scrape cb pg limit max_scrolls pause_time))
    `prefix_of` take (S i) (steps max_scrolls pause_time)
  ∧ completions (trace (scrape cb pg limit max_scrolls pause_time)) = []
  ∧ (on_start cb "SavedJobs" saved_jobs_url = Ok tt ->
     (navigate_and_wait pg saved_jobs_url = Ok tt ->
      on_progress cb "Navigated to saved jobs" 10 = Ok tt) ->
     page_calls (trace (scrape cb pg limit max_scrolls pause_time))
     = take (S i) (steps max_scrolls pause_time)).
Proof.
  intros Hlimit.
  assert ((limit <=? 0) = false) as Hl by by apply Z.leb_gt.
  destruct (internal_silent _ (extract_job_urls_internal pg limit)) as [Hc _].
  revert Hc. scrape_open pg limit. rewrite Hl. intros Hc.
  destruct (on_start cb "SavedJobs" saved_jobs_url) as [[]|e0]; simpl.
  2: { intros _. split_and!; [apply prefix_nil|done|done]. }
  destruct (navigate_and_wait pg saved_jobs_url) as [[]|e1] eqn:Hnav; simpl.
  2: { intros [= <-]. handler_cases cb; by split_and!. }
  destruct (on_progress cb "Navigated to saved jobs" 10) as [[]|e2]; simpl.
  2: { intros (j & _ & ->)%fmap_Some.
       handler_cases cb;
         (split_and!; [by eexists|done|intros _ Hprog; by specialize (Hprog eq_refl)]). }
  destruct (ensure_logged_in pg) as [[]|e3]; simpl;
    [destruct (wait_for_selector pg "main" 10000) as [[]|e4]; simpl;
     [destruct (wait_and_focus pg 1) as [[]|e5]; simpl;
      [destruct (close_modals pg) as [[]|e6]; simpl;
       [destruct (scroll_page_to_bottom pg pause_time max_scrolls) as [[]|e7]; simpl;
        [done|]|]|]|]|].
  all: intros [= <-]; handler_cases cb; by split_and!.
Qed.
End ScrapeRuns.

Lemma X8_raising_on_error_witness :
  value (SavedJobs.scrape Cases.raising_on_error Cases.page_logged_out 50 5 1)
  = Raise Cases.callback_bug.
Proof.
  apply (proj1 (X8_scrape_exceptions Cases.raising_on_error Cases.page_logged_out
                  50 5 1 Cases.callback_bug)).
  right. split; [reflexivity|]. split; [lia|].
  exists Cases.logged_out. split; [reflexivity|]. left. reflexivity.
Defined.

Lemma X9_three_anchors_witness :
  ∃ out,
    value (SavedJobs.scrape SavedJobs.SilentCallback Examples.page_three 50 5 1) = Ok out
    ∧ out = take (Z.to_nat 50)
              (first_seen (normalized (SavedJobs.anchors Examples.page_three)))
    ∧ Observed.completions
        (trace (SavedJobs.scrape SavedJobs.SilentCallback Examples.page_three 50 5 1))
      = [out]
    ∧ Observed.progress
        (trace (SavedJobs.scrape SavedJobs.SilentCallback Examples.page_three 50 5 1))
      = [("Navigated to saved jobs", 10);
         ("Found " +:+ str_of_Z (len out) +:+ " saved jobs", 90)]
    ∧ Observed.page_calls
        (trace (SavedJobs.scrape SavedJobs.SilentCallback Examples.page_three 50 5 1))
      = Observed.steps 5 1
        ++ Observed.page_calls (trace (SavedJobs._extract_job_urls Examples.page_three 50)).
Proof.
  apply (X9_success_reported SavedJobs.SilentCallback Examples.page_three 50 5 1);
    [lia|reflexivity|reflexivity].
Defined.

Lemma X10_logged_out_witness :
  Observed.page_calls
    (trace (SavedJobs.scrape SavedJobs.SilentCallback Cases.page_logged_out 50 5 1))
  = [SavedJobs.NavigateAndWait SavedJobs.saved_jobs_url; SavedJobs.EnsureLoggedIn]
  ∧ Observed.completions
      (trace (SavedJobs.scrape SavedJobs.SilentCallback Cases.page_logged_out 50 5 1))
    = [].
Proof.
  destruct (X10_failure_stops_run SavedJobs.SilentCallback Cases.page_logged_out
              50 5 1 1%nat ltac:(lia) eq_refl) as (_ & Hc & Hp).
  split; [exact (Hp eq_refl (fun _ => eq_refl))|exact Hc].
Defined.

(** ** The pagination loop (scrape_saved_jobs.py lines 54-102) *)

Section PagingRuns.
Import ScrapeSavedJobs Observed.
Implicit Types (br : browser) (v : page_view) (t : list ScrapeSavedJobs.event).

Lemma scanned_app t1 t2 : pages_scanned (t1 ++ t2) = (pages_scanned t1 + pages_scanned t2)%nat.
Proof. unfold pages_scanned. by rewrite List.filter_app, length_app. Qed.

Lemma scanned_cons ev t :
  pages_scanned (ev :: t)
  = ((match ev with Evaluate _ => 1 | _ => 0 end) + pages_scanned t)%nat.
Proof. unfold pages_scanned. simpl. by destruct ev. Qed.

Lemma reads_scanned n : pages_scanned (replicate n (GetAttribute "href")) = 0%nat.
Proof. by induction n. Qed.

Ltac view_cases v :=
  unfold page_step, advances, control_absent, control_disabled, anchors, fails;
  destruct v as [[[]|?] [?|?] [c|?] [[]|?] [[]|?]]; simpl;
  rewrite ?links_loop_run; simpl;
  try (destruct (0 <? c); simpl).

Ltac count_events :=
  rewrite ?clicks_cons, ?scanned_cons, ?clicks_app, ?scanned_app, ?clicks_cons,
    ?scanned_cons, ?reads_clicks, ?reads_scanned; simpl.

(** One iteration scrolls one page, and clicks exactly when it goes on. *)
Lemma page_step_counts v urls pn b urls' pn' :
  value (page_step v urls pn) = Ok (b, urls', pn') ->
  pages_scanned (trace (page_step v urls pn)) = 1%nat
  ∧ clicks (trace (page_step v urls pn)) = (if b then 1 else 0)%nat
  ∧ pn' = (if b then pn + 1 else pn)
  ∧ advances v = b.
Proof. view_cases v; intros H; simplify_eq; count_events; done. Qed.

(** An iteration goes on exactly on a view that advances; otherwise it ends
    the loop, with the exception of [fails] if there is one. *)
Lemma page_step_ends v urls pn :
  advances v = false ->
  match fails v with
  | Some e => value (page_step v urls pn) = Raise e
  | None => ∃ urls', value (page_step v urls pn) = Ok (false, urls', pn)
  end.
Proof. view_cases v; intros H; simplify_eq; eauto. Qed.

Lemma pages_loop_counts fuel : ∀ br i urls pn out pn',
  fst (pages_loop fuel br i urls pn) = Some (Ok (out, pn')) ->
  pn' = pn + Z.of_nat (clicks (snd (pages_loop fuel br i urls pn)))
  ∧ pages_scanned (snd (pages_loop fuel br i urls pn))
    = S (clicks (snd (pages_loop fuel br i urls pn))).
Proof.
  induction fuel as [|fuel IH]; intros br i urls pn out pn'; [done|].
  rewrite pages_loop_S.
  pose proof (page_step_counts (br i) urls pn) as Hstep.
  destruct (page_step (br i) urls pn) as [[[[b urls1] pn1]|e] t]; [|done].
  destruct (Hstep b urls1 pn1 eq_refl) as (Hs & Hc & -> & _). simpl in Hs, Hc.
  destruct b; simpl.
  - specialize (IH br (S i) urls1 (pn + 1) out pn').
    destruct (pages_loop fuel br (S i) urls1 (pn + 1)) as [r t']. simpl in *.
    intros Hr. destruct (IH Hr) as [-> Hs'].
    rewrite clicks_app, scanned_app, Hc, Hs, Hs'. split; lia.
  - intros [= <- <-]. rewrite Hc, Hs. split; [lia|done].
Qed.

(** While the views advance the loop goes on, clicking once per view. *)
Lemma pages_loop_running fuel : ∀ br i urls pn,
  (∀ j, (j < fuel)%nat -> advances (br (i + j)%nat) = true) ->
  fst (pages_loop fuel br i urls pn) = None
  ∧ clicks (snd (pages_loop fuel br i urls pn)) = fuel.
Proof.
  induction fuel as [|fuel IH]; intros br i urls pn Hadv; [done|].
  rewrite pages_loop_S.
  assert (advances (br i) = true) as Ha
    by (rewrite <- (Nat.add_0_r i); apply Hadv; lia).
  destruct (page_step_advances (br i) urls pn Ha) as [Hv Hc].
  destruct (page_step (br i) urls pn) as [r t]. simpl in Hv, Hc. subst r.
  destruct (IH br (S i) (foldl absorb urls (normalized (anchors (br i)))) (pn + 1))
    as [Hv' Hc'].
  { intros j Hj. replace (S i + j)%nat with (i + S j)%nat by lia. apply Hadv. lia. }
  destruct (pages_loop fuel br (S i) _ (pn + 1)) as [r' t']. simpl in *.
  subst r'. by rewrite clicks_app, Hc, Hc'.
Qed.

(** The loop ends at the first view that does not advance. *)
Lemma pages_loop_ends k : ∀ fuel br i urls pn,
  (∀ j, (j < k)%nat -> advances (br (i + j)%nat) = true) ->
  advances (br (i + k)%nat) = false ->
  (k < fuel)%nat ->
  match fails (br (i + k)%nat) with
  | Some e => fst (pages_loop fuel br i urls pn) = Some (Raise e)
  | None => ∃ out, fst (pages_loop fuel br i urls pn) = Some (Ok (out, pn + Z.of_nat k))
  end.
Proof.
  induction k as [|k IH]; intros fuel br i urls pn Hadv Hlast Hfuel;
    (destruct fuel as [|fuel]; [lia|]); rewrite pages_loop_S.
  - rewrite Nat.add_0_r in *.
    pose proof (page_step_ends (br i) urls pn Hlast) as Hend.
    destruct (fails (br i)) as [e|].
    + destruct (page_step (br i) urls pn) as [r t]. simpl in Hend. by subst r.
    + destruct Hend as [urls' Hend].
      destruct (page_step (br i) urls pn) as [r t]. simpl in Hend. subst r.
      simpl. rewrite Z.add_0_r. eauto.
  - assert (advances (br i) = true) as Ha
      by (rewrite <- (Nat.add_0_r i); apply Hadv; lia).
    destruct (page_step_advances (br i) urls pn Ha) as [Hv _].
    destruct (page_step (br i) urls pn) as [r t]. simpl in Hv. subst r.
    specialize (IH fuel br (S i) (foldl absorb urls (normalized (anchors (br i)))) (pn + 1)).
    replace (S i + k)%nat with (i + S k)%nat in IH by lia.
    replace (pn + 1 + Z.of_nat k) with (pn + Z.of_nat (S k)) in IH by lia.
    assert (∀ j, (j < k)%nat -> advances (br (S i + j)%nat) = true) as Hadv'.
    { intros j Hj. replace (S i + j)%nat with (i + S j)%nat by lia. apply Hadv. lia. }
    specialize (IH Hadv' Hlast ltac:(lia)).
    destruct (pages_loop fuel br (S i) _ (pn + 1)) as [r' t']. simpl in *.
    done.
Qed.

(** X11.  Whenever the pagination ends normally, the page number it reports
    is one more than the number of clicks it made, and it has scrolled
    exactly that many pages. *)
Theorem X11_page_number_counts_clicks fuel br out page_num :
  fst (main fuel br) = Collected out page_num ->
  page_num = 1 + Z.of_nat (clicks (snd (main fuel br)))
  ∧ Z.of_nat (pages_scanned (snd (main fuel br))) = page_num.
Proof.
  unfold main. pose proof (pages_loop_counts fuel br 0 [] 1) as Hcount.
  destruct (pages_loop fuel br 0 [] 1) as [[[[out' pn']|e]|] t]; simpl; try done.
  intros [= <- <-]. destruct (Hcount out' pn' eq_refl) as [-> Hs]. simpl in *.
  rewrite clicks_cons, scanned_cons, clicks_app, scanned_app, Hs. simpl.
  unfold clicks, pages_scanned. simpl. lia.
Qed.

Lemma X11_two_pages_witness :
  2 = 1 + Z.of_nat (clicks (snd (main 5 Examples.two_pages)))
  ∧ Z.of_nat (pages_scanned (snd (main 5 Examples.two_pages))) = 2.
Proof.
  apply (X11_page_number_counts_clicks 5 Examples.two_pages
           (first_seen (shown Examples.two_pages 2)) 2).
  vm_compute. reflexivity.
Defined.

(** X12.  The loop has no page ceiling of its own: on a browser whose
    next-page control stays present and enabled and whose calls all
    succeed, it is still running after any number of iterations, having
    clicked once in each. *)
Theorem X12_no_page_ceiling br :
  (∀ i, advances (br i) = true) ->
  ∀ fuel, fst (main fuel br) = Running ∧ clicks (snd (main fuel br)) = fuel.
Proof.
  intros Hadv fuel. unfold main.
  destruct (pages_loop_running fuel br 0 [] 1) as [Hv Hc]; [by intros; apply Hadv|].
  destruct (pages_loop fuel br 0 [] 1) as [r t]. simpl in *. subst r.
  split; [done|]. exact Hc.
Qed.

Lemma X12_endless_witness :
  fst (main 40 Cases.endless) = Running ∧ clicks (snd (main 40 Cases.endless)) = 40%nat.
Proof. apply (X12_no_page_ceiling Cases.endless); reflexivity. Defined.

(** X13.  The loop ends exactly at the first view that does not advance:
    if the first [k] views advance and view [k] does not, the loop is still
    running after [k] iterations or fewer, and has ended after any larger
    number, normally on page [k + 1] or with the exception of the call that
    failed. *)
Theorem X13_loop_ends_at_first_stop br k :
  (∀ j, (j < k)%nat -> advances (br j) = true) ->
  advances (br k) = false ->
  (∀ fuel, (fuel ≤ k)%nat -> fst (main fuel br) = Running)
  ∧ (∀ fuel, (k < fuel)%nat ->
             match fails (br k) with
             | Some e => fst (main fuel br) = Failed e
             | None => ∃ out, fst (main fuel br) = Collected out (1 + Z.of_nat k)
             end).
Proof.
  intros Hadv Hlast. split.
  - intros fuel Hfuel. unfold main.
    destruct (pages_loop_running fuel br 0 [] 1) as [Hv _].
    { intros j Hj. apply Hadv. lia. }
    destruct (pages_loop fuel br 0 [] 1) as [r t]. simpl in *. by subst r.
  - intros fuel Hfuel. unfold main.
    pose proof (pages_loop_ends k fuel br 0 [] 1 Hadv Hlast Hfuel) as Hend.
    simpl in Hend. destruct (fails (br k)) as [e|].
    + destruct (pages_loop fuel br 0 [] 1) as [r t]. simpl in *. by subst r.
    + destruct Hend as [out Hend].
      destruct (pages_loop fuel br 0 [] 1) as [r t]. simpl in *. subst r. eauto.
Qed.

Lemma X13_breaks_on_second_witness :
  (∀ fuel, (fuel ≤ 1)%nat -> fst (main fuel Cases.breaks_on_second) = Running)
  ∧ (∀ fuel, (1 < fuel)%nat -> fst (main fuel Cases.breaks_on_second) = Failed Cases.crashed).
Proof.
  apply (X13_loop_ends_at_first_stop Cases.breaks_on_second 1).
  - intros j Hj. assert (j = 0)%nat as -> by lia. reflexivity.
  - reflexivity.
Defined.
End PagingRuns.

(** ** The rest of the script (scrape_saved_jobs.py lines 9-48 and 104-124) *)

Section MainRuns.
Import SavedJobsMain.
Implicit Types (w : world) (t : list event).

Lemma saves_app t1 t2 : saves (t1 ++ t2) = (saves t1 + saves t2)%nat.
Proof. unfold saves. by rewrite List.filter_app, length_app. Qed.

Lemma opened_app t1 t2 : opened (t1 ++ t2) = (opened t1 + opened t2)%nat.
Proof. unfold opened. by rewrite List.filter_app, length_app. Qed.

Lemma written_app t1 t2 : written (t1 ++ t2) = written t1 ++ written t2.
Proof. apply omap_app. Qed.

Lemma urls_read_app t1 t2 : urls_read (t1 ++ t2) = urls_read t1 ++ urls_read t2.
Proof. apply omap_app. Qed.

Lemma main_slept_app t1 t2 : slept (t1 ++ t2) = slept t1 + slept t2.
Proof. induction t1 as [|[] t1 IH]; simpl; lia. Qed.

(** The pagination writes nothing and saves no session. *)
Lemma paging_silent (t : list ScrapeSavedJobs.event) :
  written (map Paging t) = [] ∧ opened (map Paging t) = 0%nat
  ∧ saves (map Paging t) = 0%nat.
Proof. by induction t as [|ev t (Hw & Ho & Hs)]. Qed.

(** The waiting loop, with [shows i] telling whether the URL read at attempt
    [i] shows that the user is logged in. *)
Lemma wait_loop_facts w attempts :
  let shows := fun i => logged_in_url (page_url_at w i) in
  let t := trace (wait_loop w attempts) in
  urls_read t
  = map (page_url_at w)
      (CreateSession.waited shows attempts
       ++ match CreateSession.first_login shows attempts with
          | Some i => [i]
          | None => []
          end)
  ∧ saves t = match CreateSession.first_login shows attempts with
              | Some _ => 1%nat
              | None => 0%nat
              end
  ∧ slept t <= 5 * Z.of_nat (List.length attempts) + 3
  ∧ written t = [] ∧ opened t = 0%nat
  ∧ (CreateSession.first_login shows attempts = None ->
     value (wait_loop w attempts) = Ok tt
     ∧ slept t = 5 * Z.of_nat (List.length attempts)).
Proof.
  cbv zeta. induction attempts as [|i rest IH]; [done|].
  simpl wait_loop. simpl CreateSession.first_login. simpl CreateSession.waited.
  unfold logged_in_url at 1 3 5 7.
  destruct (str_in "my-items/saved-jobs" (page_url_at w i) || str_in "feed" (page_url_at w i))
    eqn:Hshow.
  - destruct (save_session w) as [[]|e1]; destruct (goto_back w) as [[]|e2]; simpl;
      split_and!; try done; lia.
  - destruct IH as (Hu & Hs & Hsl & Hw & Ho & Hnone).
    destruct (wait_loop w rest) as [r t]. simpl in *.
    rewrite Hu. split_and!; try done; try lia.
    intros Hf. destruct (Hnone Hf) as [-> Hsl']. split; [done|lia].
Qed.

Lemma py_range_succ i : 0 <= i -> py_range (i + 1) = py_range i ++ [i].
Proof.
  intros Hi. unfold py_range.
  replace (Z.to_nat (i + 1)) with (S (Z.to_nat i)) by lia.
  rewrite seq_S, map_app. simpl. by rewrite Z2Nat.id.
Qed.

Lemma py_range_length n : List.length (py_range n) = Z.to_nat n.
Proof. unfold py_range. by rewrite length_map, length_seq. Qed.

(** What the waiting loop of lines 34-45 does over its 24 attempts. *)
Lemma wait_24 w :
  let shows := fun i => logged_in_url (page_url_at w i) in
  let t := trace (wait_loop w (py_range 24)) in
  (saves t ≤ 1)%nat ∧ (List.length (urls_read t) ≤ 24)%nat ∧ slept t <= 123
  ∧ written t = [] ∧ opened t = 0%nat
  ∧ (∀ i, CreateSession.first_login shows (py_range 24) = Some i ->
          urls_read t = map (page_url_at w) (py_range (i + 1))
          ∧ saves t = 1%nat ∧ shows i = true)
  ∧ (CreateSession.first_login shows (py_range 24) = None ->
     value (wait_loop w (py_range 24)) = Ok tt
     ∧ saves t = 0%nat ∧ slept t = 120 ∧ List.length (urls_read t) = 24%nat).
Proof.
  cbv zeta.
  destruct (wait_loop_facts w (py_range 24)) as (Hu & Hs & Hsl & Hw & Ho & Hnone).
  rewrite py_range_length in Hsl, Hnone.
  pose proof (waited_length (fun i => logged_in_url (page_url_at w i)) (py_range 24)) as Hlen.
  rewrite py_range_length in Hlen.
  destruct (CreateSession.first_login _ (py_range 24)) as [i|] eqn:Hf.
  - apply first_login_range in Hf as (Hi & Hwd & Hrng).
    rewrite Hwd, <- py_range_succ in Hu by lia.
    split_and!; try done; try lia.
    + rewrite Hu, length_map, py_range_length. lia.
    + by intros ? [= <-].
  - destruct (Hnone eq_refl) as [Hv Hsl'].
    rewrite (waited_none _ _ Hf), app_nil_r in Hu.
    split_and!; try done; try lia.
    + rewrite Hu, length_map, py_range_length. lia.
    + intros _. split_and!; try done. rewrite Hu, length_map, py_range_length. lia.
Qed.

(** Case analysis on the answers the prelude receives. *)
Ltac prelude_cases w :=
  unfold login_url;
  destruct (load_session w) as [[]|?]; simpl;
  [destruct (goto_start w) as [[]|?]; simpl;
   [destruct (str_in "login" (page_url_start w) || str_in "authwall" (page_url_start w));
    simpl|]|].

Ltac observe_app :=
  unfold saves, opened, written, urls_read in *; simpl;
  rewrite ?List.filter_app, ?omap_app, ?main_slept_app, ?length_app; simpl.

(** X14.  The manual-login wait is bounded: before it starts scraping,
    [main] saves the session at most once, reads the page URL at most 25
    times, and sleeps at most 128 seconds, whatever the browser answers. *)
Theorem X14_login_wait_bounded w :
  (saves (trace (prelude w)) ≤ 1)%nat
  ∧ (List.length (urls_read (trace (prelude w))) ≤ 25)%nat
  ∧ slept (trace (prelude w)) <= 128.
Proof.
  destruct (wait_24 w) as (Hs & Hu & Hsl & _).
  unfold prelude.
  set (m := wait_loop w (py_range 24)) in *. clearbody m.
  prelude_cases w; try (unfold saves; simpl; lia).
  destruct m as [[[]|e] t]; simpl in *; observe_app; split_and!; lia.
Qed.

(** X15.  What the manual-login wait does when the session loads and the
    first navigation succeeds.  If the first URL is no login page, nothing is
    waited for and the session is not saved.  If it is one, the script reads
    the URL every five seconds and stops reading at the first URL that
    contains [my-items/saved-jobs] or [feed], when it saves the session; if
    none of the 24 URLs does, it goes on after two minutes without saving. *)
Theorem X15_login_wait w :
  load_session w = Ok tt ->
  goto_start w = Ok tt ->
  (login_url (page_url_start w) = false ->
   value (prelude w) = Ok tt
   ∧ urls_read (trace (prelude w)) = [page_url_start w]
   ∧ saves (trace (prelude w)) = 0%nat
   ∧ slept (trace (prelude w)) = 5)
  ∧ (login_url (page_url_start w) = true ->
     ∀ i, CreateSession.first_login (fun i => logged_in_url (page_url_at w i)) (py_range 24)
          = Some i ->
          urls_read (trace (prelude w))
          = page_url_start w :: map (page_url_at w) (py_range (i + 1))
          ∧ saves (trace (prelude w)) = 1%nat
          ∧ logged_in_url (page_url_at w i) = true)
  ∧ (login_url (page_url_start w) = true ->
     CreateSession.first_login (fun i => logged_in_url (page_url_at w i)) (py_range 24)
     = None ->
     value (prelude w) = Ok tt
     ∧ saves (trace (prelude w)) = 0%nat
     ∧ slept (trace (prelude w)) = 125
     ∧ List.length (urls_read (trace (prelude w))) = 25%nat).
Proof.
  intros Hload Hgoto.
  destruct (wait_24 w) as (_ & _ & _ & _ & _ & Hsome & Hnone).
  unfold prelude, login_url. rewrite Hload, Hgoto.
  set (m := wait_loop w (py_range 24)) in *. clearbody m.
  set (found := CreateSession.first_login _ (py_range 24)) in *. clearbody found.
  simpl.
  destruct (str_in "login" (page_url_start w) || str_in "authwall" (page_url_start w));
    simpl.
  - split; [done|]. split.
    + intros _ i Hi. destruct (Hsome i Hi) as (Hu & Hs & Hshow).
      destruct m as [[[]|e] t]; simpl in *; observe_app;
        rewrite Hu, Hs, ?app_nil_r; done.
    + intros _ Hf. destruct (Hnone Hf) as (Hv & Hs & Hsl & Hu).
      destruct m as [r t]; simpl in *. subst r. simpl.
      observe_app. rewrite Hs, Hsl, Hu. done.
  - split; [done|]. split; done.
Qed.

Lemma X15_login_wait_witness :
  urls_read (trace (prelude Cases.world_login))
  = ["https://www.linkedin.com/login"; "https://www.linkedin.com/login";
     "https://www.linkedin.com/login"; "https://www.linkedin.com/feed/"]
  ∧ saves (trace (prelude Cases.world_login)) = 1%nat
  ∧ logged_in_url (page_url_at Cases.world_login 2) = true.
Proof.
  apply (proj1 (proj2 (X15_login_wait Cases.world_login eq_refl eq_refl)) eq_refl 2).
  vm_compute. reflexivity.
Defined.

Lemma print_numbered_run job_urls : ∀ i,
  print_numbered i job_urls
  = (Ok tt, imap (fun j url => Print (str_of_Z (i + Z.of_nat j) +:+ ". " +:+ url)) job_urls).
Proof.
  induction job_urls as [|url rest IH]; intros i; [done|].
  simpl. rewrite IH. simpl. rewrite Z.add_0_r. do 2 f_equal.
  apply imap_ext. intros j u _. simpl. do 3 f_equal. lia.
Qed.

Lemma imap_prints_silent (f : nat -> string -> string) job_urls :
  written (imap (fun j url => Print (f j url)) job_urls) = []
  ∧ opened (imap (fun j url => Print (f j url)) job_urls) = 0%nat.
Proof.
  revert f. induction job_urls as [|url rest IH]; intros f; [done|].
  destruct (IH (f ∘ S)) as [Hw Ho]. split; [exact Hw|exact Ho].
Qed.

(** What the report of lines 104-118 leaves in the trace. *)
Lemma report_facts w job_urls :
  match job_urls with
  | [] => value (report w job_urls) = Ok tt
          ∧ written (trace (report w job_urls)) = []
          ∧ opened (trace (report w job_urls)) = 0%nat
  | _ :: _ =>
      opened (trace (report w job_urls)) = 1%nat
      ∧ (∀ i url, job_urls !! i = Some url ->
                  Print (str_of_Z (1 + Z.of_nat i) +:+ ". " +:+ url)
                  ∈ trace (report w job_urls))
      ∧ match open_file w with
        | Raise e => value (report w job_urls) = Raise e
                     ∧ written (trace (report w job_urls)) = []
        | Ok _ =>
            written (trace (report w job_urls)) = [String.concat nl job_urls]
            ∧ value (report w job_urls) = write_file w (String.concat nl job_urls)
        end
  end.
Proof.
  destruct job_urls as [|url rest]; [done|].
  unfold report. rewrite print_numbered_run.
  set (urls := url :: rest).
  set (f := fun (j : nat) (u : string) => str_of_Z (1 + Z.of_nat j) +:+ ". " +:+ u).
  destruct (imap_prints_silent f urls) as [Hw Ho].
  assert (∀ i u, urls !! i = Some u ->
                 Print (f i u) ∈ imap (fun j url => Print (f j url)) urls) as Hin.
  { intros i u Hi. apply list_elem_of_lookup. exists i.
    by rewrite list_lookup_imap, Hi. }
  change (imap _ urls) with (imap (fun j url => Print (f j url)) urls).
  set (prints := imap (fun j url => Print (f j url)) urls) in *. clearbody prints.
  clearbody urls.
  destruct (open_file w) as [[]|e1]; [destruct (write_file w _) as [[]|e2]|]; simpl;
    observe_app; rewrite ?Hw, ?Ho; (split; [done|]); (split; [|done]);
    intros i u Hi; right; rewrite elem_of_app; left; by apply Hin.
Qed.

(** The prelude writes nothing. *)
Lemma prelude_silent w :
  written (trace (prelude w)) = [] ∧ opened (trace (prelude w)) = 0%nat.
Proof.
  destruct (wait_24 w) as (_ & _ & _ & Hw & Ho & _).
  unfold prelude.
  set (m := wait_loop w (py_range 24)) in *. clearbody m.
  prelude_cases w; try done.
  destruct m as [[[]|e] t]; simpl in *; observe_app; by rewrite Hw, Ho.
Qed.

(** An exception that leaves the prelude was raised by one of its four
    awaited calls. *)
Lemma wait_loop_raises w attempts e :
  value (wait_loop w attempts) = Raise e ->
  save_session w = Raise e ∨ goto_back w = Raise e.
Proof.
  induction attempts as [|i rest IH]; [done|]. simpl.
  destruct (str_in "my-items/saved-jobs" (page_url_at w i) || str_in "feed" (page_url_at w i)).
  - destruct (save_session w) as [[]|e1]; destruct (goto_back w) as [[]|e2]; simpl;
      intros [= <-]; auto.
  - destruct (wait_loop w rest) as [[[]|e'] t]; simpl in *; [done|]. intros [= <-]. auto.
Qed.

Lemma prelude_raises w e :
  value (prelude w) = Raise e ->
  load_session w = Raise e ∨ goto_start w = Raise e
  ∨ save_session w = Raise e ∨ goto_back w = Raise e.
Proof.
  pose proof (wait_loop_raises w (py_range 24) e) as Hwait.
  unfold prelude.
  set (m := wait_loop w (py_range 24)) in *. clearbody m.
  prelude_cases w.
  - destruct m as [[[]|e'] t]; simpl in *; [done|].
    intros [= <-]. destruct (Hwait eq_refl); auto.
  - done.
  - intros [= <-]. auto.
  - intros [= <-]. auto.
Qed.

(** How the [try] block ends, by the way the pagination ended. *)
Lemma try_block_facts fuel w :
  match fst (ScrapeSavedJobs.main fuel (views w)) with
  | ScrapeSavedJobs.Running =>
      fst (try_block fuel w) = None
      ∧ written (snd (try_block fuel w)) = [] ∧ opened (snd (try_block fuel w)) = 0%nat
  | ScrapeSavedJobs.Failed e =>
      fst (try_block fuel w) = Some (Errored e)
      ∧ written (snd (try_block fuel w)) = [] ∧ opened (snd (try_block fuel w)) = 0%nat
  | ScrapeSavedJobs.Collected [] _ =>
      fst (try_block fuel w) = Some NoneFound
      ∧ written (snd (try_block fuel w)) = [] ∧ opened (snd (try_block fuel w)) = 0%nat
  | ScrapeSavedJobs.Collected job_urls _ =>
      opened (snd (try_block fuel w)) = 1%nat
      ∧ (∀ i url, job_urls !! i = Some url ->
                  Print (str_of_Z (1 + Z.of_nat i) +:+ ". " +:+ url)
                  ∈ snd (try_block fuel w))
      ∧ match open_file w with
        | Raise e => fst (try_block fuel w) = Some (Errored e)
                     ∧ written (snd (try_block fuel w)) = []
        | Ok _ =>
            written (snd (try_block fuel w)) = [String.concat nl job_urls]
            ∧ fst (try_block fuel w)
              = Some (match write_file w (String.concat nl job_urls) with
                      | Ok _ => Saved job_urls
                      | Raise e => Errored e
                      end)
        end
  end.
Proof.
  unfold try_block.
  destruct (ScrapeSavedJobs.main fuel (views w)) as [[job_urls pn|e|] t];
    destruct (paging_silent t) as (Hw & Ho & _); simpl fst at 1; try done.
  pose proof (report_facts w job_urls) as Hrep.
  destruct job_urls as [|url rest].
  { destruct Hrep as (Hv & Hw' & Ho').
    destruct (report w []) as [r t']. simpl in *. subst r. simpl.
    by rewrite written_app, opened_app, Hw, Ho, Hw', Ho'. }
  destruct Hrep as (Ho' & Hin & Hrep).
  destruct (report w (url :: rest)) as [r t']. simpl in Ho', Hin, Hrep.
  destruct (open_file w) as [[]|e1].
  - destruct Hrep as [Hw' ->].
    destruct (write_file w _) as [[]|e2]; simpl;
      rewrite !written_app, !opened_app, Hw, Ho, Hw', Ho'; simpl;
      rewrite ?app_nil_r; split_and!; try done; try lia;
      intros i u Hi; rewrite !elem_of_app; right; auto.
  - destruct Hrep as [-> Hw']. simpl.
    rewrite !written_app, !opened_app, Hw, Ho, Hw', Ho'. simpl.
    split_and!; try done.
    intros i u Hi. rewrite !elem_of_app. right. auto.
Qed.

(** The pagination ends at the first view that does not advance. *)
Lemma paging_ends br k fuel :
  (∀ j, (j < k)%nat -> ScrapeSavedJobs.advances (br j) = true) ->
  ScrapeSavedJobs.advances (br k) = false ->
  (k < fuel)%nat ->
  match Observed.fails (br k) with
  | Some e => fst (ScrapeSavedJobs.main fuel br) = ScrapeSavedJobs.Failed e
  | None => ∃ out, fst (ScrapeSavedJobs.main fuel br)
                   = ScrapeSavedJobs.Collected out (1 + Z.of_nat k)
  end.
Proof.
  intros Hadv Hlast Hfuel. unfold ScrapeSavedJobs.main.
  pose proof (pages_loop_ends k fuel br 0 [] 1 Hadv Hlast Hfuel) as Hend.
  simpl in Hend. destruct (Observed.fails (br k)) as [e|].
  - destruct (ScrapeSavedJobs.pages_loop fuel br 0 [] 1) as [r t]. simpl in *. by subst r.
  - destruct Hend as [out Hend].
    destruct (ScrapeSavedJobs.pages_loop fuel br 0 [] 1) as [r t]. simpl in *.
    subst r. eauto.
Qed.

(** [main] after a prelude that does not raise. *)
Lemma main_after_prelude fuel w :
  value (prelude w) = Ok tt ->
  fst (main fuel w) = (fun v => Ok v) <$> fst (try_block fuel w)
  ∧ written (snd (main fuel w)) = written (snd (try_block fuel w))
  ∧ opened (snd (main fuel w)) = opened (snd (try_block fuel w))
  ∧ (∀ ev, ev ∈ snd (try_block fuel w) -> ev ∈ snd (main fuel w)).
Proof.
  intros Hv. destruct (prelude_silent w) as [Hw Ho]. unfold main.
  destruct (prelude w) as [r t]. simpl in Hv, Hw, Ho. subst r.
  destruct (try_block fuel w) as [[v|] t']; simpl;
    rewrite !written_app, !opened_app, Hw, Ho; simpl;
    rewrite ?app_nil_r; split_and!; try done; try lia;
    intros ev Hev; rewrite !elem_of_app; auto.
Qed.

(** X16.  The file only ever receives the collected list: whatever a run of
    [main] writes is the join, with line feeds, of a non-empty list with
    which the pagination ended normally, and it is written once, to a file
    opened once. *)
Theorem X16_only_collected_urls_written fuel w c :
  c ∈ written (snd (main fuel w)) ->
  ∃ out page_num,
    fst (ScrapeSavedJobs.main fuel (views w)) = ScrapeSavedJobs.Collected out page_num
    ∧ out ≠ []
    ∧ c = String.concat nl out
    ∧ written (snd (main fuel w)) = [c]
    ∧ opened (snd (main fuel w)) = 1%nat.
Proof.
  destruct (prelude_silent w) as [Hw Ho].
  pose proof (try_block_facts fuel w) as Htry.
  unfold main. destruct (prelude w) as [[[]|e0] t]; simpl in Hw, Ho;
    [|simpl; rewrite Hw; by intros ?%elem_of_nil].
  destruct (ScrapeSavedJobs.main fuel (views w)) as [[[|url rest] pn|e|] tp];
    simpl fst in Htry.
  1,3,4: destruct Htry as (Hv & Hw' & Ho');
    destruct (try_block fuel w) as [[v|] t']; simpl in *;
    rewrite ?written_app, Hw, Hw'; simpl; by intros ?%elem_of_nil.
  destruct Htry as (Ho' & _ & Hopen).
  destruct (open_file w) as [[]|e1].
  - destruct Hopen as [Hw' Hv].
    destruct (try_block fuel w) as [[v|] t']; simpl in *; [|done].
    rewrite !written_app, !opened_app, Hw, Ho, Hw', Ho'. simpl.
    intros ->%list_elem_of_singleton. exists (url :: rest), pn. done.
  - destruct Hopen as [Hv Hw'].
    destruct (try_block fuel w) as [[v|] t']; simpl in *; [|done].
    rewrite !written_app, Hw, Hw'. simpl. by intros ?%elem_of_nil.
Qed.

Lemma X16_two_pages_witness :
  ∃ out page_num,
    fst (ScrapeSavedJobs.main 5 Examples.two_pages)
    = ScrapeSavedJobs.Collected out page_num
    ∧ out ≠ []
    ∧ "https://www.linkedin.com/jobs/view/1" +:+ nl
      +:+ "https://www.linkedin.com/jobs/view/2" +:+ nl
      +:+ "https://www.linkedin.com/jobs/view/3"
      = String.concat nl out
    ∧ written (snd (main 5 (Cases.world_of Examples.two_pages)))
      = ["https://www.linkedin.com/jobs/view/1" +:+ nl
         +:+ "https://www.linkedin.com/jobs/view/2" +:+ nl
         +:+ "https://www.linkedin.com/jobs/view/3"]
    ∧ opened (snd (main 5 (Cases.world_of Examples.two_pages))) = 1%nat.
Proof.
  apply (X16_only_collected_urls_written 5 (Cases.world_of Examples.two_pages)).
  vm_compute. apply list_elem_of_here.
Defined.

(** X17.  A failure during the pagination discards what the earlier pages
    gave: if the first [k] views advance and a call raises on view [k], the
    [try] block ends in its handler, nothing is written and the file is not
    opened, although [main] itself returns normally. *)
Theorem X17_failure_discards_pages fuel w k e :
  value (prelude w) = Ok tt ->
  (∀ j, (j < k)%nat -> ScrapeSavedJobs.advances (views w j) = true) ->
  ScrapeSavedJobs.advances (views w k) = false ->
  Observed.fails (views w k) = Some e ->
  (k < fuel)%nat ->
  fst (main fuel w) = Some (Ok (Errored e))
  ∧ written (snd (main fuel w)) = []
  ∧ opened (snd (main fuel w)) = 0%nat.
Proof.
  intros Hpre Hadv Hlast Hfail Hfuel.
  destruct (main_after_prelude fuel w Hpre) as (-> & -> & -> & _).
  pose proof (paging_ends (views w) k fuel Hadv Hlast Hfuel) as Hend.
  rewrite Hfail in Hend. pose proof (try_block_facts fuel w) as Htry.
  rewrite Hend in Htry. destruct Htry as (-> & -> & ->). done.
Qed.

Lemma X17_breaks_on_second_witness :
  fst (main 5 (Cases.world_of Cases.breaks_on_second)) = Some (Ok (Errored Cases.crashed))
  ∧ written (snd (main 5 (Cases.world_of Cases.breaks_on_second))) = []
  ∧ opened (snd (main 5 (Cases.world_of Cases.breaks_on_second))) = 0%nat.
Proof.
  apply (X17_failure_discards_pages 5 (Cases.world_of Cases.breaks_on_second) 1).
  - reflexivity.
  - intros j Hj. assert (j = 0)%nat as -> by lia. reflexivity.
  - reflexivity.
  - reflexivity.
  - lia.
Defined.

(** X18.  When the pagination stops at view [k] and the file can be opened
    and written, [main] lists the collected URLs numbered from 1 and writes
    them to the file, one per line, in the order collected; when no URL was
    collected it leaves the file alone. *)
Theorem X18_collected_urls_saved fuel w k :
  value (prelude w) = Ok tt ->
  ScrapeSavedJobs.stops_at (views w) k = true ->
  (k < fuel)%nat ->
  open_file w = Ok tt ->
  (∀ c, write_file w c = Ok tt) ->
  match first_seen (shown (views w) (S k)) with
  | [] =>
      fst (main fuel w) = Some (Ok NoneFound)
      ∧ written (snd (main fuel w)) = []
      ∧ opened (snd (main fuel w)) = 0%nat
  | out =>
      fst (main fuel w) = Some (Ok (Saved out))
      ∧ written (snd (main fuel w)) = [String.concat nl out]
      ∧ opened (snd (main fuel w)) = 1%nat
      ∧ (∀ i url, out !! i = Some url ->
                  Print (str_of_Z (1 + Z.of_nat i) +:+ ". " +:+ url) ∈ snd (main fuel w))
  end.
Proof.
  intros Hpre Hstop Hfuel Hopen Hwrite.
  destruct (main_after_prelude fuel w Hpre) as (-> & -> & -> & Hin).
  destruct (collect_stops (views w) k fuel Hstop Hfuel) as [Hv _].
  pose proof (try_block_facts fuel w) as Htry. rewrite Hv in Htry.
  destruct (first_seen (shown (views w) (S k))) as [|url rest].
  - by destruct Htry as (-> & -> & ->).
  - destruct Htry as (-> & Hprint & Htry). rewrite Hopen, Hwrite in Htry.
    destruct Htry as [-> ->]. split_and!; try done.
    intros i u Hi. apply Hin. by apply Hprint.
Qed.

Lemma X18_two_pages_witness :
  fst (main 5 (Cases.world_of Examples.two_pages))
  = Some (Ok (Saved ["https://www.linkedin.com/jobs/view/1";
                     "https://www.linkedin.com/jobs/view/2";
                     "https://www.linkedin.com/jobs/view/3"]))
  ∧ written (snd (main 5 (Cases.world_of Examples.two_pages)))
    = [String.concat nl ["https://www.linkedin.com/jobs/view/1";
                         "https://www.linkedin.com/jobs/view/2";
                         "https://www.linkedin.com/jobs/view/3"]]
  ∧ opened (snd (main 5 (Cases.world_of Examples.two_pages))) = 1%nat.
Proof.
  pose proof (X18_collected_urls_saved 5 (Cases.world_of Examples.two_pages) 1
                eq_refl eq_refl ltac:(lia) eq_refl (fun _ => eq_refl)) as H.
  destruct H as (Hv & Hw & Ho & _). split; [exact Hv|]. split; [exact Hw|exact Ho].
Defined.

(** X19.  Only what precedes the [try] block can end [main] with an
    exception: [main] raises exactly when its prelude does, and then the
    exception is that of loading the session, of one of the two navigations,
    or of saving the session. *)
Theorem X19_unhandled_exceptions fuel w e :
  (fst (main fuel w) = Some (Raise e) ↔ value (prelude w) = Raise e)
  ∧ (value (prelude w) = Raise e ->
     load_session w = Raise e ∨ goto_start w = Raise e
     ∨ save_session w = Raise e ∨ goto_back w = Raise e).
Proof.
  split; [|apply prelude_raises].
  unfold main. destruct (prelude w) as [[[]|e0] t]; simpl.
  - destruct (try_block fuel w) as [[v|] t']; simpl; split; done.
  - split; by intros [= <-].
Qed.
End MainRuns.

(** ** create_session.py as a whole *)

Section CreateSessionRuns.
Import CreateSessionMain.
Implicit Types (w : world) (t : list event).

Lemma session_saved_app t1 t2 : saved (t1 ++ t2) = saved t1 ++ saved t2.
Proof. apply omap_app. Qed.

Lemma session_printed_app t1 t2 : printed (t1 ++ t2) = printed t1 ++ printed t2.
Proof. apply omap_app. Qed.

Lemma session_checks_app t1 t2 : checks (t1 ++ t2) = (checks t1 + checks t2)%nat.
Proof. unfold checks. by rewrite List.filter_app, length_app. Qed.

Lemma session_checks_cons ev t :
  checks (ev :: t)
  = (match ev with Polling (CreateSession.IsLoggedIn _) => 1 | _ => 0 end + checks t)%nat.
Proof. unfold checks. by destruct ev as [[]| | | |]. Qed.

Lemma session_slept_app t1 t2 : slept (t1 ++ t2) = slept t1 + slept t2.
Proof. induction t1 as [|[[]| | | |] t1 IH]; simpl; lia. Qed.

(** What the poll leaves in the trace of the script. *)
Lemma polling_facts (tp : list CreateSession.event) :
  saved (map Polling tp) = []
  ∧ printed (map Polling tp) = []
  ∧ slept (map Polling tp) = CreateSession.slept tp
  ∧ checks (map Polling tp) = CreateSession.samples tp.
Proof.
  induction tp as [|[] tp (IH1 & IH2 & IH3 & IH4)]; [done|..];
    unfold checks in *; simpl; split_and!; try done; lia.
Qed.

(** The poll within the script: its answer, and how long it takes. *)
Lemma poll_facts w :
  ∃ tp : list CreateSession.event, poll w
       = (Ok (match CreateSession.first_login (is_logged_in w) (py_range 30) with
              | Some _ => true
              | None => false
              end), map Polling tp)
       ∧ CreateSession.slept tp = 10 * Z.of_nat (CreateSession.samples tp)
       ∧ CreateSession.samples tp
         = match CreateSession.first_login (is_logged_in w) (py_range 30) with
           | Some a => S (Z.to_nat a)
           | None => 30%nat
           end.
Proof.
  unfold poll, CreateSession.create_session, CreateSession.poll_with,
    CreateSession.max_attempts.
  rewrite poll_loop_run. eexists. split; [reflexivity|].
  rewrite slept_app, samples_app.
  destruct (waiting_blocks_slept 30
              (CreateSession.waited (is_logged_in w) (py_range 30))) as [-> ->].
  destruct (CreateSession.first_login (is_logged_in w) (py_range 30)) as [a|] eqn:Hf.
  - apply first_login_range in Hf as (_ & -> & Ha).
    unfold py_range. rewrite length_map, length_seq. simpl. lia.
  - rewrite (waited_none _ _ Hf). simpl. split; [lia|done].
Qed.

Ltac session_cases w :=
  let t := fresh "t" in
  let Hp := fresh "Hp" in
  let Hs := fresh "Hs" in
  let Hn := fresh "Hn" in
  destruct (poll_facts w) as (t & Hp & Hs & Hn);
  destruct (polling_facts t) as (Hsaved & Hprinted & Hslept & Hchecks);
  unfold create_session; rewrite Hp;
  destruct (goto_login w) as [[]|e1];
  destruct (CreateSession.first_login (is_logged_in w) (py_range 30)) as [a|];
  destruct (save_session w) as [[]|e2]; simpl;
  rewrite ?session_checks_cons, ?session_saved_app, ?session_printed_app,
    ?session_checks_app, ?session_checks_cons, ?session_slept_app,
    ?Hsaved, ?Hprinted, ?Hslept, ?Hchecks;
  try change (checks []) with 0%nat; simpl.

(** X20.  The session is saved whether or not the login was detected: once
    the login page has been reached, every run saves the session exactly
    once, to session.json, and ends as that call does; a run in which none of
    the 30 checks succeeds prints the warning and saves all the same. *)
Theorem X20_session_saved_either_way w :
  goto_login w = Ok tt ->
  saved (trace (create_session w)) = ["session.json"]
  ∧ value (create_session w) = save_session w
  ∧ (CreateSession.first_login (is_logged_in w) (py_range 30) = None ->
     ("WARNING: Login not detected after 5 minutes" ∈ printed (trace (create_session w)))
     ∧ ("SUCCESS: You are logged in!" ∉ printed (trace (create_session w)))
     ∧ checks (trace (create_session w)) = 30%nat)
  ∧ (∀ a, CreateSession.first_login (is_logged_in w) (py_range 30) = Some a ->
          ("SUCCESS: You are logged in!" ∈ printed (trace (create_session w)))
          ∧ ("WARNING: Login not detected after 5 minutes"
             ∉ printed (trace (create_session w)))
          ∧ checks (trace (create_session w)) = S (Z.to_nat a)).
Proof.
  intros Hgoto. session_cases w; try discriminate Hgoto.
  all: split_and!; [done|done|intros Hf|intros a' Hf]; try discriminate Hf.
  all: split_and!.
  all: try (rewrite !elem_of_cons; tauto).
  all: try (intros Hin%list_elem_of_In; vm_compute in Hin; intuition discriminate).
  all: try (injection Hf as <-); lia.
Qed.

Lemma X20_never_logged_in_witness :
  saved (trace (create_session Cases.session_never)) = ["session.json"]
  ∧ "WARNING: Login not detected after 5 minutes"
    ∈ printed (trace (create_session Cases.session_never)).
Proof.
  destruct (X20_session_saved_either_way Cases.session_never eq_refl)
    as (Hs & _ & Hnone & _).
  split; [exact Hs|]. exact (proj1 (Hnone eq_refl)).
Defined.

(** X21.  How long a run takes: after the login page has been reached the
    script sleeps 3 seconds, 10 seconds before each of its login checks, of
    which there are between 1 and 30, and 10 seconds more once the session is
    saved; so never more than 313 seconds. *)
Theorem X21_session_timing w :
  goto_login w = Ok tt ->
  (1 ≤ checks (trace (create_session w)) ≤ 30)%nat
  ∧ slept (trace (create_session w))
    = 3 + 10 * Z.of_nat (checks (trace (create_session w)))
      + match save_session w with Ok _ => 10 | Raise _ => 0 end
  ∧ slept (trace (create_session w)) <= 313.
Proof.
  intros Hgoto.
  assert (∀ a, CreateSession.first_login (is_logged_in w) (py_range 30) = Some a ->
               0 <= a < 30) as Hrange
    by (intros a Hf; by apply first_login_range in Hf as (_ & _ & ?)).
  session_cases w; try discriminate Hgoto;
    try (specialize (Hrange _ eq_refl)); lia.
Qed.

Lemma X21_logged_in_at_third_witness :
  slept (trace (create_session Cases.session_at_third)) = 43
  ∧ checks (trace (create_session Cases.session_at_third)) = 3%nat.
Proof.
  destruct (X21_session_timing Cases.session_at_third eq_refl) as (_ & Hs & _).
  split; [exact Hs|reflexivity].
Defined.

(** X22.  The only exceptions that leave [create_session] are those of the
    navigation to the login page and of saving the session; when the
    navigation fails, the script neither sleeps, nor checks the login, nor
    saves a session. *)
Theorem X22_create_session_exceptions w e :
  (value (create_session w) = Raise e
   ↔ goto_login w = Raise e ∨ (goto_login w = Ok tt ∧ save_session w = Raise e))
  ∧ (goto_login w = Raise e ->
     saved (trace (create_session w)) = []
     ∧ checks (trace (create_session w)) = 0%nat
     ∧ slept (trace (create_session w)) = 0).
Proof.
  session_cases w; (split; [split|]); try done;
    try (intros [= <-]; auto); try (intros [[= <-]|[_ [= <-]]]; done);
    try (intros [H|[H _]]; discriminate H); try (intros [H|[_ H]]; discriminate H);
    try (intros [H|[H _]]; [exact H|discriminate H]).
Qed.
End CreateSessionRuns.

(** ** scrape_job_details.py *)

Section JobDetailsRuns.
Import JobDetails.
Context {V : Type}.
Variable str : V -> string.
Variable strip : string -> string.
Implicit Types (w : @world V) (t : list (@event V)) (items : list (Z * string)).
Implicit Types (data : list (@dict V)) (lines : list string).

Lemma details_scraped_app t1 t2 : scraped (t1 ++ t2) = scraped t1 ++ scraped t2.
Proof. apply omap_app. Qed.

Lemma details_dumped_app t1 t2 : dumped (t1 ++ t2) = dumped t1 ++ dumped t2.
Proof. apply omap_app. Qed.

Lemma details_slept_app t1 t2 : slept (t1 ++ t2) = slept t1 + slept t2.
Proof. induction t1 as [|[] t1 IH]; simpl; lia. Qed.

(** One iteration of the loop. *)
Lemma scrape_loop_cons w total i url rest data :
  scrape_loop str w total ((i, url) :: rest) data
  = match scrape w i url with
    | Ok j =>
        let '(r, t) := scrape_loop str w total rest (data ++ [to_dict j]) in
        (r, [Print (nl +:+ "[" +:+ str_of_Z i +:+ "/" +:+ str_of_Z total
                    +:+ "] Scraping: " +:+ url);
             Scrape url;
             Print ("  Title: " +:+ str (job_title j));
             Print ("  Company: " +:+ str (company j));
             Print ("  Location: " +:+ str (location j));
             Print ("  Posted: " +:+ str (posted_date j));
             Print ("  Applicants: " +:+ str (applicant_count j))]
            ++ (if i <? total then [Print "  Waiting 3 seconds..."; Sleep 3] else [])
            ++ t)
    | Raise e =>
        let '(r, t) := scrape_loop str w total rest data in
        (r, [Print (nl +:+ "[" +:+ str_of_Z i +:+ "/" +:+ str_of_Z total
                    +:+ "] Scraping: " +:+ url);
             Scrape url;
             Print ("  ERROR: " +:+ exn_str e)]
            ++ t)
    end.
Proof.
  simpl. destruct (scrape w i url) as [j|e]; [destruct (i <? total)|]; simpl.
  - by destruct (scrape_loop str w total rest (data ++ [to_dict j])).
  - by destruct (scrape_loop str w total rest (data ++ [to_dict j])).
  - by destruct (scrape_loop str w total rest data).
Qed.

(** The loop never raises: it returns the dicts of the scrapes that
    succeeded, hands every URL to the scraper, pauses after the successes
    that are not last, and prints every failure. *)
Lemma scrape_loop_facts w total items : ∀ data,
  value (scrape_loop str w total items data) = Ok (data ++ omap (success w) items)
  ∧ scraped (trace (scrape_loop str w total items data)) = items.*2
  ∧ slept (trace (scrape_loop str w total items data)) = 3 * Z.of_nat (pauses w total items)
  ∧ dumped (trace (scrape_loop str w total items data)) = []
  ∧ (∀ item msg, item ∈ items -> failure w item = Some msg ->
                 Print ("  ERROR: " +:+ msg) ∈ trace (scrape_loop str w total items data)).
Proof.
  induction items as [|[i url] rest IH]; intros data.
  - simpl. rewrite app_nil_r. split_and!; try done. by intros ?? ?%elem_of_nil.
  - rewrite scrape_loop_cons. unfold success, failure, pauses in *. simpl.
    destruct (scrape w i url) as [j|e] eqn:Hs.
    + destruct (IH (data ++ [to_dict j])) as (Hv & Hsc & Hsl & Hd & Herr).
      destruct (scrape_loop str w total rest (data ++ [to_dict j])) as [r t].
      unfold value, trace in *. simpl in *. subst r.
      rewrite <- app_assoc. simpl. split; [done|].
      rewrite !details_scraped_app, !details_dumped_app, !details_slept_app, Hsc, Hsl, Hd.
      split_and!.
      * by destruct (i <? total).
      * destruct (i <? total); simpl; lia.
      * by destruct (i <? total).
      * intros item msg [->|Hin]%elem_of_cons Hf.
        -- simpl in Hf. by rewrite Hs in Hf.
        -- do 7 apply list_elem_of_further. rewrite !elem_of_app. eauto.
    + destruct (IH data) as (Hv & Hsc & Hsl & Hd & Herr).
      destruct (scrape_loop str w total rest data) as [r t].
      unfold value, trace in *. simpl in *. subst r.
      split_and!; try done; [by f_equal|].
      intros item msg [->|Hin]%elem_of_cons Hf.
      * simpl in Hf. rewrite Hs in Hf. injection Hf as <-.
        do 2 apply list_elem_of_further. apply list_elem_of_here.
      * do 3 apply list_elem_of_further. eauto.
Qed.





Lemma omap_none {A B} (f : A -> option B) (l : list A) :
  (∀ x, x ∈ l -> f x = None) -> omap f l = [].
Proof.
  induction l as [|x l IH]; intros Hnone; [done|].
  change (omap f (x :: l))
    with (match f x with Some y => y :: omap f l | None => omap f l end).
  rewrite (Hnone x) by apply list_elem_of_here.
  apply IH. intros y Hy. apply Hnone. by apply list_elem_of_further.
Qed.


(** A run of [main] in which the file can be read and the session loads. *)
Lemma details_main_run w lines :
  read_lines w = Ok lines ->
  load_session w = Ok tt ->
  ∃ t,
    scrape_loop str w (len (job_urls_of strip lines))
      (enumerate 1 (job_urls_of strip lines)) []
    = (Ok (omap (success w) (enumerate 1 (job_urls_of strip lines))), t)
    ∧ main str strip w
      = (match dump w (omap (success w) (enumerate 1 (job_urls_of strip lines))) with
         | Ok _ => Ok (omap (success w) (enumerate 1 (job_urls_of strip lines)))
         | Raise e => Raise e
         end,
         [Open "saved_job_urls.txt";
          Print ("Found " +:+ str_of_Z (len (job_urls_of strip lines))
                 +:+ " saved jobs to scrape" +:+ nl);
          Print "Loading session...";
          LoadSession "session.json"]
         ++ t
         ++ [Dump "saved_jobs_details.json"
               (omap (success w) (enumerate 1 (job_urls_of strip lines)))]
         ++ match dump w (omap (success w) (enumerate 1 (job_urls_of strip lines))) with
            | Ok _ =>
                [Print (nl +:+ rule);
                 Print ("SUCCESS! Scraped "
                        +:+ str_of_Z (len (omap (success w)
                                             (enumerate 1 (job_urls_of strip lines))))
                        +:+ "/" +:+ str_of_Z (len (job_urls_of strip lines)) +:+ " jobs");
                 Print ("Results saved to: " +:+ "saved_jobs_details.json");
                 Print rule]
            | Raise _ => []
            end).
Proof.
  intros Hread Hload.
  destruct (scrape_loop_facts w (len (job_urls_of strip lines))
              (enumerate 1 (job_urls_of strip lines)) []) as (Hv & _).
  unfold main. rewrite Hread, Hload. simpl.
  destruct (scrape_loop str w (len (job_urls_of strip lines))
              (enumerate 1 (job_urls_of strip lines)) []) as [r t].
  unfold value in Hv. simpl in Hv. subst r. exists t. split; [done|].
  simpl. by destruct (dump w (omap (success w) (enumerate 1 (job_urls_of strip lines))))
    as [[]|e].
Qed.


(** The trace of a run of [main] around that of its loop. *)
Lemma details_observed w lines t :
  let data := omap (success w) (enumerate 1 (job_urls_of strip lines)) in
  let tail :=
    match dump w data with
    | Ok _ =>
        [Print (nl +:+ rule);
         Print ("SUCCESS! Scraped " +:+ str_of_Z (len data) +:+ "/"
                +:+ str_of_Z (len (job_urls_of strip lines)) +:+ " jobs");
         Print ("Results saved to: " +:+ "saved_jobs_details.json");
         Print rule]
    | Raise _ => []
    end in
  let whole :=
    [Open "saved_job_urls.txt";
     Print ("Found " +:+ str_of_Z (len (job_urls_of strip lines))
            +:+ " saved jobs to scrape" +:+ nl);
     Print "Loading session...";
     LoadSession "session.json"]
    ++ t ++ [Dump "saved_jobs_details.json" data] ++ tail in
  scraped whole = scraped t
  ∧ dumped whole = dumped t ++ [data]
  ∧ slept whole = slept t
  ∧ (∀ ev, ev ∈ t -> ev ∈ whole)
  ∧ (∀ ev, ev ∈ tail -> ev ∈ whole).
Proof.
  intros data tail whole.
  assert (scraped tail = [] ∧ dumped tail = [] ∧ slept tail = 0) as (Hs & Hd & Hsl)
    by (unfold tail; by destruct (dump w data)).
  unfold whole. split_and!.
  - rewrite !details_scraped_app, Hs. simpl. by rewrite app_nil_r.
  - rewrite !details_dumped_app, Hd. simpl. done.
  - rewrite !details_slept_app, Hsl. simpl. lia.
  - intros ev Hev. rewrite !elem_of_app. auto.
  - intros ev Hev. rewrite !elem_of_app. auto.
Qed.



(** X26.  The closing line counts the successes, not the attempts: when the
    JSON file is written the script prints [SUCCESS! Scraped k/n jobs] with
    [k] the number of scrapes that succeeded and [n] the number of URLs, and
    it prints it with [k = 0] when every scrape failed. *)
Theorem X26_summary_counts_successes w lines :
  read_lines w = Ok lines ->
  load_session w = Ok tt ->
  dump w (omap (success w) (enumerate 1 (job_urls_of strip lines))) = Ok tt ->
  Print ("SUCCESS! Scraped "
         +:+ str_of_Z (len (omap (success w) (enumerate 1 (job_urls_of strip lines))))
         +:+ "/" +:+ str_of_Z (len (job_urls_of strip lines)) +:+ " jobs")
  ∈ trace (main str strip w)
  ∧ ((∀ item, item ∈ enumerate 1 (job_urls_of strip lines) -> success w item = None) ->
     Print ("SUCCESS! Scraped 0/" +:+ str_of_Z (len (job_urls_of strip lines)) +:+ " jobs")
     ∈ trace (main str strip w)).
Proof.
  intros Hread Hload Hdump.
  destruct (details_main_run w lines Hread Hload) as (t & _ & ->).
  unfold trace. cbn [fst snd].
  destruct (details_observed w lines t) as (_ & _ & _ & _ & Htail).
  cbv zeta in Htail. rewrite Hdump in Htail.
  assert (Print ("SUCCESS! Scraped "
                 +:+ str_of_Z (len (omap (success w)
                                      (enumerate 1 (job_urls_of strip lines))))
                 +:+ "/" +:+ str_of_Z (len (job_urls_of strip lines)) +:+ " jobs")
          ∈ [Open "saved_job_urls.txt";
             Print ("Found " +:+ str_of_Z (len (job_urls_of strip lines))
                    +:+ " saved jobs to scrape" +:+ nl);
             Print "Loading session...";
             LoadSession "session.json"]
            ++ t
            ++ [Dump "saved_jobs_details.json"
                  (omap (success w) (enumerate 1 (job_urls_of strip lines)))]
            ++ match dump w (omap (success w)
                               (enumerate 1 (job_urls_of strip lines))) with
               | Ok _ =>
                   [Print (nl +:+ rule);
                    Print ("SUCCESS! Scraped "
                           +:+ str_of_Z (len (omap (success w)
                                                (enumerate 1 (job_urls_of strip lines))))
                           +:+ "/" +:+ str_of_Z (len (job_urls_of strip lines))
                           +:+ " jobs");
                    Print ("Results saved to: " +:+ "saved_jobs_details.json");
                    Print rule]
               | Raise _ => []
               end) as Hin.
  { rewrite Hdump. apply Htail. apply list_elem_of_further, list_elem_of_here. }
  split; [exact Hin|]. intros Hnone.
  assert (omap (success w) (enumerate 1 (job_urls_of strip lines)) = []) as Hempty.
  { by apply omap_none. }
  rewrite Hempty in Hin |- *. exact Hin.
Qed.

(** X27.  A failed scrape never ends the run.  The only exceptions that
    leave [main] are those of reading saved_job_urls.txt, of loading the
    session, and of writing saved_jobs_details.json; and when the file
    cannot be read, nothing is scraped. *)
Theorem X27_details_exceptions w e :
  (value (main str strip w) = Raise e
   ↔ read_lines w = Raise e
     ∨ ∃ lines,
         read_lines w = Ok lines
         ∧ (load_session w = Raise e
            ∨ (load_session w = Ok tt
               ∧ dump w (omap (success w) (enumerate 1 (job_urls_of strip lines)))
                 = Raise e)))
  ∧ (read_lines w = Raise e -> scraped (trace (main str strip w)) = []).
Proof.
  split.
  - destruct (read_lines w) as [lines|e0] eqn:Hread.
    + destruct (load_session w) as [[]|e1] eqn:Hload.
      * destruct (details_main_run w lines Hread Hload) as (t & _ & ->).
        unfold value. cbn [fst].
        destruct (dump w (omap (success w) (enumerate 1 (job_urls_of strip lines))))
          as [[]|e2] eqn:Hdump.
        -- split; [done|]. intros [[=]|(lines' & [= <-] & [[=]|[_ Hd]])].
           rewrite Hdump in Hd. discriminate Hd.
        -- split.
           ++ intros [= <-]. right. exists lines. rewrite Hdump. auto.
           ++ intros [[=]|(lines' & [= <-] & [[=]|[_ Hd]])].
              rewrite Hdump in Hd. by injection Hd as <-.
      * unfold main. rewrite Hread, Hload. simpl. split.
        -- intros [= <-]. right. exists lines. auto.
        -- by intros [[=]|(lines' & [= <-] & [[= <-]|[[=] _]])].
    + unfold main. rewrite Hread. simpl. split.
      * intros [= <-]. by left.
      * by intros [[= <-]|(lines' & [=] & _)].
  - intros Hread. unfold main. rewrite Hread. done.
Qed.
End JobDetailsRuns.




Lemma X26_two_of_three_witness :
  JobDetails.Print "SUCCESS! Scraped 2/3 jobs"
  ∈ trace (JobDetails.main (fun s => s) Cases.strip Cases.details_world).
Proof.
  exact (proj1 (X26_summary_counts_successes (fun s => s) Cases.strip
                  Cases.details_world Cases.three_lines eq_refl eq_refl eq_refl)).
Defined.
